(** * PayAid AI Studio: request handlers as pure functions

    A shallow embedding of the route handlers of the AI Studio module
    ([src/app/api/ai/chat/route.ts], the telephony webhook, and the usage
    and image routes).

    Conventions.
    - A JavaScript string is modelled by the [string] of its UTF-8 bytes.
      Substring tests on well-formed UTF-8 agree with substring tests on
      code points; [js_length] recovers the UTF-16 length that
      [String.prototype.length] reports.
    - [String.prototype.toLowerCase] depends on the Unicode tables of the
      runtime; the handlers take it as an argument ([lower]), and
      [ascii_toLowerCase] is its restriction to ASCII text.
    - An [async] handler is a computation in the monad [M]: it threads the
      in-process view of the cache and of the job queue, records the calls
      made to external collaborators (authenticator, ORM, provider
      clients) as a list of [Event]s, and may throw a [JsError].
    - External collaborators are oracles: fields of an environment record
      that give, for every call, either a value or the error thrown. *)

From Stdlib Require Import String Ascii List Bool Arith Lia.
Import ListNotations.
Local Open Scope list_scope.
Local Open Scope string_scope.



(* ===================================================================== *)
(** ** JavaScript strings *)
(* ===================================================================== *)

Module JsString.

Definition chr (n : nat) : string := String (ascii_of_nat n) EmptyString.

(** Line feed and the double quote, which Rocq literals cannot escape. *)
Definition nl : string := chr 10.
Definition dq : string := chr 34.

(** [s.includes(sub)] *)
Fixpoint includes (s sub : string) : bool :=
  if String.prefix sub s then true
  else match s with
       | EmptyString => false
       | String _ rest => includes rest sub
       end.

(** JavaScript truthiness of a string: only [''] is falsy. *)
Definition truthy (s : string) : bool :=
  match s with EmptyString => false | String _ _ => true end.

(** [a || b] on strings. *)
Definition or_else (a b : string) : string := if truthy a then a else b.

(** [s.length]: UTF-16 code units of the text whose UTF-8 bytes are [s].
    Every byte that is not a continuation byte starts a code point; a
    lead byte of a four-byte sequence starts a surrogate pair. *)
Fixpoint js_length (s : string) : nat :=
  match s with
  | EmptyString => 0
  | String c rest =>
      let b := nat_of_ascii c in
      (if (b <? 128)%nat || (192 <=? b)%nat then 1 else 0)
      + (if (240 <=? b)%nat then 1 else 0)
      + js_length rest
  end.

(** ASCII restriction of [toLowerCase]. *)
Definition lower_ascii (c : ascii) : ascii :=
  let b := nat_of_ascii c in
  if (65 <=? b)%nat && (b <=? 90)%nat then ascii_of_nat (b + 32) else c.

Fixpoint ascii_toLowerCase (s : string) : string :=
  match s with
  | EmptyString => EmptyString
  | String c rest => String (lower_ascii c) (ascii_toLowerCase rest)
  end.

(** [arr.join(sep)] *)
Fixpoint join (sep : string) (l : list string) : string :=
  match l with
  | [] => ""
  | [x] => x
  | x :: rest => x ++ sep ++ join sep rest
  end.

(** [s.split('\n')]: always at least one piece. *)
Fixpoint split_lines_aux (cur : string) (s : string) : list string :=
  match s with
  | EmptyString => [cur]
  | String c rest =>
      if Ascii.eqb c (ascii_of_nat 10)
      then cur :: split_lines_aux "" rest
      else split_lines_aux (cur ++ String c "") rest
  end.

Definition split_lines (s : string) : list string := split_lines_aux "" s.

Definition rev_string (s : string) : string :=
  string_of_list_ascii (rev (list_ascii_of_string s)).

(** White space and line terminators that [trim()] strips, as UTF-8 byte
    sequences: TAB, LF, VT, FF, CR, SP, U+00A0, U+1680, U+2000..U+200A,
    U+2028, U+2029, U+202F, U+205F, U+3000, U+FEFF. *)
Definition bytes (l : list nat) : string :=
  string_of_list_ascii (map ascii_of_nat l).

Definition whitespace : list string :=
  map bytes
    ([[9]; [10]; [11]; [12]; [13]; [32]; [194; 160]; [225; 154; 128]]
     ++ map (fun k => [226; 128; 128 + k]) (seq 0 11)
     ++ [[226; 128; 168]; [226; 128; 169]; [226; 128; 175];
         [226; 129; 159]; [227; 128; 128]; [239; 187; 191]])%list.

(** Drops one leading white-space character, if there is one. *)
Definition drop_ws (ws : list string) (s : string) : option string :=
  match find (fun w => String.prefix w s) ws with
  | Some w => Some (substring (String.length w) (String.length s - String.length w) s)
  | None => None
  end.

Fixpoint trimStart_fuel (ws : list string) (fuel : nat) (s : string) : string :=
  match fuel with
  | 0 => s
  | S n => match drop_ws ws s with
           | Some rest => trimStart_fuel ws n rest
           | None => s
           end
  end.

Definition trimStart (s : string) : string :=
  trimStart_fuel whitespace (String.length s) s.

Definition trimEnd (s : string) : string :=
  rev_string (trimStart_fuel (map rev_string whitespace) (String.length s) (rev_string s)).

(** [s.trim()] *)
Definition trim (s : string) : string := trimEnd (trimStart s).

Definition is_digit (c : ascii) : bool :=
  let b := nat_of_ascii c in (48 <=? b)%nat && (b <=? 57)%nat.

(** [/^\d+\./.test(s)] *)
Fixpoint digits_then_dot (seen : bool) (s : string) : bool :=
  match s with
  | EmptyString => false
  | String c rest =>
      if is_digit c then digits_then_dot true rest
      else seen && Ascii.eqb c "."%char
  end.

Definition test_numbered (s : string) : bool := digits_then_dot false s.

(** The longest prefix of [s] whose bytes satisfy [p], and the rest. *)
Fixpoint span (p : ascii -> bool) (s : string) : string * string :=
  match s with
  | EmptyString => ("", "")
  | String c rest =>
      if p c then let '(a, b) := span p rest in (String c a, b)
      else ("", s)
  end.

(** Text of [s] before the first position at which one of [stops] starts;
    [None] when none of them occurs. *)
Fixpoint before_first (stops : list string) (s : string) : option string :=
  if existsb (fun st => String.prefix st s) stops then Some ""
  else match s with
       | EmptyString => None
       | String c rest =>
           match before_first stops rest with
           | Some t => Some (String c t)
           | None => None
           end
       end.

Definition drop (n : nat) (s : string) : string := substring n (String.length s - n) s.

End JsString.

Import JsString.


(* ===================================================================== *)
(** ** Values, errors and effects *)
(* ===================================================================== *)

(** The JavaScript values that the handlers pass around or put in a
    response body. [JFunction] and [JObject] are opaque but truthy. *)
Inductive JsValue :=
| JUndefined
| JNull
| JBool (b : bool)
| JNum (n : nat)
| JString (s : string)
| JStrings (l : list string)
| JFunction (name : string)
| JObject (name : string)
| JCounts (perService : list (string * (nat * nat))).

Definition js_truthy (v : JsValue) : bool :=
  match v with
  | JUndefined | JNull => false
  | JBool b => b
  | JNum n => negb (Nat.eqb n 0)
  | JString s => truthy s
  | JStrings _ | JFunction _ | JObject _ | JCounts _ => true
  end.

(** [a || b] *)
Definition js_or (a b : JsValue) : JsValue := if js_truthy a then a else b.

(** A thrown value, with the three things the [catch] blocks look at:
    its message, whether it has a [moduleId] property (license errors), and
    whether it is a [ZodError]. *)
Record JsError := {
  err_message : string;
  err_hasModuleId : bool;
  err_isZodError : bool
}.

Definition Error_ (msg : string) : JsError :=
  {| err_message := msg; err_hasModuleId := false; err_isZodError := false |}.

Inductive Result (A : Type) :=
| Ok (a : A)
| Throw (e : JsError).
Arguments Ok {A} a.
Arguments Throw {A} e.

Inductive Provider := Groq | Ollama | HuggingFace | OpenAI.

(** ORM tables and the conditions that occur in the [where] clauses. *)
Inductive Table :=
| TTenant | TContact | TDeal | TInteraction | TProduct
| TOrder | TInvoice | TTask | TAICall | TAIUsage.

Inductive Cond :=
| IdIs (id : string)
| TenantIdIs (tenantId : string)
| ContactIdIs (contactId : string)
| NameOrCompanyContains (terms : list string)
| StatusIn (statuses : list string)
| PaidAtNull
| CreatedInLast30Days
| CreatedThisMonth
| TwilioCallSidIs (sid : option string).

Inductive QueryKind := FindUnique | FindMany | Count | GroupBy.

Record Query := {
  q_table : Table;
  q_kind : QueryKind;
  q_where : list Cond;
  q_take : option nat
}.

(** The [data] of [prisma.aICall.create]. *)
Record CallCreate := {
  cc_phoneNumber : option string;
  cc_direction : string;
  cc_status : JsValue;
  cc_twilioCallSid : option string;
  cc_twilioAccountSid : option string;
  cc_handledByAI : bool;
  cc_tenantId : string
}.

(** The [data] of [prisma.aICall.update]; dates are clock readings. *)
Record CallUpdate := {
  cu_status : JsValue;
  cu_answeredAt : option nat;
  cu_endedAt : option nat
}.

(** The payload of the [log-ai-interaction] job. *)
Record LogJob := {
  job_userId : string;
  job_tenantId : string;
  job_query : string;
  job_response : string;
  job_module : string
}.

(** Calls to external collaborators, in the order they are made. *)
Inductive Event :=
| EvAccessCheck (moduleId : string)
| EvReadBody
| EvQuery (q : Query)
| EvCreateCall (data : CallCreate)
| EvUpdateCall (id : string) (data : CallUpdate)
| EvAnalyzeContext (message : string)
| EvProviderCall (p : Provider) (system user : string)
| EvGatewayCall (what : string)
| EvCacheSet (key value : string)
| EvEnqueue (job : LogJob).

Definition is_provider_call (e : Event) : bool :=
  match e with EvProviderCall _ _ _ | EvGatewayCall _ => true | _ => false end.

Definition is_persistence (e : Event) : bool :=
  match e with
  | EvQuery _ | EvCreateCall _ | EvUpdateCall _ _ => true
  | _ => false
  end.

Definition is_cache_write (e : Event) : bool :=
  match e with EvCacheSet _ _ => true | _ => false end.

Definition is_enqueue (e : Event) : bool :=
  match e with EvEnqueue _ => true | _ => false end.

Definition is_access_check (e : Event) : bool :=
  match e with EvAccessCheck _ => true | _ => false end.

(** Anything after the access check counts as business logic. *)
Definition is_business_logic (e : Event) : bool :=
  match e with EvAccessCheck _ => false | _ => true end.

(** What a handler can see of the shared stores it writes to. *)
Record Store := {
  cache : list (string * string);
  queue : list LogJob
}.

Definition empty_store : Store := {| cache := []; queue := [] |}.

(** An HTTP response: status and body. *)
Inductive Body :=
| Json (fields : list (string * JsValue))
| Xml (markup : string).

Record Response := { status : nat; body : Body }.

Definition json (st : nat) (fields : list (string * JsValue)) : Response :=
  {| status := st; body := Json fields |}.

Fixpoint field (name : string) (fields : list (string * JsValue)) : JsValue :=
  match fields with
  | [] => JUndefined
  | (k, v) :: rest => if String.eqb k name then v else field name rest
  end.

Definition body_field (name : string) (r : Response) : JsValue :=
  match body r with
  | Json fields => field name fields
  | Xml _ => JUndefined
  end.

(* ===================================================================== *)
(** ** The handler monad *)
(* ===================================================================== *)

Module Eff.

(** State, exceptions, and a log of the collaborator calls made. The
    store and the log survive a throw, as side effects do. *)
Definition M (A : Type) : Type := Store -> Result A * Store * list Event.

Definition ret {A} (a : A) : M A := fun s => (Ok a, s, []).

Definition bind {A B} (m : M A) (k : A -> M B) : M B :=
  fun s =>
    match m s with
    | (Ok a, s1, t1) => let '(r, s2, t2) := k a s1 in (r, s2, (t1 ++ t2)%list)
    | (Throw e, s1, t1) => (Throw e, s1, t1)
    end.

Definition throw {A} (e : JsError) : M A := fun s => (Throw e, s, []).

(** [try { m } catch (e) { h e }] *)
Definition try_catch {A} (m : M A) (h : JsError -> M A) : M A :=
  fun s =>
    match m s with
    | (Ok a, s1, t1) => (Ok a, s1, t1)
    | (Throw e, s1, t1) => let '(r, s2, t2) := h e s1 in (r, s2, (t1 ++ t2)%list)
    end.

Definition emit (e : Event) : M unit := fun s => (Ok tt, s, [e]).

(** A call to a collaborator: log it, then return or throw what the
    oracle says. *)
Definition call {A} (e : Event) (r : Result A) : M A :=
  fun s => (r, s, [e]).

Definition lift {A} (r : Result A) : M A := fun s => (r, s, []).

Definition modify (f : Store -> Store) : M unit := fun s => (Ok tt, f s, []).

Definition result_of {A} (x : Result A * Store * list Event) : Result A := fst (fst x).
Definition store_of {A} (x : Result A * Store * list Event) : Store := snd (fst x).
Definition trace_of {A} (x : Result A * Store * list Event) : list Event := snd x.

End Eff.

Import Eff.

Declare Scope eff_scope.
Delimit Scope eff_scope with eff.
Notation "x <- c ;; k" := (bind c (fun x => k))
  (at level 61, c at next level, right associativity) : eff_scope.
Notation "c ;;; k" := (bind c (fun _ => k))
  (at level 61, right associativity) : eff_scope.

(** Case analysis on the innermost scrutinee the goal branches on. *)
Ltac break_match :=
  repeat match goal with
         | |- context [match ?x with _ => _ end] =>
             lazymatch x with
             | context [match _ with _ => _ end] => fail
             | _ => destruct x eqn:?; simpl
             end
         end.

(** Case analysis on the tests a goal still branches on. *)
Ltac split_ifs :=
  repeat match goal with
         | |- context [if ?b then _ else _] => destruct b; simpl
         end.

(** Evaluating an identifier that no declaration, import or global
    binds raises a [ReferenceError]; it is an [Error] whose message names
    the identifier. *)
Definition ReferenceError (name : string) : JsError := Error_ (name ++ " is not defined").

Definition unbound {A} (name : string) : M A := throw (ReferenceError name).

(* ===================================================================== *)
(** ** POST /api/calls/webhook *)
(* ===================================================================== *)

Module Webhook.

(** Property lookup [obj[key]] on an object literal goes through the
    prototype chain: own properties first, then [Object.prototype]. *)
Definition Object_prototype : list (string * JsValue) :=
  [ ("constructor", JFunction "Object");
    ("__defineGetter__", JFunction "__defineGetter__");
    ("__defineSetter__", JFunction "__defineSetter__");
    ("hasOwnProperty", JFunction "hasOwnProperty");
    ("__lookupGetter__", JFunction "__lookupGetter__");
    ("__lookupSetter__", JFunction "__lookupSetter__");
    ("isPrototypeOf", JFunction "isPrototypeOf");
    ("propertyIsEnumerable", JFunction "propertyIsEnumerable");
    ("toString", JFunction "toString");
    ("valueOf", JFunction "valueOf");
    ("__proto__", JObject "Object.prototype");
    ("toLocaleString", JFunction "toLocaleString") ].

Fixpoint own_property (props : list (string * string)) (key : string) : option string :=
  match props with
  | [] => None
  | (k, v) :: rest => if String.eqb k key then Some v else own_property rest key
  end.

Definition get_property (props : list (string * string)) (key : string) : JsValue :=
  match own_property props key with
  | Some v => JString v
  | None => field key Object_prototype
  end.

Definition statusMap : list (string * string) :=
  [ ("ringing", "RINGING");
    ("in-progress", "ANSWERED");
    ("completed", "COMPLETED");
    ("busy", "BUSY");
    ("no-answer", "NO_ANSWER");
    ("failed", "FAILED");
    ("canceled", "FAILED") ].

(** The fields of the form-encoded callback; [formData.get] gives
    [null] for a field that is absent. *)
Record FormData := {
  CallSid : option string;
  CallStatus : option string;
  From : option string;
  To : option string;
  Direction : option string;
  AccountSid : option string
}.

(** What the handler reads of an existing call record. *)
Record AICall := {
  call_id : string;
  call_answeredAt : option nat;
  call_endedAt : option nat
}.

Record Env := {
  formData : Result FormData;
  aICall_findUnique : option string -> Result (option AICall);
  aICall_create : CallCreate -> Result AICall;
  aICall_update : string -> CallUpdate -> Result unit;
  now : nat
}.

Section WithRuntime.

(** [String.prototype.toLowerCase] *)
Variable lower : string -> string.

(** [return statusMap[status.toLowerCase()] || 'RINGING'] *)
Definition mapTwilioStatus (status : string) : JsValue :=
  js_or (get_property statusMap (lower status)) (JString "RINGING").

Definition eq_lit (v : option string) (lit : string) : bool :=
  match v with Some s => String.eqb s lit | None => false end.

(** [mapTwilioStatus(callStatus)] at the call site: [null.toLowerCase()]
    is a [TypeError]. *)
Definition mapTwilioStatus_of (callStatus : option string) : M JsValue :=
  match callStatus with
  | Some s => ret (mapTwilioStatus s)
  | None => throw (Error_ "Cannot read properties of null (reading 'toLowerCase')")
  end.

Definition twiml : string :=
  "<?xml version=" ++ dq ++ "1.0" ++ dq ++ " encoding=" ++ dq ++ "UTF-8" ++ dq ++ "?>" ++ nl ++
  "<Response>" ++ nl ++
  "  <Say voice=" ++ dq ++ "alice" ++ dq ++ ">Hello, this is an AI assistant. How can I help you today?</Say>" ++ nl ++
  "  <Gather input=" ++ dq ++ "speech" ++ dq ++ " action=" ++ dq ++ "/api/calls/process-speech" ++ dq ++
    " method=" ++ dq ++ "POST" ++ dq ++ " speechTimeout=" ++ dq ++ "auto" ++ dq ++ ">" ++ nl ++
  "    <Say>Please speak your question or request.</Say>" ++ nl ++
  "  </Gather>" ++ nl ++
  "</Response>".

Definition find_call_query (callSid : option string) : Query :=
  {| q_table := TAICall; q_kind := FindUnique;
     q_where := [TwilioCallSidIs callSid]; q_take := None |}.

Definition POST (E : Env) : M Response :=
  try_catch
    (fd <- call EvReadBody (formData E) ;;
     let callSid := CallSid fd in
     let callStatus := CallStatus fd in
     let from := From fd in
     let to := To fd in
     let direction := Direction fd in
     found <- call (EvQuery (find_call_query callSid)) (aICall_findUnique E callSid) ;;
     match found with
     | None =>
         let tenantId := "default" in
         st <- mapTwilioStatus_of callStatus ;;
         _ <- call (EvCreateCall
                      {| cc_phoneNumber := if eq_lit direction "inbound" then from else to;
                         cc_direction := if eq_lit direction "inbound" then "INBOUND" else "OUTBOUND";
                         cc_status := st;
                         cc_twilioCallSid := callSid;
                         cc_twilioAccountSid := AccountSid fd;
                         cc_handledByAI := true;
                         cc_tenantId := tenantId |})
                   (aICall_create E
                      {| cc_phoneNumber := if eq_lit direction "inbound" then from else to;
                         cc_direction := if eq_lit direction "inbound" then "INBOUND" else "OUTBOUND";
                         cc_status := st;
                         cc_twilioCallSid := callSid;
                         cc_twilioAccountSid := AccountSid fd;
                         cc_handledByAI := true;
                         cc_tenantId := tenantId |}) ;;
         ret tt
     | Some existing =>
         st <- mapTwilioStatus_of callStatus ;;
         let data :=
           {| cu_status := st;
              cu_answeredAt := if eq_lit callStatus "in-progress" then Some (now E)
                               else call_answeredAt existing;
              cu_endedAt := if eq_lit callStatus "completed" then Some (now E)
                            else call_endedAt existing |} in
         call (EvUpdateCall (call_id existing) data)
              (aICall_update E (call_id existing) data)
     end ;;;
     if eq_lit callStatus "ringing" || eq_lit callStatus "in-progress"
     then ret {| status := 200; body := Xml twiml |}
     else ret (json 200 [("success", JBool true)]))%eff
    (fun _ => ret (json 500 [("error", JString "Failed to process webhook")])).

(** The [create] payloads among the calls a handler made. *)
Fixpoint created (t : list Event) : list CallCreate :=
  match t with
  | [] => []
  | EvCreateCall d :: rest => d :: created rest
  | _ :: rest => created rest
  end.

End WithRuntime.

End Webhook.

(* ===================================================================== *)
(** ** POST /api/ai/chat *)
(* ===================================================================== *)

Module Chat.

(** *** Data *)

(** The result of [analyzePromptContext] (lib/ai/context-analyzer). *)
Inductive Confidence := low | medium | high.

Record ContextFlags := {
  hasBusinessData : bool;
  hasRelevantContact : bool;
  hasRelevantDeal : bool;
  hasProducts : bool;
  hasTasks : bool;
  hasInvoices : bool;
  hasDeals : bool
}.

Record ContextAnalysis := {
  hasEnoughContext : bool;
  confidence : Confidence;
  missingContext : list string;
  suggestedQuestions : list string
}.

Definition is_low (c : Confidence) : bool :=
  match c with low => true | _ => false end.

Record ChatMessage := { role : string; content : string }.

(** What a provider client returns: [{ message, usage }]. *)
Record ChatResponse := { message : string; usage : JsValue }.

(** The request body before and after [chatSchema.parse]. *)
Inductive RawContext :=
  | ContextAbsent
  | ContextObject (module_ tenantId : JsValue)
  | ContextInvalid.

Record RawBody := { raw_message : JsValue; raw_context : RawContext }.

Record RequestContext := { ctx_module : option string; ctx_tenantId : option string }.

Record Validated := { v_message : string; v_context : option RequestContext }.

(** [validated.context?.module] *)
Definition module_of (context : option RequestContext) : option string :=
  match context with Some c => ctx_module c | None => None end.

(** [fetch(...)] to OpenAI: [ok] and the parsed body. A [Throw] in
    [fetch_json] stands for [json()] rejecting or for [data.choices]
    not being indexable. *)
Record OpenAIData := { first_choice_content : option string; data_usage : JsValue }.
Record FetchResponse := { ok : bool; fetch_json : Result OpenAIData }.

(** A row read through the ORM. *)
Record Row := {
  row_id : string;
  row_tenantId : string;
  row_fields : list (string * JsValue)
}.

(** Everything [getBusinessContext] has fetched when it renders the
    context block. *)
Record ContextData := {
  cd_tenant : option Row;
  cd_relevantContact : option Row;
  cd_relevantDeal : option Row;
  cd_interactions : list Row;
  cd_products : list Row;
  cd_counts : list nat;
  cd_overdueInvoices : list Row;
  cd_pendingTasks : list Row;
  cd_recentDeals : list Row;
  cd_recentOrders : list Row;
  cd_pendingInvoices : list Row
}.

(** The circumstances of one request: the request itself, the process
    environment, and what each collaborator answers. *)
Record Env := {
  (* lib/middleware/auth *)
  requireModuleAccess : string -> Result (string * string);
  handleLicenseError : JsError -> Response;
  (* the request *)
  request_json : Result (option RawBody);
  (* process.env *)
  GROQ_API_KEY : option string;
  HUGGINGFACE_API_KEY : option string;
  OPENAI_API_KEY : option string;
  NODE_ENV : option string;
  (* provider clients *)
  groq_chat : list ChatMessage -> Result ChatResponse;
  ollama_chat : list ChatMessage -> Result ChatResponse;
  huggingFace_chat : list ChatMessage -> Result ChatResponse;
  openai_fetch : string -> list ChatMessage -> Result FetchResponse;
  (* the ORM *)
  prisma_findUnique : Query -> Result (option Row);
  prisma_findMany : Query -> Result (list Row);
  prisma_count : Query -> Result nat;
  (* the name extraction of getBusinessContext (its regular
     expressions, lines 511-528) and the rendering of the fetched rows
     (lines 698-798, locale-dependent number and date formats) *)
  extractedNames : string -> list string;
  renderContext : ContextData -> Result string;
  (* lib/ai/context-analyzer *)
  analyzePromptContext : string -> ContextFlags -> ContextAnalysis;
  formatClarifyingQuestions : ContextAnalysis -> string;
  (* lib/ai/semantic-cache and lib/queue/bull *)
  semanticCache_set : string -> string -> Result unit;
  mediumPriorityQueue_add : LogJob -> Result unit
}.

(** *** chatSchema *)

Definition ZodError : JsError :=
  {| err_message := "ZodError"; err_hasModuleId := false; err_isZodError := true |}.

Definition module_enum : list string :=
  ["crm"; "accounting"; "inventory"; "marketing"; "hr"; "general"].

Definition parse_module (v : JsValue) : Result (option string) :=
  match v with
  | JUndefined => Ok None
  | JString s => if existsb (String.eqb s) module_enum then Ok (Some s) else Throw ZodError
  | _ => Throw ZodError
  end.

Definition parse_optional_string (v : JsValue) : Result (option string) :=
  match v with
  | JUndefined => Ok None
  | JString s => Ok (Some s)
  | _ => Throw ZodError
  end.

Definition parse_context (c : RawContext) : Result (option RequestContext) :=
  match c with
  | ContextAbsent => Ok None
  | ContextObject m t =>
      match parse_module m, parse_optional_string t with
      | Ok m', Ok t' => Ok (Some {| ctx_module := m'; ctx_tenantId := t' |})
      | _, _ => Throw ZodError
      end
  | ContextInvalid => Throw ZodError
  end.

(** [chatSchema.parse(body)]: [message] is a string of length at least
    one, [context] is optional. [None] is a body that is not an object. *)
Definition chatSchema_parse (body : option RawBody) : Result Validated :=
  match body with
  | None => Throw ZodError
  | Some b =>
      match raw_message b with
      | JString m =>
          if (1 <=? js_length m)%nat then
            match parse_context (raw_context b) with
            | Ok c => Ok {| v_message := m; v_context := c |}
            | Throw e => Throw e
            end
          else Throw ZodError
      | _ => Throw ZodError
      end
  end.

(** *** Fixed texts *)

Definition personalKeywords : list string :=
  [ "girlfriend"; "boyfriend"; "wife"; "husband"; "dating"; "love"; "relationship";
    "family"; "personal"; "life"; "marriage"; "divorce"; "breakup"; "romance";
    "sex"; "intimate"; "private"; "personal problem"; "personal issue" ].

Definition filtered_message : string :=
("I'm a business assistant and can only help with business-related questions. How can I assist you with your business today? I can help with:

• Business proposals and quotes
• Social media posts (LinkedIn, Facebook, etc.)
• Pitch decks and business plans
• Marketing content
• Sales strategies
• Financial analysis
• And other business operations").

Definition context_unavailable : string :=
  "Business context unavailable. Please try again.".

Definition basePrompt_head : string :=
("You are PayAid AI, an intelligent business assistant for Indian startups and SMBs.

ABSOLUTE REQUIREMENT: You MUST use the ACTUAL business data provided in the user's message. DO NOT give generic responses.

STRICT BUSINESS-ONLY POLICY:
- You ONLY assist with BUSINESS-RELATED queries
- You MUST REJECT any personal questions about: relationships, love, family, personal life, dating, girlfriend/boyfriend, personal problems, non-business topics
- If asked a personal question, politely decline: " ++ dq ++ "I'm a business assistant and can only help with business-related questions. How can I assist you with your business today?" ++ dq ++ "
- Focus ONLY on: business operations, sales, marketing, finance, operations, strategy, documents, proposals, plans, content creation

BUSINESS DOCUMENT CREATION SUPPORT:
You can help create various business documents and content:

1. **Proposals & Quotes:**
   - Use CLIENT/COMPANY INFORMATION, RELATED DEAL, and AVAILABLE PRODUCTS/SERVICES
   - Create structured proposals with: Executive Summary, Solution Overview, Pricing, Timeline, Next Steps
   - Use deal value and context to suggest appropriate solutions

2. **Social Media Posts:**
   - LinkedIn posts: Professional, B2B focused, industry insights
   - Facebook posts: Engaging, community-focused, brand awareness
   - Instagram posts: Visual, story-driven, hashtag-rich
   - Twitter/X posts: Concise, timely, engaging
   - Use YOUR BUSINESS information and available products/services

3. **Pitch Decks:**
   - Executive Summary
   - Problem Statement
   - Solution Overview
   - Market Opportunity
   - Business Model
   - Financial Projections (use revenue data if available)
   - Team & Milestones
   - Ask for Funding/Partnership

4. **Business Plans:**
   - Executive Summary
   - Company Description (use YOUR BUSINESS information)
   - Market Analysis
   - Products/Services (use AVAILABLE PRODUCTS/SERVICES)
   - Marketing Strategy
   - Financial Projections (use revenue data)
   - Operations Plan
   - Growth Strategy

5. **Blueprints & Strategies:**
   - Business process blueprints
   - Marketing strategies
   - Sales strategies
   - Operational workflows
   - Growth roadmaps

6. **Other Business Content:**
   - Email templates
   - Presentation outlines
   - Marketing copy
   - Product descriptions
   - Customer communications

EXAMPLES OF CORRECT BEHAVIOR:

If user asks " ++ dq ++ "What tasks need attention?" ++ dq ++ " and the data shows:
- " ++ dq ++ "Follow up with John Doe (Priority: high, Due: 2024-12-15)" ++ dq ++ "
- " ++ dq ++ "Review proposal (Priority: medium, Due: 2024-12-20)" ++ dq ++ "

You MUST respond with:
" ++ dq ++ "You have 2 tasks that need attention:
1. Follow up with John Doe (High priority, due Dec 15, 2024)
2. Review proposal (Medium priority, due Dec 20, 2024)" ++ dq ++ "

If user asks " ++ dq ++ "Create a LinkedIn post about our new product" ++ dq ++ ":
- Use YOUR BUSINESS information
- Use AVAILABLE PRODUCTS/SERVICES
- Create an actual LinkedIn post (professional, engaging, with relevant hashtags)
- Format it ready to use

If user asks " ++ dq ++ "Help me prepare a proposal for [Client Name]" ++ dq ++ ":
- Use CLIENT/COMPANY INFORMATION, RELATED DEAL, AVAILABLE PRODUCTS/SERVICES
- Create a structured proposal outline with actual content
- Use deal value to suggest appropriate solutions
- Format professionally with all sections

If user asks " ++ dq ++ "Create a pitch deck" ++ dq ++ ":
- Use YOUR BUSINESS information
- Use revenue data for financial projections
- Use AVAILABLE PRODUCTS/SERVICES
- Create a comprehensive pitch deck outline with actual content

CRITICAL RULES:
1. NEVER say " ++ dq ++ "go to the page" ++ dq ++ " or " ++ dq ++ "check the dashboard" ++ dq ++ " - give the ACTUAL data or CREATE the document
2. ALWAYS list specific items from the data (invoice numbers, task titles, amounts, names)
3. Use EXACT numbers from the data provided
4. Format currency as ₹ with commas (e.g., ₹1,00,000)
5. If data shows " ++ dq ++ "None" ++ dq ++ " or empty, say " ++ dq ++ "You currently have no [items]" ++ dq ++ "
6. Be conversational but data-driven
7. For document creation: BE PROACTIVE - create actual documents/content, don't just list information
8. Ask clarifying questions ONLY if critical information is missing, otherwise use available data intelligently
9. REJECT personal questions immediately and redirect to business topics
10. For social media posts: Create actual posts ready to use, not just suggestions

Current context:
- Tenant ID: ").

Definition crm_prompt : string :=
("
You are currently helping with CRM operations:
- Contact management
- Lead pipeline
- Deal tracking
- Task management
").

Definition accounting_prompt : string :=
("
You are currently helping with accounting:
- Invoice generation
- GST compliance
- Financial reports
- Tax calculations
").

Definition inventory_prompt : string :=
("
You are currently helping with inventory:
- Stock management
- Product catalog
- Order fulfillment
- Stock alerts
").

Definition option_or (o : option string) (d : string) : string :=
  match o with Some s => or_else s d | None => d end.

Definition option_is (o : option string) (lit : string) : bool :=
  match o with Some s => String.eqb s lit | None => false end.

Definition option_truthy (o : option string) : bool :=
  match o with Some s => truthy s | None => false end.

Definition buildSystemPrompt (tenantId : string) (context : option RequestContext) : string :=
  let basePrompt :=
    basePrompt_head ++ tenantId ++ nl ++
    "- Module: " ++ option_or (module_of context) "general" ++ nl in
  if option_is (module_of context) "crm" then basePrompt ++ crm_prompt
  else if option_is (module_of context) "accounting" then basePrompt ++ accounting_prompt
  else if option_is (module_of context) "inventory" then basePrompt ++ inventory_prompt
  else basePrompt.

Definition um_head : string :=
("BUSINESS DATA (USE THIS DATA TO ANSWER THE QUESTION):

").
Definition um_question : string :=
("

USER QUESTION: ").
Definition um_warning_head : string :=
("
⚠️ CONTEXT WARNING:
Some information may be missing: ").
Definition um_warning_tail : string :=
("
If critical information is missing, ask ONE clarifying question to get the needed details.
Be specific about what information you need.
").
Definition um_instructions : string :=
("

INSTRUCTIONS:
1. Read the BUSINESS DATA section above carefully
2. Find the relevant information for the user's question
3. If critical information is missing from the data, ask ONE specific clarifying question
4. DO NOT give generic responses - either use the actual data OR ask for missing information
5. Answer using ONLY the data from the BUSINESS DATA section when available
6. List specific items, numbers, names, and details from the data
7. DO NOT say " ++ dq ++ "go to the page" ++ dq ++ " - give the actual information from the data OR CREATE the requested document
8. If the data shows specific tasks, invoices, or numbers, list them exactly as shown
9. If you need more information, ask ONE clear, specific question").
Definition um_proposal : string :=
("

SPECIAL INSTRUCTIONS FOR PROPOSAL/QUOTE REQUESTS:
1. If RELEVANT CLIENT/COMPANY INFORMATION is available, use it to understand the client's needs
2. Use YOUR BUSINESS information to position your company appropriately
3. Use AVAILABLE PRODUCTS/SERVICES to suggest relevant offerings with pricing
4. Use RELATED DEAL information to understand the deal value and context
5. Use PAST INTERACTIONS to understand the relationship and tailor the proposal
6. BE PROACTIVE: Create a complete proposal with actual content, not just an outline
7. Format professionally with sections: Executive Summary, Solution Overview, Pricing, Timeline, Next Steps
8. Include specific product/service recommendations with pricing from the data
9. Suggest next steps based on the deal stage and relationship history
10. Make it ready to use - create the actual proposal content").
Definition um_post_head : string :=
("

SPECIAL INSTRUCTIONS FOR SOCIAL MEDIA POST CREATION:
1. Use YOUR BUSINESS information to create authentic, brand-aligned content
2. Use AVAILABLE PRODUCTS/SERVICES if relevant to the post topic
3. Create an ACTUAL POST ready to copy and use, not just suggestions
4. Match the platform's best practices:
   - ").
Definition um_post_linkedin : string :=
("Professional tone, industry insights, B2B focus, 3-5 relevant hashtags").
Definition um_post_facebook : string :=
("Engaging, community-focused, conversational, include call-to-action").
Definition um_post_instagram : string :=
("Visual storytelling, hashtags (5-10), emoji usage, engaging captions").
Definition um_post_twitter : string :=
("Concise (under 280 chars), timely, engaging, relevant hashtags").
Definition um_post_sep : string :=
("
   - ").
Definition um_post_tail : string :=
("
5. Include appropriate hashtags for the platform
6. Make it shareable and engaging
7. Format it clearly so it can be copied directly").
Definition um_pitch : string :=
("

SPECIAL INSTRUCTIONS FOR PITCH DECK CREATION:
1. Use YOUR BUSINESS information for company description
2. Use revenue data for financial projections
3. Use AVAILABLE PRODUCTS/SERVICES for solution overview
4. Create a COMPLETE pitch deck outline with actual content for each slide:
   - Slide 1: Title & Tagline
   - Slide 2: Problem Statement
   - Slide 3: Solution Overview
   - Slide 4: Market Opportunity
   - Slide 5: Business Model
   - Slide 6: Products/Services (use AVAILABLE PRODUCTS/SERVICES)
   - Slide 7: Financial Projections (use revenue data)
   - Slide 8: Traction/Milestones
   - Slide 9: Team (use YOUR BUSINESS info)
   - Slide 10: Ask/Funding
5. Make it comprehensive and ready to use
6. Use actual numbers and data from the business context").
Definition um_plan : string :=
("

SPECIAL INSTRUCTIONS FOR BUSINESS PLAN CREATION:
1. Use YOUR BUSINESS information throughout
2. Use AVAILABLE PRODUCTS/SERVICES for products/services section
3. Use revenue data for financial projections
4. Create a COMPLETE business plan with actual content:
   - Executive Summary
   - Company Description (use YOUR BUSINESS)
   - Market Analysis
   - Products/Services (use AVAILABLE PRODUCTS/SERVICES)
   - Marketing Strategy
   - Financial Projections (use revenue data)
   - Operations Plan
   - Growth Strategy
5. Make it comprehensive and professional
6. Use actual data from the business context").
Definition um_blueprint : string :=
("

SPECIAL INSTRUCTIONS FOR BLUEPRINT/STRATEGY CREATION:
1. Use YOUR BUSINESS information to understand the business context
2. Use available data (deals, revenue, products) to inform the blueprint
3. Create a COMPLETE blueprint/strategy document with:
   - Clear objectives
   - Step-by-step processes
   - Key milestones
   - Resource requirements
   - Success metrics
4. Make it actionable and specific to the business
5. Use actual business data to inform recommendations").
Definition um_general : string :=
("

GENERAL DOCUMENT CREATION RULES:
1. CREATE the actual document/content, don't just describe what should be in it
2. Use available business data to make it specific and relevant
3. Format it professionally and ready to use
4. Include actual numbers, names, and details from the business context
5. Make it comprehensive - provide full content, not just outlines
6. If information is missing, use what's available and note what additional info would help").
Definition um_example : string :=
("

Example: If asked " ++ dq ++ "What tasks need attention?" ++ dq ++ " and the data shows tasks, list each task with its details from the data above.").

Definition hr_deals_head : string :=
("Here are your top deals:

").
Definition hr_deals_tail : string :=
("

These are the highest value deals in your pipeline.").
Definition hr_no_deals : string :=
("I couldn't find active deals in your data. You can view all deals on the Deals page.").
Definition hr_tasks_head : string :=
("Here are the tasks that need your attention:

").
Definition hr_tasks_tail : string :=
("

These are prioritized by importance and due date.").
Definition hr_no_tasks : string :=
("You currently have no pending tasks. Great job staying on top of things!").
Definition hr_invoices_head : string :=
("Here are your overdue invoices:

").
Definition hr_invoices_tail : string :=
("

Please follow up with these customers to ensure timely payment.").
Definition hr_no_invoices : string :=
("You have no overdue invoices. Excellent!").
Definition hr_revenue_head : string :=
("Your revenue for the last 30 days is ₹").
Definition hr_revenue_tail : string :=
(". For detailed financial reports, check the Accounting > Reports section.").
Definition hr_no_revenue : string :=
("Revenue data is not available at the moment. Check the Dashboard or Accounting > Reports for financial information.").
Definition hr_default : string :=
("I'm having trouble connecting to the AI service right now. 

To enable full AI capabilities, please ensure your API keys are configured in the .env file:
- GROQ_API_KEY (recommended - fastest)
- OLLAMA_API_KEY (or local Ollama running)
- OPENAI_API_KEY (optional fallback)

Once configured, I'll be able to provide specific answers based on your actual business data.

For now, you can:
- Check the Dashboard for overview statistics
- Use the navigation menu to access specific modules
- View detailed information in each section").

(** *** The ORM queries of [getBusinessContext] *)

Definition many (t : Table) (conds : list Cond) (take : option nat) : Query :=
  {| q_table := t; q_kind := FindMany; q_where := conds; q_take := take |}.

Definition q_tenant (tenantId : string) : Query :=
  {| q_table := TTenant; q_kind := FindUnique; q_where := [IdIs tenantId]; q_take := None |}.

Definition q_contacts (tenantId : string) (searchTerms : list string) : Query :=
  many TContact [TenantIdIs tenantId; NameOrCompanyContains searchTerms] (Some 1).

Definition q_contact_deals (tenantId contactId : string) : Query :=
  many TDeal [TenantIdIs tenantId; ContactIdIs contactId] (Some 3).

Definition q_interactions (contactId : string) : Query :=
  many TInteraction [ContactIdIs contactId] (Some 5).

Definition q_products (tenantId : string) : Query :=
  many TProduct [TenantIdIs tenantId] (Some 10).

Definition q_count (t : Table) (tenantId : string) : Query :=
  {| q_table := t; q_kind := Count; q_where := [TenantIdIs tenantId]; q_take := None |}.

Definition q_overdueInvoices (tenantId : string) : Query :=
  many TInvoice [TenantIdIs tenantId; StatusIn ["overdue"]] (Some 10).

Definition q_pendingTasks (tenantId : string) : Query :=
  many TTask [TenantIdIs tenantId; StatusIn ["pending"; "in_progress"]] (Some 10).

Definition q_recentDeals (tenantId : string) : Query :=
  many TDeal [TenantIdIs tenantId] (Some 10).

Definition q_recentOrders (tenantId : string) : Query :=
  many TOrder [TenantIdIs tenantId; CreatedInLast30Days;
               StatusIn ["confirmed"; "shipped"; "delivered"]] None.

Definition q_pendingInvoices (tenantId : string) : Query :=
  many TInvoice [TenantIdIs tenantId; StatusIn ["sent"; "draft"]; PaidAtNull] (Some 10).

(** A query is scoped to a tenant when its [where] clause pins the
    [tenantId] column, or the primary key of the tenant table. *)
Definition cond_pins_tenant (t : Table) (tenantId : string) (c : Cond) : bool :=
  match c, t with
  | TenantIdIs x, _ => String.eqb x tenantId
  | IdIs x, TTenant => String.eqb x tenantId
  | _, _ => false
  end.

Definition filters_by_tenant (tenantId : string) (q : Query) : bool :=
  existsb (cond_pins_tenant (q_table q) tenantId) (q_where q).

(** A query event that is scoped to the tenant, or reads the
    interaction table. *)
Definition scoped_or_interaction (tenantId : string) (e : Event) : bool :=
  match e with
  | EvQuery q =>
      filters_by_tenant tenantId q
      || match q_table q with TInteraction => true | _ => false end
  | _ => false
  end.

Fixpoint queries (t : list Event) : list Query :=
  match t with
  | [] => []
  | EvQuery q :: rest => q :: queries rest
  | _ :: rest => queries rest
  end.

(** [await Promise.all(ms)]: every computation is started; the result
    is the list of values, or the first rejection. *)
Fixpoint promise_all {A} (ms : list (M A)) : M (list A) :=
  fun s =>
    match ms with
    | [] => (Ok [], s, [])
    | m :: rest =>
        let '(r, s1, t1) := m s in
        let '(rs, s2, t2) := promise_all rest s1 in
        (match r, rs with
         | Ok a, Ok l => Ok (a :: l)
         | Throw e, _ => Throw e
         | Ok _, Throw e => Throw e
         end, s2, (t1 ++ t2)%list)
    end.

Definition findUnique (E : Env) (q : Query) : M (option Row) :=
  call (EvQuery q) (prisma_findUnique E q).
Definition findMany (E : Env) (q : Query) : M (list Row) :=
  call (EvQuery q) (prisma_findMany E q).
Definition count (E : Env) (q : Query) : M nat :=
  call (EvQuery q) (prisma_count E q).

(** [extractedNames.length > 0 ? extractedNames : [userMessage]] *)
Definition searchTerms (E : Env) (userMessage : string) : list string :=
  match extractedNames E userMessage with
  | [] => [userMessage]
  | names => names
  end.

(** The contact-matching step (lines 508-597): at most one contact of
    the tenant, its latest deal and its last five interactions. *)
Definition matchContact (E : Env) (tenantId userMessage : string)
  : M (option Row * option Row * list Row) :=
  (if truthy userMessage then
     contactMatches <- findMany E (q_contacts tenantId (searchTerms E userMessage)) ;;
     match contactMatches with
     | relevantContact :: _ =>
         deals <- findMany E (q_contact_deals tenantId (row_id relevantContact)) ;;
         interactions <- findMany E (q_interactions (row_id relevantContact)) ;;
         ret (Some relevantContact, hd_error deals, interactions)
     | [] => ret (None, None, [])
     end
   else ret (None, None, []))%eff.

Definition getBusinessContext (E : Env) (tenantId userMessage : string) : M string :=
  try_catch
    (tenant <- findUnique E (q_tenant tenantId) ;;
     matched <- matchContact E tenantId userMessage ;;
     products <- findMany E (q_products tenantId) ;;
     counts <- promise_all
                 [ count E (q_count TContact tenantId);
                   count E (q_count TDeal tenantId);
                   count E (q_count TOrder tenantId);
                   count E (q_count TInvoice tenantId);
                   count E (q_count TTask tenantId) ] ;;
     overdueInvoices <- findMany E (q_overdueInvoices tenantId) ;;
     pendingTasks <- findMany E (q_pendingTasks tenantId) ;;
     recentDeals <- findMany E (q_recentDeals tenantId) ;;
     recentOrders <- findMany E (q_recentOrders tenantId) ;;
     pendingInvoices <- findMany E (q_pendingInvoices tenantId) ;;
     lift (renderContext E
             {| cd_tenant := tenant;
                cd_relevantContact := fst (fst matched);
                cd_relevantDeal := snd (fst matched);
                cd_interactions := snd matched;
                cd_products := products;
                cd_counts := counts;
                cd_overdueInvoices := overdueInvoices;
                cd_pendingTasks := pendingTasks;
                cd_recentDeals := recentDeals;
                cd_recentOrders := recentOrders;
                cd_pendingInvoices := pendingInvoices |}))%eff
    (fun _ => ret "").

(** The ORM rejected the query. *)
Definition raised {A} (r : Result A) : bool :=
  match r with Throw _ => true | Ok _ => false end.

Definition query_fails (E : Env) (q : Query) : bool :=
  match q_kind q with
  | FindUnique => raised (prisma_findUnique E q)
  | FindMany => raised (prisma_findMany E q)
  | Count => raised (prisma_count E q)
  | GroupBy => false
  end.

(** Lines 50-58 of the handler. *)
Definition assembleContext (E : Env) (tenantId message : string) : M string :=
  try_catch (getBusinessContext E tenantId message)
            (fun _ => ret context_unavailable).

(** The contact query against an in-memory table, for the meaning of
    its [where] clause: the row belongs to the tenant, and one of the
    terms occurs in its name or company, letter case ignored. *)
Definition text_field (name : string) (r : Row) : string :=
  match field name (row_fields r) with JString v => v | _ => "" end.

Definition contact_where (lower : string -> string) (tenantId : string)
           (terms : list string) (r : Row) : bool :=
  String.eqb (row_tenantId r) tenantId
  && existsb (fun term =>
                includes (lower (text_field "name" r)) (lower term)
                || includes (lower (text_field "company" r)) (lower term)) terms.

Definition take_rows (take : option nat) (rows : list Row) : list Row :=
  match take with Some n => firstn n rows | None => rows end.

Definition memory_contacts (lower : string -> string) (table : list Row) (q : Query)
  : Result (list Row) :=
  match q_where q with
  | [TenantIdIs tenantId; NameOrCompanyContains terms] =>
      Ok (take_rows (q_take q) (filter (contact_where lower tenantId terms) table))
  | _ => Throw (Error_ "Invalid prisma.contact.findMany() invocation")
  end.

(** *** Matching the context block (getHelpfulResponse) *)

(** [/HEADER \(([^)]+)\):([\s\S]*?)(?=STOP1|STOP2|...)/] tried at the
    start of [s]: the two captured groups. *)
Definition section_at (header : string) (stops : list string) (s : string)
  : option (string * string) :=
  let opening := header ++ " (" in
  if String.prefix opening s then
    let '(g1, rest) := span (fun c => negb (Ascii.eqb c ")"%char))
                            (drop (String.length opening) s) in
    if truthy g1 && String.prefix "):" rest then
      match before_first stops (drop 2 rest) with
      | Some g2 => Some (g1, g2)
      | None => None
      end
    else None
  else None.

(** [s.match(/HEADER .../)]: the leftmost match. *)
Fixpoint match_section (header : string) (stops : list string) (s : string)
  : option (string * string) :=
  match section_at header stops s with
  | Some r => Some r
  | None =>
      match s with
      | EmptyString => None
      | String _ rest => match_section header stops rest
      end
  end.

Definition revenue_label : string := "Revenue (Last 30 Days): ₹".

(** [s.match(/Revenue \(Last 30 Days\): ₹([\d,]+)/)]: the captured group. *)
Fixpoint match_revenue (s : string) : option string :=
  let here :=
    if String.prefix revenue_label s then
      let g := fst (span (fun c => is_digit c || Ascii.eqb c ","%char)
                         (drop (String.length revenue_label) s)) in
      if truthy g then Some g else None
    else None in
  match here with
  | Some g => Some g
  | None =>
      match s with
      | EmptyString => None
      | String _ rest => match_revenue rest
      end
  end.

(** [text.split('\n').filter(line => line.trim() && /^\d+\./.test(line.trim())).slice(0, 5)] *)
Definition numbered_lines (text : string) : list string :=
  firstn 5 (filter (fun line => truthy (trim line) && test_numbered (trim line))
                   (split_lines text)).

(** [text && text.trim() && !text.includes('None')] *)
Definition has_items (text : string) : bool :=
  truthy text && truthy (trim text) && negb (includes text "None").

Definition group2 (m : option (string * string)) : string :=
  match m with Some (_, g2) => g2 | None => "" end.

Section WithRuntime.

(** [String.prototype.toLowerCase] *)
Variable lower : string -> string.

Definition isPersonalQuery (message : string) : bool :=
  let lowerMessage := lower message in
  existsb (fun keyword => includes lowerMessage keyword) personalKeywords.

Definition buildUserMessage (message context : string)
           (contextAnalysis : option ContextAnalysis) : string :=
  if truthy context then
    let lowerMessage := lower message in
    let has := includes lowerMessage in
    let isProposalRequest := has "proposal" || has "quote" in
    let isPostRequest := has "post" || has "linkedin" || has "facebook"
                         || has "instagram" || has "twitter" in
    let isPitchDeckRequest := has "pitch deck" || has "pitchdeck" || has "pitch" in
    let isBusinessPlanRequest := has "business plan" || has "businessplan" in
    let isBlueprintRequest := has "blueprint" || has "strategy" || has "plan" in
    let isContentRequest := isPostRequest || isPitchDeckRequest || isBusinessPlanRequest
                            || isBlueprintRequest || isProposalRequest in
    let warning :=
      match contextAnalysis with
      | Some a =>
          if negb (hasEnoughContext a)
          then um_warning_head ++ join ", " (missingContext a) ++ um_warning_tail
          else ""
      | None => ""
      end in
    let instructions :=
      um_head ++ context ++ um_question ++ message ++ nl ++ nl ++ warning ++ um_instructions in
    let instructions :=
      if isProposalRequest then instructions ++ um_proposal else instructions in
    let instructions :=
      if isPostRequest then
        let platform :=
          if has "linkedin" then "LinkedIn"
          else if has "facebook" then "Facebook"
          else if has "instagram" then "Instagram"
          else if has "twitter" then "Twitter/X"
          else "social media" in
        instructions ++ um_post_head
          ++ (if String.eqb platform "LinkedIn" then um_post_linkedin else "") ++ um_post_sep
          ++ (if String.eqb platform "Facebook" then um_post_facebook else "") ++ um_post_sep
          ++ (if String.eqb platform "Instagram" then um_post_instagram else "") ++ um_post_sep
          ++ (if String.eqb platform "Twitter/X" then um_post_twitter else "")
          ++ um_post_tail
      else instructions in
    let instructions :=
      if isPitchDeckRequest then instructions ++ um_pitch else instructions in
    let instructions :=
      if isBusinessPlanRequest then instructions ++ um_plan else instructions in
    let instructions :=
      if isBlueprintRequest then instructions ++ um_blueprint else instructions in
    let instructions :=
      if isContentRequest then instructions ++ um_general else instructions in
    instructions ++ um_example
  else message.

Definition getHelpfulResponse (query businessContext : string) : string :=
  let lowerQuery := lower query in
  let dealsText :=
    group2 (match_section "ACTIVE DEALS" ["PENDING INVOICES"; "=== END"] businessContext) in
  let tasksText :=
    group2 (match_section "PENDING TASKS"
              ["ACTIVE DEALS"; "PENDING INVOICES"; "=== END"] businessContext) in
  let invoicesText :=
    group2 (match_section "OVERDUE INVOICES"
              ["PENDING TASKS"; "ACTIVE DEALS"; "=== END"] businessContext) in
  let revenue := match_revenue businessContext in
  if includes lowerQuery "deal" || includes lowerQuery "top deal"
     || includes lowerQuery "best deal" then
    if has_items dealsText then
      match numbered_lines dealsText with
      | [] => hr_no_deals
      | dealLines => hr_deals_head ++ join nl dealLines ++ hr_deals_tail
      end
    else hr_no_deals
  else if includes lowerQuery "task" || includes lowerQuery "todo"
          || includes lowerQuery "attention" then
    if has_items tasksText then
      match numbered_lines tasksText with
      | [] => hr_no_tasks
      | taskLines => hr_tasks_head ++ join nl taskLines ++ hr_tasks_tail
      end
    else hr_no_tasks
  else if includes lowerQuery "invoice" || includes lowerQuery "overdue" then
    if has_items invoicesText then
      match numbered_lines invoicesText with
      | [] => hr_no_invoices
      | invoiceLines => hr_invoices_head ++ join nl invoiceLines ++ hr_invoices_tail
      end
    else hr_no_invoices
  else if includes lowerQuery "revenue" || includes lowerQuery "income"
          || includes lowerQuery "sales" then
    match revenue with
    | Some r => if truthy r then hr_revenue_head ++ r ++ hr_revenue_tail else hr_no_revenue
    | None => hr_no_revenue
    end
  else hr_default.

(** *** The provider cascade (lines 96-267) *)

Definition chat_messages (systemPrompt userMessage : string) : list ChatMessage :=
  [ {| role := "system"; content := systemPrompt |};
    {| role := "user"; content := userMessage |} ].

Definition tryGroq (E : Env) (systemPrompt userMessage : string) : M ChatResponse :=
  if option_truthy (GROQ_API_KEY E) then
    call (EvProviderCall Groq systemPrompt userMessage)
         (groq_chat E (chat_messages systemPrompt userMessage))
  else throw (Error_ "GROQ_API_KEY not configured in environment variables").

Definition tryOllama (E : Env) (systemPrompt userMessage : string) : M ChatResponse :=
  call (EvProviderCall Ollama systemPrompt userMessage)
       (ollama_chat E (chat_messages systemPrompt userMessage)).

Definition tryHuggingFace (E : Env) (systemPrompt userMessage : string) : M ChatResponse :=
  if option_truthy (HUGGINGFACE_API_KEY E) then
    call (EvProviderCall HuggingFace systemPrompt userMessage)
         (huggingFace_chat E (chat_messages systemPrompt userMessage))
  else throw (Error_ "Hugging Face API key not configured").

Definition tryOpenAI (E : Env) (systemPrompt userMessage : string) : M ChatResponse :=
  (if option_truthy (OPENAI_API_KEY E) then
     openaiResponse <- call (EvProviderCall OpenAI systemPrompt userMessage)
                            (openai_fetch E (option_or (OPENAI_API_KEY E) "")
                               (chat_messages systemPrompt userMessage)) ;;
     if ok openaiResponse then
       data <- lift (fetch_json openaiResponse) ;;
       ret {| message := option_or (first_choice_content data) "";
              usage := data_usage data |}
     else throw (Error_ "OpenAI failed")
   else throw (Error_ "No AI service available"))%eff.

Definition ruleBased (query businessContext : string) : ChatResponse :=
  {| message := getHelpfulResponse query businessContext; usage := JUndefined |}.

(** The nested [try]/[catch] blocks, as written. *)
Definition getAIResponse (E : Env) (query businessContext systemPrompt userMessage : string)
  : M (ChatResponse * string) :=
  (try_catch
     (response <- tryGroq E systemPrompt userMessage ;; ret (response, "groq"))
     (fun groqError =>
        try_catch
          (response <- tryOllama E systemPrompt userMessage ;; ret (response, "ollama"))
          (fun ollamaError =>
             try_catch
               (response <- tryHuggingFace E systemPrompt userMessage ;;
                ret (response, "huggingface"))
               (fun huggingFaceError =>
                  try_catch
                    (response <- tryOpenAI E systemPrompt userMessage ;;
                     ret (response, "openai"))
                    (fun openAIError =>
                       ret (ruleBased query businessContext, "rule-based"))))))%eff.

(** The same cascade the way the specification words it: an ordered
    list of providers, each tried once, the first success wins, and
    the rule-based responder answers when the list is exhausted. *)
Definition fallback_order : list Provider := [Groq; Ollama; HuggingFace; OpenAI].

Definition service_name (p : Provider) : string :=
  match p with
  | Groq => "groq"
  | Ollama => "ollama"
  | HuggingFace => "huggingface"
  | OpenAI => "openai"
  end.

Definition attempt (E : Env) (systemPrompt userMessage : string) (p : Provider)
  : M ChatResponse :=
  match p with
  | Groq => tryGroq E systemPrompt userMessage
  | Ollama => tryOllama E systemPrompt userMessage
  | HuggingFace => tryHuggingFace E systemPrompt userMessage
  | OpenAI => tryOpenAI E systemPrompt userMessage
  end.

Fixpoint first_success (run : Provider -> M ChatResponse) (chain : list Provider)
         (last : ChatResponse) : M (ChatResponse * string) :=
  match chain with
  | [] => ret (last, "rule-based")
  | p :: rest =>
      try_catch (response <- run p ;; ret (response, service_name p))%eff
                (fun _ => first_success run rest last)
  end.

(** The cascade in closed form: the first provider of the chain
    whose attempt returns, else the rule-based answer. *)
Fixpoint winner (outcomes : list (Provider * Result ChatResponse)) (last : ChatResponse)
  : ChatResponse * string :=
  match outcomes with
  | [] => (last, "rule-based")
  | (p, Ok response) :: _ => (response, service_name p)
  | (_, Throw _) :: rest => winner rest last
  end.

(** The providers whose client was called, in call order. *)
Fixpoint providers_called (t : list Event) : list Provider :=
  match t with
  | [] => []
  | EvProviderCall p _ _ :: rest => p :: providers_called rest
  | _ :: rest => providers_called rest
  end.

Definition provider_eqb (p q : Provider) : bool :=
  match p, q with
  | Groq, Groq | Ollama, Ollama | HuggingFace, HuggingFace | OpenAI, OpenAI => true
  | _, _ => false
  end.

(** [l] is obtained from [chain] by deleting elements. *)
Fixpoint subsequence (l chain : list Provider) : bool :=
  match l, chain with
  | [], _ => true
  | _ :: _, [] => false
  | p :: l', q :: chain' =>
      if provider_eqb p q then subsequence l' chain' else subsequence l chain'
  end.

(** *** The handler *)

Definition flags_of (businessContext : string) : ContextFlags :=
  {| hasBusinessData := (100 <? js_length businessContext)%nat;
     hasRelevantContact := includes businessContext "RELEVANT CLIENT/COMPANY INFORMATION";
     hasRelevantDeal := includes businessContext "RELATED DEAL";
     hasProducts := includes businessContext "AVAILABLE PRODUCTS/SERVICES";
     hasTasks := includes businessContext "PENDING TASKS"
                 && negb (includes businessContext "None - You have no pending tasks");
     hasInvoices := includes businessContext "OVERDUE INVOICES"
                    && negb (includes businessContext "None - You have no overdue invoices");
     hasDeals := includes businessContext "ACTIVE DEALS"
                 && negb (includes businessContext "None - You have no active deals") |}.

Definition cacheSet (E : Env) (key value : string) : M unit :=
  (call (EvCacheSet key value) (semanticCache_set E key value) ;;;
   modify (fun s => {| cache := (key, value) :: cache s; queue := queue s |}))%eff.

Definition enqueue (E : Env) (job : LogJob) : M unit :=
  (call (EvEnqueue job) (mediumPriorityQueue_add E job) ;;;
   modify (fun s => {| cache := cache s; queue := (queue s ++ [job])%list |}))%eff.

Definition filtered_response : Response :=
  json 200 [ ("message", JString filtered_message);
             ("service", JString "filtered");
             ("cached", JBool false) ].

Definition clarification_response (E : Env) (contextAnalysis : ContextAnalysis) : Response :=
  json 200 [ ("message", JString (formatClarifyingQuestions E contextAnalysis));
             ("service", JString "context-analyzer");
             ("cached", JBool false);
             ("needsClarification", JBool true);
             ("suggestedQuestions", JStrings (suggestedQuestions contextAnalysis)) ].

Definition answer_response (response : ChatResponse) (usedService : string) : Response :=
  json 200 [ ("message", JString (message response));
             ("cached", JBool false);
             ("usage", usage response);
             ("service", JString usedService) ].

(** The body of the outer [try] (lines 23-297). *)
Definition pipeline (E : Env) : M Response :=
  (auth <- call (EvAccessCheck "ai-studio") (requireModuleAccess E "ai-studio") ;;
   let tenantId := fst auth in
   let userId := snd auth in
   body <- call EvReadBody (request_json E) ;;
   validated <- lift (chatSchema_parse body) ;;
   if isPersonalQuery (v_message validated) then ret filtered_response
   else
     let systemPrompt := buildSystemPrompt tenantId (v_context validated) in
     businessContext <- assembleContext E tenantId (v_message validated) ;;
     emit (EvAnalyzeContext (v_message validated)) ;;;
     let contextAnalysis :=
       analyzePromptContext E (v_message validated) (flags_of businessContext) in
     if negb (hasEnoughContext contextAnalysis) && is_low (confidence contextAnalysis)
     then ret (clarification_response E contextAnalysis)
     else
       let userMessage :=
         buildUserMessage (v_message validated) businessContext (Some contextAnalysis) in
       answer <- getAIResponse E (v_message validated) businessContext
                               systemPrompt userMessage ;;
       let response := fst answer in
       let usedService := snd answer in
       (if negb (String.eqb usedService "rule-based") && truthy (message response)
        then try_catch (cacheSet E (v_message validated) (message response))
                       (fun cacheError => ret tt)
        else ret tt) ;;;
       try_catch
         (enqueue E {| job_userId := userId;
                       job_tenantId := tenantId;
                       job_query := v_message validated;
                       job_response := message response;
                       job_module := option_or (module_of (v_context validated)) "general" |})
         (fun queueError => ret tt) ;;;
       ret (answer_response response usedService))%eff.

(** The outer [catch] (lines 298-342). *)
Definition errorResponse (E : Env) (error : JsError) : Response :=
  if err_hasModuleId error then handleLicenseError E error
  else if err_isZodError error then
    json 400 [ ("error", JString "Validation error"); ("details", JObject "error.errors") ]
  else
    let errorMessage := err_message error in
    let development := option_is (NODE_ENV E) "development" in
    let friendly :=
      if includes errorMessage "GROQ_API_KEY not configured" then
        ("Groq API key is not configured",
         "Please set GROQ_API_KEY in your .env file. Groq provides fast AI responses.")
      else if includes errorMessage "Ollama" && includes errorMessage "memory" then
        ("Ollama model requires more memory than available",
         "The llama3.1:8b model needs 4.8 GB RAM but only 3.1 GB is available. Consider using Groq API instead (already configured) or use a smaller model.")
      else if includes errorMessage "ECONNREFUSED" || includes errorMessage "fetch failed" then
        ("Cannot connect to AI service",
         "Please check your internet connection and ensure AI services are accessible.")
      else (errorMessage, "") in
    json 500 [ ("error", JString "Failed to process chat request");
               ("message", JString (fst friendly));
               ("hint", JString (snd friendly));
               ("details", if development then JString errorMessage else JUndefined);
               ("stack", if development then JObject "error.stack" else JUndefined) ].

Definition POST (E : Env) : M Response :=
  try_catch (pipeline E) (fun error => ret (errorResponse E error)).

(** *** Vocabulary for the stages of the pipeline *)

(** The stages a request has passed when it reaches the context
    analysis: access granted, body read and valid, not a personal
    query, context assembled. *)
Record Analysed (E : Env) (s : Store) (tenantId userId : string) (validated : Validated)
         (businessContext : string) (reads : list Event) : Prop := {
    an_access : requireModuleAccess E "ai-studio" = Ok (tenantId, userId);
    an_body : exists body, request_json E = Ok body /\ chatSchema_parse body = Ok validated;
    an_business : isPersonalQuery (v_message validated) = false;
    an_context : assembleContext E tenantId (v_message validated) s
                 = (Ok businessContext, s, reads)
  }.

Definition analysis_of (E : Env) (validated : Validated) (businessContext : string)
  : ContextAnalysis :=
  analyzePromptContext E (v_message validated) (flags_of businessContext).

(** The test of line 72. *)
Definition asks_clarification (a : ContextAnalysis) : bool :=
  negb (hasEnoughContext a) && is_low (confidence a).

(** The prompts sent to the providers. *)
Definition system_prompt (tenantId : string) (validated : Validated) : string :=
  buildSystemPrompt tenantId (v_context validated).

Definition user_prompt (E : Env) (validated : Validated) (businessContext : string) : string :=
  buildUserMessage (v_message validated) businessContext
                   (Some (analysis_of E validated businessContext)).

(** The cache write of lines 269-276, as a list of zero or one call. *)
Definition cache_events (validated : Validated) (response : ChatResponse)
           (usedService : string) : list Event :=
  if negb (String.eqb usedService "rule-based") && truthy (message response)
  then [EvCacheSet (v_message validated) (message response)]
  else [].

Definition log_job (tenantId userId : string) (validated : Validated)
           (response : ChatResponse) : LogJob :=
  {| job_userId := userId;
     job_tenantId := tenantId;
     job_query := v_message validated;
     job_response := message response;
     job_module := option_or (module_of (v_context validated)) "general" |}.

(** What a run of the pipeline can be. *)
Inductive Outcome (E : Env) (s : Store) : Result Response * Store * list Event -> Prop :=
| Rejected (e : JsError) (t : list Event) :
  existsb is_cache_write t = false ->
  existsb is_provider_call t = false ->
  Outcome E s (Throw e, s, t)
| Filtered :
  Outcome E s (Ok filtered_response, s, [EvAccessCheck "ai-studio"; EvReadBody])
| Clarifying tenantId userId validated businessContext reads :
  Analysed E s tenantId userId validated businessContext reads ->
  asks_clarification (analysis_of E validated businessContext) = true ->
  Outcome E s (Ok (clarification_response E (analysis_of E validated businessContext)), s,
             [EvAccessCheck "ai-studio"; EvReadBody] ++ reads
               ++ [EvAnalyzeContext (v_message validated)])%list
| Answered tenantId userId validated businessContext reads response usedService calls s' :
  Analysed E s tenantId userId validated businessContext reads ->
  asks_clarification (analysis_of E validated businessContext) = false ->
  getAIResponse E (v_message validated) businessContext
    (system_prompt tenantId validated) (user_prompt E validated businessContext) s
    = (Ok (response, usedService), s, calls) ->
  forallb is_provider_call calls = true ->
  (usedService = "rule-based" \/ exists p, usedService = service_name p) ->
  Outcome E s (Ok (answer_response response usedService), s',
             [EvAccessCheck "ai-studio"; EvReadBody] ++ reads
               ++ [EvAnalyzeContext (v_message validated)] ++ calls
               ++ cache_events validated response usedService
               ++ [EvEnqueue (log_job tenantId userId validated response)])%list.


(** The [service] values that name a networked provider. *)
Definition networked (service : JsValue) : bool :=
  match service with
  | JString name => existsb (fun p => String.eqb name (service_name p)) fallback_order
  | _ => false
  end.

End WithRuntime.

End Chat.

Arguments Chat.buildSystemPrompt : simpl never.
Arguments Chat.buildUserMessage : simpl never.
Arguments Chat.getHelpfulResponse : simpl never.
Arguments Chat.isPersonalQuery : simpl never.
Arguments Chat.flags_of : simpl never.
Arguments Chat.filtered_message : simpl never.
Arguments Chat.context_unavailable : simpl never.
Arguments Chat.system_prompt : simpl never.
Arguments Chat.user_prompt : simpl never.

(* ===================================================================== *)
(** ** GET /api/ai/usage *)
(* ===================================================================== *)

Module Usage.

(** One group of [prisma.aIUsage.groupBy]: the service, [_count.id] and
    [_sum.tokens] (nullable). *)
Record UsageGroup := {
  service : string;
  count_id : nat;
  sum_tokens : option nat
}.

Record Env := {
  (* [request.headers.get('authorization')] *)
  authorization : option string;
  (* lib/ai/gateway *)
  gateway_setToken : string -> Result unit;
  gateway_getUsage : Result JsValue;
  (* the ORM *)
  aIUsage_groupBy : Query -> Result (list UsageGroup);
  currentMonth : string
}.

Definition q_usage (tenantId : string) : Query :=
  {| q_table := TAIUsage; q_kind := GroupBy;
     q_where := [TenantIdIs tenantId; CreatedThisMonth]; q_take := None |}.

Definition tokens (g : UsageGroup) : nat :=
  match sum_tokens g with Some n => n | None => 0 end.

(** [s.replace(pattern, replacement)] with a string pattern: the first
    occurrence only. *)
Fixpoint replace_first (pattern replacement s : string) : string :=
  if String.prefix pattern s then replacement ++ drop (String.length pattern) s
  else match s with
       | EmptyString => s
       | String c rest => String c (replace_first pattern replacement rest)
       end.

(** [authHeader?.replace('Bearer ', '')] *)
Definition bearer_token (authHeader : option string) : option string :=
  match authHeader with
  | Some header => Some (replace_first "Bearer " "" header)
  | None => None
  end.

(** [obj[key] = value] on an object created by [{}], as [JSON.stringify]
    shows it afterwards: an own property is added or overwritten, except
    for the key ['__proto__'], which replaces the prototype and leaves the
    own properties as they are. The order of the properties is that of
    their creation. *)
Fixpoint assign {V} (obj : list (string * V)) (key : string) (value : V)
  : list (string * V) :=
  match obj with
  | [] => [(key, value)]
  | (k, v) :: rest =>
      if String.eqb k key then (k, value) :: rest else (k, v) :: assign rest key value
  end.

Definition set_property {V} (obj : list (string * V)) (key : string) (value : V)
  : list (string * V) :=
  if String.eqb key "__proto__" then obj else assign obj key value.

(** The route calls [requireAIStudioAccess(request)] (line 10), a name
    that nothing binds: line 2 imports [requireModuleAccess] and
    [handleLicenseError], and no file declares [requireAIStudioAccess].
    The call is the first statement of the [try] block; the rest of the
    block is written down as it stands in the source. *)
Definition GET (E : Env) : M Response :=
  try_catch
    (auth <- unbound (A := string * string) "requireAIStudioAccess" ;;
     let tenantId := fst auth in
     match bearer_token (authorization E) with
     | Some token =>
         if truthy token
         then call (EvGatewayCall "setToken") (gateway_setToken E token)
         else ret tt
     | None => ret tt
     end ;;;
     gatewayUsage <- try_catch (call (EvGatewayCall "getUsage") (gateway_getUsage E))
                               (fun _ => ret JNull) ;;
     dbUsage <- call (EvQuery (q_usage tenantId)) (aIUsage_groupBy E (q_usage tenantId)) ;;
     let usageByService :=
       fold_left (fun obj item => set_property obj (service item) (count_id item, tokens item))
                 dbUsage [] in
     let totalCount := fold_left (fun acc item => acc + count_id item) dbUsage 0 in
     let totalTokens := fold_left (fun acc item => acc + tokens item) dbUsage 0 in
     ret (json 200 [ ("month", JString (currentMonth E));
                     ("usage", JCounts usageByService);
                     ("total", JCounts [("total", (totalCount, totalTokens))]);
                     ("gateway", gatewayUsage) ]))%eff
    (fun error =>
       ret (json 500 [ ("error", JString "Failed to retrieve usage");
                       ("details", JString (err_message error)) ])).

End Usage.

(* ===================================================================== *)
(** ** POST /api/ai/generate-image *)
(* ===================================================================== *)

Module GenerateImage.

Record RawBody := { raw_prompt : JsValue; raw_style : JsValue; raw_size : JsValue }.

Record Validated := { prompt : string; style : option string; size : option string }.

(** [generate] stands for lines 26-325 of the handler: the choice of an
    image provider and the calls to it. *)
Record Env := {
  request_json : Result (option RawBody);
  generate : string * string -> Validated -> M Response
}.

(** [generateImageSchema.parse(body)] *)
Definition generateImageSchema_parse (body : option RawBody) : Result Validated :=
  match body with
  | None => Throw Chat.ZodError
  | Some b =>
      match raw_prompt b, Chat.parse_optional_string (raw_style b),
            Chat.parse_optional_string (raw_size b) with
      | JString p, Ok st, Ok sz =>
          if (1 <=? js_length p)%nat
          then Ok {| prompt := p; style := st; size := sz |}
          else Throw Chat.ZodError
      | _, _, _ => Throw Chat.ZodError
      end
  end.

Definition errorResponse (error : JsError) : Response :=
  if err_isZodError error then
    json 400 [ ("error", JString "Validation error"); ("details", JObject "error.errors") ]
  else
    let errorMessage := or_else (err_message error) "Failed to generate image" in
    let m := err_message error in
    let hint :=
      if includes m "decrypt" || includes m "ENCRYPTION_KEY" then
        "Server encryption is not configured. Please contact support."
      else if includes m "fetch" || includes m "network" then
        "Network error. Please check your internet connection and try again."
      else if includes m "timeout" then "Request timed out. Please try again."
      else "" in
    json 500 [ ("error", JString "Failed to generate image");
               ("message", JString errorMessage);
               ("hint", JString hint);
               ("details", JString m) ].

(** The route calls [requireAIStudioAccess(request)] (line 21), a name
    that nothing binds: line 2 imports [requireModuleAccess] and
    [handleLicenseError], and no file declares [requireAIStudioAccess].
    The call is the first statement of the [try] block. *)
Definition POST (E : Env) : M Response :=
  try_catch
    (auth <- unbound (A := string * string) "requireAIStudioAccess" ;;
     body <- call EvReadBody (request_json E) ;;
     validated <- lift (generateImageSchema_parse body) ;;
     generate E auth validated)%eff
    (fun error => ret (errorResponse error)).

End GenerateImage.

(* ===================================================================== *)
(** ** Sample requests *)
(* ===================================================================== *)

Module Examples.

(** A callback for a call that has no record yet. The ORM rejects a
    [status] that is not a string. *)
Definition webhook_env (callStatus : string) : Webhook.Env :=
  {| Webhook.formData :=
       Ok {| Webhook.CallSid := Some "CA123";
             Webhook.CallStatus := Some callStatus;
             Webhook.From := Some "+911234500000";
             Webhook.To := Some "+915678900000";
             Webhook.Direction := Some "inbound";
             Webhook.AccountSid := Some "AC1" |};
     Webhook.aICall_findUnique := fun _ => Ok None;
     Webhook.aICall_create := fun d =>
       match cc_status d with
       | JString _ => Ok {| Webhook.call_id := "call-1";
                            Webhook.call_answeredAt := None;
                            Webhook.call_endedAt := None |}
       | _ => Throw (Error_ "Invalid value for argument status")
       end;
     Webhook.aICall_update := fun _ _ => Ok tt;
     Webhook.now := 0 |}.

(** Chat requests. The ORM holds the contacts given and nothing else,
    and the rendering answers with one fixed context block; Groq is
    configured, the other hosted providers are not, and no Ollama server
    is listening. *)
Definition tenant : string := "tenant-1".
Definition user : string := "user-1".

Definition rendered : string :=
  "=== BUSINESS DATA ===" ++ nl ++
  "SUMMARY:" ++ nl ++
  "- Revenue (Last 30 Days): ₹5,000.00" ++ nl ++ nl ++
  "OVERDUE INVOICES (1):" ++ nl ++
  "1. Invoice INV-7: ₹5,000 from Acme (Due: N/A)" ++ nl ++ nl ++
  "PENDING TASKS (0):" ++ nl ++
  "None - You have no pending tasks." ++ nl ++ nl ++
  "ACTIVE DEALS (0):" ++ nl ++
  "None - You have no active deals." ++ nl ++ nl ++
  "PENDING INVOICES (0, Total: ₹0.00):" ++ nl ++
  "None - You have no pending invoices." ++ nl ++ nl ++
  "=== END OF BUSINESS DATA ===" ++ nl.

Definition analysis (enough : bool) (c : Chat.Confidence) : Chat.ContextAnalysis :=
  {| Chat.hasEnoughContext := enough;
     Chat.confidence := c;
     Chat.missingContext := [];
     Chat.suggestedQuestions := ["Which client is this about?"] |}.

Definition database_down : JsError := Error_ "Can't reach database server".

Definition chat_env (access : Result (string * string)) (message_ : JsValue)
           (database_up : bool) (contacts : list Chat.Row)
           (analysed : Chat.ContextAnalysis)
           (groq : Result Chat.ChatResponse) : Chat.Env :=
  {| Chat.requireModuleAccess := fun _ => access;
     Chat.handleLicenseError := fun _ => json 403 [("error", JString "Module not licensed")];
     Chat.request_json :=
       Ok (Some {| Chat.raw_message := message_; Chat.raw_context := Chat.ContextAbsent |});
     Chat.GROQ_API_KEY := Some "gsk_live";
     Chat.HUGGINGFACE_API_KEY := None;
     Chat.OPENAI_API_KEY := None;
     Chat.NODE_ENV := Some "production";
     Chat.groq_chat := fun _ => groq;
     Chat.ollama_chat := fun _ => Throw (Error_ "fetch failed");
     Chat.huggingFace_chat := fun _ => Throw (Error_ "Hugging Face API key not configured");
     Chat.openai_fetch := fun _ _ => Throw (Error_ "fetch failed");
     Chat.prisma_findUnique := fun _ => if database_up then Ok None else Throw database_down;
     Chat.prisma_findMany := fun q =>
       if database_up then
         match q_table q with
         | TContact => Chat.memory_contacts ascii_toLowerCase contacts q
         | _ => Ok []
         end
       else Throw database_down;
     Chat.prisma_count := fun _ => if database_up then Ok 0 else Throw database_down;
     Chat.extractedNames := fun _ => [];
     Chat.renderContext := fun _ => Ok rendered;
     Chat.analyzePromptContext := fun _ _ => analysed;
     Chat.formatClarifyingQuestions := fun _ => "Which client is this about?";
     Chat.semanticCache_set := fun _ _ => Ok tt;
     Chat.mediumPriorityQueue_add := fun _ => Ok tt |}.

Definition signed_in : Result (string * string) := Ok (tenant, user).

Definition unlicensed : JsError :=
  {| err_message := "Module not licensed";
     err_hasModuleId := true; err_isZodError := false |}.

Definition answer (text : string) : Result Chat.ChatResponse :=
  Ok {| Chat.message := text; Chat.usage := JUndefined |}.

(** The requests used below. *)
Definition env_revenue : Chat.Env :=
  chat_env signed_in (JString "What's my revenue?") true [] (analysis true Chat.high)
           (answer "Your revenue for the last 30 days is ₹5,000.").

Definition env_personal : Chat.Env :=
  chat_env signed_in (JString "How do I repair my Relationship with my co-founder?")
           true [] (analysis true Chat.high) (answer "Talk to them.").

Definition env_vague : Chat.Env :=
  chat_env signed_in (JString "prepare it") true [] (analysis false Chat.low)
           (answer "Here is a draft.").

Definition env_low_but_enough : Chat.Env :=
  chat_env signed_in (JString "prepare it") true [] (analysis true Chat.low)
           (answer "Here is a draft.").

Definition env_offline : Chat.Env :=
  chat_env signed_in (JString "Which invoices are overdue?") true []
           (analysis true Chat.high) (Throw (Error_ "fetch failed")).

Definition env_empty_answer : Chat.Env :=
  chat_env signed_in (JString "What's my revenue?") true [] (analysis true Chat.high)
           (answer "").

Definition env_database_down : Chat.Env :=
  chat_env signed_in (JString "what needs attention") false [] (analysis true Chat.high)
           (answer "You have one overdue invoice.").

Definition env_unlicensed : Chat.Env :=
  chat_env (Throw unlicensed) (JString "What's my revenue?") true []
           (analysis true Chat.high) (answer "Your revenue for the last 30 days is ₹5,000.").

(** A usage request with a bearer token, and an image request; every
    collaborator is up and answers. *)
Definition usage_env : Usage.Env :=
  {| Usage.authorization := Some "Bearer token-1";
     Usage.gateway_setToken := fun _ => Ok tt;
     Usage.gateway_getUsage := Ok JNull;
     Usage.aIUsage_groupBy := fun _ =>
       Ok [ {| Usage.service := "groq"; Usage.count_id := 3; Usage.sum_tokens := Some 1200 |} ];
     Usage.currentMonth := "2025-01" |}.

Definition image_env : GenerateImage.Env :=
  {| GenerateImage.request_json :=
       Ok (Some {| GenerateImage.raw_prompt := JString "a logo for a tea shop";
                   GenerateImage.raw_style := JUndefined;
                   GenerateImage.raw_size := JUndefined |});
     GenerateImage.generate := fun _ _ =>
       call (EvGatewayCall "generateImage")
            (Ok (json 200 [("imageUrl", JString "https://images.example/1.png")])) |}.

Definition acme : Chat.Row :=
  {| Chat.row_id := "contact-9";
     Chat.row_tenantId := tenant;
     Chat.row_fields := [("name", JString "Acme Traders"); ("company", JString "Acme")] |}.

Definition other_tenant_contact : Chat.Row :=
  {| Chat.row_id := "contact-3";
     Chat.row_tenantId := "tenant-2";
     Chat.row_fields := [("name", JString "Acme Holdings"); ("company", JString "Acme")] |}.

End Examples.

(* ===================================================================== *)
(** ** Further sample requests *)
(* ===================================================================== *)

Module Scenarios.

(** A callback for a call that is already on record, answered at
    clock reading 40; the clock now reads 100. *)
Definition known_call : Webhook.AICall :=
  {| Webhook.call_id := "call-7";
     Webhook.call_answeredAt := Some 40;
     Webhook.call_endedAt := None |}.

Definition callback (callStatus : option string) : Webhook.FormData :=
  {| Webhook.CallSid := Some "CA123";
     Webhook.CallStatus := callStatus;
     Webhook.From := Some "+911234500000";
     Webhook.To := Some "+915678900000";
     Webhook.Direction := Some "inbound";
     Webhook.AccountSid := Some "AC1" |}.

Definition webhook_known_env (callStatus : option string) : Webhook.Env :=
  {| Webhook.formData := Ok (callback callStatus);
     Webhook.aICall_findUnique := fun _ => Ok (Some known_call);
     Webhook.aICall_create := fun _ => Throw (Error_ "Unique constraint failed");
     Webhook.aICall_update := fun _ _ => Ok tt;
     Webhook.now := 100 |}.

(** An image request whose prompt is the empty string. *)
Definition image_env_without_prompt : GenerateImage.Env :=
  {| GenerateImage.request_json :=
       Ok (Some {| GenerateImage.raw_prompt := JString "";
                   GenerateImage.raw_style := JUndefined;
                   GenerateImage.raw_size := JUndefined |});
     GenerateImage.generate := GenerateImage.generate Examples.image_env |}.

(** A chat request whose message is the empty string. *)
Definition env_empty_message : Chat.Env :=
  Examples.chat_env Examples.signed_in (JString "") true [] (Examples.analysis true Chat.high)
                    (Examples.answer "Hello.").

(** A context block whose only deal is with a company whose name
    contains the word the renderer uses for an empty list. *)
Definition context_with_nonesuch : string :=
  "=== BUSINESS DATA ===" ++ nl ++
  "ACTIVE DEALS (1):" ++ nl ++
  "1. Nonesuch Traders: ₹9,000 (Stage: proposal)" ++ nl ++ nl ++
  "PENDING INVOICES (0, Total: ₹0.00):" ++ nl ++
  "None - You have no pending invoices." ++ nl ++ nl ++
  "=== END OF BUSINESS DATA ===" ++ nl.

End Scenarios.

(* ===================================================================== *)
(** ** Vocabulary for what a handler did *)
(* ===================================================================== *)

Module Observed.

(** A write to the call table. *)
Definition is_write (e : Event) : bool :=
  match e with EvCreateCall _ | EvUpdateCall _ _ => true | _ => false end.

(** The internal call statuses. *)
Definition call_statuses : list string :=
  ["RINGING"; "ANSWERED"; "COMPLETED"; "BUSY"; "NO_ANSWER"; "FAILED"].

(** The provider needs no key, or its key is set. *)
Definition has_credentials (E : Chat.Env) (p : Provider) : bool :=
  match p with
  | Groq => Chat.option_truthy (Chat.GROQ_API_KEY E)
  | Ollama => true
  | HuggingFace => Chat.option_truthy (Chat.HUGGINGFACE_API_KEY E)
  | OpenAI => Chat.option_truthy (Chat.OPENAI_API_KEY E)
  end.

(** The provider cascade the way the specification words it, over the
    answers of the provider clients alone. [answer_of] is the response of
    one bounded call to a provider, if the call yields one: the client
    returns, and for OpenAI the HTTP response is [ok] and its body
    parses. *)
Definition answer_of (E : Chat.Env) (p : Provider) (systemPrompt userMessage : string)
  : option Chat.ChatResponse :=
  let messages := Chat.chat_messages systemPrompt userMessage in
  match p with
  | Groq =>
      match Chat.groq_chat E messages with Ok r => Some r | Throw _ => None end
  | Ollama =>
      match Chat.ollama_chat E messages with Ok r => Some r | Throw _ => None end
  | HuggingFace =>
      match Chat.huggingFace_chat E messages with Ok r => Some r | Throw _ => None end
  | OpenAI =>
      match Chat.openai_fetch E (Chat.option_or (Chat.OPENAI_API_KEY E) "") messages with
      | Ok openaiResponse =>
          if Chat.ok openaiResponse then
            match Chat.fetch_json openaiResponse with
            | Ok data =>
                Some {| Chat.message := Chat.option_or (Chat.first_choice_content data) "";
                        Chat.usage := Chat.data_usage data |}
            | Throw _ => None
            end
          else None
      | Throw _ => None
      end
  end.

(** The providers that are asked, in the order they are asked: going
    down the chain, every provider that has its credentials is asked
    once, until one answers. *)
Fixpoint asked (E : Chat.Env) (systemPrompt userMessage : string) (chain : list Provider)
  : list Provider :=
  match chain with
  | [] => []
  | p :: rest =>
      if has_credentials E p then
        p :: match answer_of E p systemPrompt userMessage with
             | Some _ => []
             | None => asked E systemPrompt userMessage rest
             end
      else asked E systemPrompt userMessage rest
  end.

(** The answer: that of the first provider of the chain that has its
    credentials and answers, else the rule-based one. *)
Fixpoint answered_by (E : Chat.Env) (systemPrompt userMessage : string)
         (chain : list Provider) (last : Chat.ChatResponse) : Chat.ChatResponse * string :=
  match chain with
  | [] => (last, "rule-based")
  | p :: rest =>
      if has_credentials E p then
        match answer_of E p systemPrompt userMessage with
        | Some response => (response, Chat.service_name p)
        | None => answered_by E systemPrompt userMessage rest last
        end
      else answered_by E systemPrompt userMessage rest last
  end.

(** The same request when the cache and the job queue behave
    otherwise. *)
Definition with_stores (E : Chat.Env)
           (cacheSet : string -> string -> Result unit)
           (queueAdd : LogJob -> Result unit) : Chat.Env :=
  {| Chat.requireModuleAccess := Chat.requireModuleAccess E;
     Chat.handleLicenseError := Chat.handleLicenseError E;
     Chat.request_json := Chat.request_json E;
     Chat.GROQ_API_KEY := Chat.GROQ_API_KEY E;
     Chat.HUGGINGFACE_API_KEY := Chat.HUGGINGFACE_API_KEY E;
     Chat.OPENAI_API_KEY := Chat.OPENAI_API_KEY E;
     Chat.NODE_ENV := Chat.NODE_ENV E;
     Chat.groq_chat := Chat.groq_chat E;
     Chat.ollama_chat := Chat.ollama_chat E;
     Chat.huggingFace_chat := Chat.huggingFace_chat E;
     Chat.openai_fetch := Chat.openai_fetch E;
     Chat.prisma_findUnique := Chat.prisma_findUnique E;
     Chat.prisma_findMany := Chat.prisma_findMany E;
     Chat.prisma_count := Chat.prisma_count E;
     Chat.extractedNames := Chat.extractedNames E;
     Chat.renderContext := Chat.renderContext E;
     Chat.analyzePromptContext := Chat.analyzePromptContext E;
     Chat.formatClarifyingQuestions := Chat.formatClarifyingQuestions E;
     Chat.semanticCache_set := cacheSet;
     Chat.mediumPriorityQueue_add := queueAdd |}.

(** The same circumstances with another request body. *)
Definition with_body (E : Chat.Env) (body : Chat.RawBody) : Chat.Env :=
  {| Chat.requireModuleAccess := Chat.requireModuleAccess E;
     Chat.handleLicenseError := Chat.handleLicenseError E;
     Chat.request_json := Ok (Some body);
     Chat.GROQ_API_KEY := Chat.GROQ_API_KEY E;
     Chat.HUGGINGFACE_API_KEY := Chat.HUGGINGFACE_API_KEY E;
     Chat.OPENAI_API_KEY := Chat.OPENAI_API_KEY E;
     Chat.NODE_ENV := Chat.NODE_ENV E;
     Chat.groq_chat := Chat.groq_chat E;
     Chat.ollama_chat := Chat.ollama_chat E;
     Chat.huggingFace_chat := Chat.huggingFace_chat E;
     Chat.openai_fetch := Chat.openai_fetch E;
     Chat.prisma_findUnique := Chat.prisma_findUnique E;
     Chat.prisma_findMany := Chat.prisma_findMany E;
     Chat.prisma_count := Chat.prisma_count E;
     Chat.extractedNames := Chat.extractedNames E;
     Chat.renderContext := Chat.renderContext E;
     Chat.analyzePromptContext := Chat.analyzePromptContext E;
     Chat.formatClarifyingQuestions := Chat.formatClarifyingQuestions E;
     Chat.semanticCache_set := Chat.semanticCache_set E;
     Chat.mediumPriorityQueue_add := Chat.mediumPriorityQueue_add E |}.

End Observed.

(* ===================================================================== *)
(** ** Facts about strings *)
(* ===================================================================== *)

Module StringFacts.

Lemma prefix_app (p s : string) :
  String.prefix p s = true <-> exists rest, s = p ++ rest.
Proof.
  revert s. induction p as [|c p IH]; intros s; simpl.
  - split; [intros _; now exists s|intros _; destruct s; reflexivity].
  - destruct s as [|d s]; [split; [discriminate|intros [r Hr]; discriminate]|].
    simpl. destruct (ascii_dec c d) as [->|Hne].
    + rewrite IH. split; intros [r Hr]; exists r; [now rewrite Hr|now inversion Hr].
    + split; [discriminate|]. intros [r Hr]. inversion Hr. congruence.
Qed.

(** [includes] is the substring test. *)
Lemma includes_spec (s sub : string) :
  includes s sub = true <-> exists before after, s = before ++ sub ++ after.
Proof.
  induction s as [|c s IH].
  - change (includes "" sub) with (if String.prefix sub "" then true else false).
    destruct (String.prefix sub "") eqn:Hp.
    + split; [intros _|reflexivity]. apply prefix_app in Hp as [r Hr]. now exists "", r.
    + split; [discriminate|]. intros ([|d b] & a & H).
      * simpl in H. assert (String.prefix sub "" = true) by (apply prefix_app; eauto).
        congruence.
      * discriminate.
  - change (includes (String c s) sub)
      with (if String.prefix sub (String c s) then true else includes s sub).
    destruct (String.prefix sub (String c s)) eqn:Hp.
    + split; [intros _|reflexivity]. apply prefix_app in Hp as [r Hr]. now exists "", r.
    + rewrite IH. split.
      * intros (b & a & ->). now exists (String c b), a.
      * intros ([|d b] & a & H).
        -- simpl in H. assert (String.prefix sub (String c s) = true)
             by (apply prefix_app; eauto). congruence.
        -- inversion H. eauto.
Qed.

Lemma truthy_app (a b : string) : truthy a = true -> truthy (a ++ b) = true.
Proof. destruct a; [discriminate|reflexivity]. Qed.

Lemma truthy_nonempty (a : string) : truthy a = true <-> a <> "".
Proof. destruct a; simpl; split; congruence. Qed.

Lemma js_length_truthy (s : string) : 1 <= js_length s -> truthy s = true.
Proof. destruct s; simpl; [lia|reflexivity]. Qed.

End StringFacts.

(* ===================================================================== *)
(** ** Reasoning about handlers *)
(* ===================================================================== *)

Module EffFacts.

Lemma forallb_none (P Q : Event -> bool) (t : list Event) :
  (forall e, P e = true -> Q e = false) ->
  forallb P t = true -> existsb Q t = false.
Proof.
  intros HPQ. induction t as [|e t IH]; simpl; [reflexivity|].
  intros H. apply andb_true_iff in H as [He Ht].
  now rewrite (HPQ e He), (IH Ht).
Qed.

Section Quiet.

Variable P : Event -> bool.

(** [m] leaves the store alone and only makes calls of kind [P]. *)
Definition quiet {A} (m : M A) : Prop :=
  forall s, store_of (m s) = s /\ forallb P (trace_of (m s)) = true.

Lemma quiet_ret {A} (a : A) : quiet (ret a).
Proof. intros s. split; reflexivity. Qed.

Lemma quiet_throw {A} (e : JsError) : quiet (@throw A e).
Proof. intros s. split; reflexivity. Qed.

Lemma quiet_lift {A} (r : Result A) : quiet (lift r).
Proof. intros s. split; reflexivity. Qed.

Lemma quiet_call {A} (e : Event) (r : Result A) : P e = true -> quiet (call e r).
Proof. intros He s. split; [reflexivity|]. unfold call, trace_of; simpl. now rewrite He. Qed.

Lemma quiet_emit (e : Event) : P e = true -> quiet (emit e).
Proof. intros He s. split; [reflexivity|]. unfold emit, trace_of; simpl. now rewrite He. Qed.

Lemma quiet_bind {A B} (m : M A) (k : A -> M B) :
  quiet m -> (forall a, quiet (k a)) -> quiet (bind m k).
Proof.
  intros Hm Hk s. unfold quiet, bind, store_of, trace_of in *.
  specialize (Hm s). destruct (m s) as [[r s1] t1]. simpl in Hm. destruct Hm as [-> Ht1].
  destruct r as [a|e]; simpl; [|now split].
  specialize (Hk a s). destruct (k a s) as [[r2 s2] t2]. simpl in *.
  destruct Hk as [-> Ht2]. split; [reflexivity|].
  rewrite forallb_app. now rewrite Ht1, Ht2.
Qed.

Lemma quiet_try_catch {A} (m : M A) (h : JsError -> M A) :
  quiet m -> (forall e, quiet (h e)) -> quiet (try_catch m h).
Proof.
  intros Hm Hh s. unfold quiet, try_catch, store_of, trace_of in *.
  specialize (Hm s). destruct (m s) as [[r s1] t1]. simpl in Hm. destruct Hm as [-> Ht1].
  destruct r as [a|e]; simpl; [now split|].
  specialize (Hh e s). destruct (h e s) as [[r2 s2] t2]. simpl in *.
  destruct Hh as [-> Ht2]. split; [reflexivity|].
  rewrite forallb_app. now rewrite Ht1, Ht2.
Qed.

Lemma quiet_promise_all {A} (ms : list (M A)) :
  Forall quiet ms -> quiet (Chat.promise_all ms).
Proof.
  induction 1 as [|m ms Hm _ IH]; intros s; [split; reflexivity|].
  simpl. unfold quiet, store_of, trace_of in *.
  specialize (Hm s). destruct (m s) as [[r s1] t1]. simpl in Hm. destruct Hm as [-> Ht1].
  specialize (IH s). destruct (Chat.promise_all ms s) as [[rs s2] t2]. simpl in *.
  destruct IH as [-> Ht2]. split; [reflexivity|].
  rewrite forallb_app. now rewrite Ht1, Ht2.
Qed.

(** A [try] whose handler returns a constant always returns. *)
Lemma quiet_caught {A} (m : M A) (dflt : A) (s : Store) :
  quiet m ->
  exists a t, try_catch m (fun _ => ret dflt) s = (Ok a, s, t) /\ forallb P t = true.
Proof.
  intros Hm. unfold quiet, try_catch, store_of, trace_of in *.
  specialize (Hm s). destruct (m s) as [[r s1] t1]. simpl in Hm. destruct Hm as [-> Ht1].
  destruct r as [a|e]; simpl.
  - now exists a, t1.
  - exists dflt, (t1 ++ [])%list. rewrite app_nil_r. now split.
Qed.

End Quiet.

(** Calls made by a prefix of a computation are calls of the whole. *)
Lemma trace_bind_l {A B} (m : M A) (k : A -> M B) (s : Store) (e : Event) :
  In e (trace_of (m s)) -> In e (trace_of (bind m k s)).
Proof.
  unfold bind, trace_of. destruct (m s) as [[[a|err] s1] t1]; simpl; [|tauto].
  destruct (k a s1) as [[r s2] t2]. simpl. intros H. apply in_or_app. now left.
Qed.

Lemma trace_bind_r {A B} (m : M A) (k : A -> M B) (s s1 : Store) (a : A)
      (t1 : list Event) (e : Event) :
  m s = (Ok a, s1, t1) -> In e (trace_of (k a s1)) -> In e (trace_of (bind m k s)).
Proof.
  unfold bind, trace_of. intros ->. destruct (k a s1) as [[r s2] t2]. simpl.
  intros H. apply in_or_app. now right.
Qed.

Lemma trace_try_l {A} (m : M A) (h : JsError -> M A) (s : Store) (e : Event) :
  In e (trace_of (m s)) -> In e (trace_of (try_catch m h s)).
Proof.
  unfold try_catch, trace_of. destruct (m s) as [[[a|err] s1] t1]; simpl; [tauto|].
  destruct (h err s1) as [[r s2] t2]. simpl. intros H. apply in_or_app. now left.
Qed.

(** [m] never looks at the store: what it returns and the calls it
    makes are the same from any two stores. *)
Definition oblivious {A} (m : M A) : Prop :=
  forall s1 s2, result_of (m s1) = result_of (m s2) /\ trace_of (m s1) = trace_of (m s2).

Lemma oblivious_ret {A} (a : A) : oblivious (ret a).
Proof. intros s1 s2. split; reflexivity. Qed.

Lemma oblivious_throw {A} (e : JsError) : oblivious (@throw A e).
Proof. intros s1 s2. split; reflexivity. Qed.

Lemma oblivious_lift {A} (r : Result A) : oblivious (lift r).
Proof. intros s1 s2. split; reflexivity. Qed.

Lemma oblivious_call {A} (e : Event) (r : Result A) : oblivious (call e r).
Proof. intros s1 s2. split; reflexivity. Qed.

Lemma oblivious_emit (e : Event) : oblivious (emit e).
Proof. intros s1 s2. split; reflexivity. Qed.

Lemma oblivious_modify (f : Store -> Store) : oblivious (modify f).
Proof. intros s1 s2. split; reflexivity. Qed.

Lemma oblivious_const {A} (r : Result A) (t : list Event) (f : Store -> Store) :
  oblivious (fun s => (r, f s, t)).
Proof. intros s1 s2. split; reflexivity. Qed.

Lemma oblivious_bind {A B} (m : M A) (k : A -> M B) :
  oblivious m -> (forall a, oblivious (k a)) -> oblivious (bind m k).
Proof.
  intros Hm Hk s1 s2. unfold oblivious, bind, result_of, trace_of in *.
  specialize (Hm s1 s2).
  destruct (m s1) as [[r1 s1'] t1], (m s2) as [[r2 s2'] t2]. simpl in Hm.
  destruct Hm as [-> ->]. destruct r2 as [a|e]; simpl; [|now split].
  specialize (Hk a s1' s2').
  destruct (k a s1') as [[ra sa] ta], (k a s2') as [[rb sb] tb]. simpl in *.
  destruct Hk as [-> ->]. now split.
Qed.

Lemma oblivious_try_catch {A} (m : M A) (h : JsError -> M A) :
  oblivious m -> (forall e, oblivious (h e)) -> oblivious (try_catch m h).
Proof.
  intros Hm Hh s1 s2. unfold oblivious, try_catch, result_of, trace_of in *.
  specialize (Hm s1 s2).
  destruct (m s1) as [[r1 s1'] t1], (m s2) as [[r2 s2'] t2]. simpl in Hm.
  destruct Hm as [-> ->]. destruct r2 as [a|e]; simpl; [now split|].
  specialize (Hh e s1' s2').
  destruct (h e s1') as [[ra sa] ta], (h e s2') as [[rb sb] tb]. simpl in *.
  destruct Hh as [-> ->]. now split.
Qed.

Lemma oblivious_promise_all {A} (ms : list (M A)) :
  Forall oblivious ms -> oblivious (Chat.promise_all ms).
Proof.
  induction 1 as [|m ms Hm _ IH]; intros s1 s2; [split; reflexivity|].
  simpl. unfold oblivious, result_of, trace_of in *.
  specialize (Hm s1 s2).
  destruct (m s1) as [[r1 s1'] t1], (m s2) as [[r2 s2'] t2]. simpl in Hm.
  destruct Hm as [-> ->].
  specialize (IH s1' s2').
  destruct (Chat.promise_all ms s1') as [[ra sa] ta],
           (Chat.promise_all ms s2') as [[rb sb] tb]. simpl in *.
  destruct IH as [-> ->]. now split.
Qed.

End EffFacts.

(* ===================================================================== *)
(** ** Telephony webhook: status mapping and tenant of new calls *)
(* ===================================================================== *)

Module WebhookFacts.

Import Webhook.

Section Mapping.

Variable lower : string -> string.

Lemma mapTwilioStatus_own (status v : string) :
  own_property statusMap (lower status) = Some v ->
  truthy v = true ->
  mapTwilioStatus lower status = JString v.
Proof.
  intros Hown Hv. unfold mapTwilioStatus, get_property, js_or.
  rewrite Hown. simpl. now rewrite Hv.
Qed.

(** The seven vendor statuses, whatever the letter case of the input. *)
Lemma mapTwilioStatus_named (status : string) :
  (lower status = "ringing" -> mapTwilioStatus lower status = JString "RINGING") /\
  (lower status = "in-progress" -> mapTwilioStatus lower status = JString "ANSWERED") /\
  (lower status = "completed" -> mapTwilioStatus lower status = JString "COMPLETED") /\
  (lower status = "busy" -> mapTwilioStatus lower status = JString "BUSY") /\
  (lower status = "no-answer" -> mapTwilioStatus lower status = JString "NO_ANSWER") /\
  (lower status = "failed" -> mapTwilioStatus lower status = JString "FAILED") /\
  (lower status = "canceled" -> mapTwilioStatus lower status = JString "FAILED").
Proof.
  repeat split; intros H; apply mapTwilioStatus_own; try rewrite H; reflexivity.
Qed.

(** A status that is neither a key of the table nor the name of a
    property inherited from [Object.prototype] maps to ['RINGING']. *)
Lemma mapTwilioStatus_default (status : string) :
  own_property statusMap (lower status) = None ->
  field (lower status) Object_prototype = JUndefined ->
  mapTwilioStatus lower status = JString "RINGING".
Proof.
  intros Hown Hproto. unfold mapTwilioStatus, get_property, js_or.
  now rewrite Hown, Hproto.
Qed.

(** The result is a string exactly when the lookup does not land on an
    inherited property. *)
Lemma mapTwilioStatus_inherited (status : string) (v : JsValue) :
  own_property statusMap (lower status) = None ->
  field (lower status) Object_prototype = v ->
  js_truthy v = true ->
  mapTwilioStatus lower status = v.
Proof.
  intros Hown Hproto Hv. unfold mapTwilioStatus, get_property, js_or.
  now rewrite Hown, Hproto, Hv.
Qed.

End Mapping.

(** C9. The status mapping is claimed to send every string outside the
    seven named ones to ['RINGING']. The lookup [statusMap[key]] goes
    through the prototype chain: for the status ["constructor"] it finds
    [Object.prototype.constructor], which is truthy, so the default is
    not taken and the value returned is a function, not ['RINGING']. *)
Theorem mapTwilioStatus_constructor :
  mapTwilioStatus ascii_toLowerCase "constructor" = JFunction "Object" /\
  mapTwilioStatus ascii_toLowerCase "CONSTRUCTOR" = JFunction "Object" /\
  mapTwilioStatus ascii_toLowerCase "__proto__" = JObject "Object.prototype" /\
  mapTwilioStatus ascii_toLowerCase "constructor" <> JString "RINGING".
Proof.
  repeat split; try reflexivity. discriminate.
Qed.

(** The named statuses and one unknown status, on ASCII input. *)
Example mapTwilioStatus_samples :
  map (mapTwilioStatus ascii_toLowerCase)
      ["ringing"; "In-Progress"; "COMPLETED"; "busy"; "no-answer"; "failed"; "canceled"; "queued"]
  = map JString
      ["RINGING"; "ANSWERED"; "COMPLETED"; "BUSY"; "NO_ANSWER"; "FAILED"; "FAILED"; "RINGING"].
Proof. reflexivity. Qed.

Section Handler.

Variable lower : string -> string.

(** Whatever the callback and whatever the ORM answers, a record the
    webhook creates carries the tenant ['default']. *)
Lemma created_tenant_default (E : Env) (s : Store) (d : CallCreate) :
  In d (created (trace_of (POST lower E s))) -> cc_tenantId d = "default".
Proof.
  unfold POST, try_catch, bind, call, ret, trace_of, mapTwilioStatus_of, throw.
  destruct (formData E) as [fd|e]; simpl; [|tauto].
  destruct (aICall_findUnique E (CallSid fd)) as [[c|]|e]; simpl; try tauto;
    (destruct (CallStatus fd); simpl; [|tauto]).
  - destruct (aICall_update E _ _); simpl; split_ifs; simpl; tauto.
  - destruct (aICall_create E _); simpl; split_ifs; simpl;
      intros [<-|[]]; reflexivity.
Qed.

(** C10. A callback whose call id has no record creates exactly one
    call record, and that record belongs to the tenant ['default']:
    nothing of the request (caller, callee, direction, account) enters
    the tenant id. *)
Theorem webhook_unknown_call_gets_default_tenant
        (E : Env) (s : Store) (fd : FormData) (callStatus : string) :
  formData E = Ok fd ->
  aICall_findUnique E (CallSid fd) = Ok None ->
  CallStatus fd = Some callStatus ->
  created (trace_of (POST lower E s)) =
    [ {| cc_phoneNumber := if eq_lit (Direction fd) "inbound" then From fd else To fd;
         cc_direction := if eq_lit (Direction fd) "inbound" then "INBOUND" else "OUTBOUND";
         cc_status := mapTwilioStatus lower callStatus;
         cc_twilioCallSid := CallSid fd;
         cc_twilioAccountSid := AccountSid fd;
         cc_handledByAI := true;
         cc_tenantId := "default" |} ].
Proof.
  intros Hform Hfind Hstatus.
  unfold POST, try_catch, bind, call, ret, trace_of, mapTwilioStatus_of.
  rewrite Hform; simpl. rewrite Hfind; simpl. rewrite Hstatus; simpl.
  destruct (aICall_create E _); simpl; split_ifs; reflexivity.
Qed.

End Handler.

Lemma webhook_unknown_call_gets_default_tenant_witness :
  map cc_tenantId
      (created (trace_of (POST ascii_toLowerCase (Examples.webhook_env "ringing") empty_store)))
  = ["default"].
Proof.
  rewrite (webhook_unknown_call_gets_default_tenant ascii_toLowerCase
             (Examples.webhook_env "ringing") empty_store
             _ "ringing" eq_refl eq_refl eq_refl).
  reflexivity.
Defined.

End WebhookFacts.

(* ===================================================================== *)
(** ** Business-context assembly *)
(* ===================================================================== *)

Module ContextFacts.

Import Chat EffFacts.

Ltac quiet_step :=
  first
    [ apply quiet_ret
    | apply quiet_throw
    | apply quiet_lift
    | apply quiet_call; cbv [is_persistence]; try reflexivity;
      cbn; rewrite ?String.eqb_refl; reflexivity
    | apply quiet_bind; [|intros ?]
    | apply quiet_promise_all; repeat constructor
    | match goal with
      | |- quiet _ (if ?b then _ else _) => destruct b
      | |- quiet _ (match ?x with _ => _ end) => destruct x
      end ].

Section Assembly.

Variable E : Env.
Variables tenantId userMessage : string.

Lemma matchContact_quiet : quiet is_persistence (matchContact E tenantId userMessage).
Proof. unfold matchContact, findMany. repeat quiet_step. Qed.

(** The [try] block of [getBusinessContext] only reads from the ORM. *)
Lemma getBusinessContext_quiet :
  quiet is_persistence (getBusinessContext E tenantId userMessage).
Proof.
  unfold getBusinessContext. apply quiet_try_catch; [|intros; apply quiet_ret].
  apply quiet_bind; [apply quiet_call; reflexivity|intros ?].
  apply quiet_bind; [apply matchContact_quiet|intros ?].
  unfold findMany, count. repeat quiet_step.
Qed.

(** Every query carries the tenant filter, except the one on the
    interaction table. *)
Lemma getBusinessContext_scoped :
  quiet (scoped_or_interaction tenantId) (getBusinessContext E tenantId userMessage).
Proof.
  unfold getBusinessContext, matchContact, findUnique, findMany, count.
  apply quiet_try_catch; [|intros; apply quiet_ret].
  repeat quiet_step.
Qed.

Lemma queries_in (q : Query) (t : list Event) :
  In q (queries t) <-> In (EvQuery q) t.
Proof.
  induction t as [|e t IH]; simpl; [tauto|].
  destruct e; simpl; rewrite IH; intuition (try discriminate; try congruence).
Qed.

Lemma tenant_scoped_queries (s : Store) (q : Query) :
  In q (queries (trace_of (getBusinessContext E tenantId userMessage s))) ->
  filters_by_tenant tenantId q = true \/ q_table q = TInteraction.
Proof.
  intros Hin. apply queries_in in Hin.
  destruct (getBusinessContext_scoped s) as [_ Hall].
  rewrite forallb_forall in Hall. specialize (Hall _ Hin). simpl in Hall.
  apply orb_true_iff in Hall as [H|H]; [now left|right].
  destruct (q_table q); congruence.
Qed.

(** [getBusinessContext] never rejects: its own [catch] turns every
    failure into the empty string. *)
Lemma getBusinessContext_returns (s : Store) :
  exists ctx t,
    getBusinessContext E tenantId userMessage s = (Ok ctx, s, t)
    /\ forallb is_persistence t = true.
Proof.
  unfold getBusinessContext. apply quiet_caught.
  apply quiet_bind; [apply quiet_call; reflexivity|intros ?].
  apply quiet_bind; [apply matchContact_quiet|intros ?].
  unfold findMany, count. repeat quiet_step.
Qed.

(** Hence the [catch] of the handler around it (lines 54-58), the one
    that would put the placeholder, never runs. *)
Lemma assembleContext_is_getBusinessContext (s : Store) :
  assembleContext E tenantId userMessage s = getBusinessContext E tenantId userMessage s.
Proof.
  unfold assembleContext, try_catch.
  destruct (getBusinessContext_returns s) as (ctx & t & -> & _). reflexivity.
Qed.

Lemma assembleContext_returns (s : Store) :
  exists ctx t,
    assembleContext E tenantId userMessage s = (Ok ctx, s, t)
    /\ forallb is_persistence t = true.
Proof.
  rewrite assembleContext_is_getBusinessContext. apply getBusinessContext_returns.
Qed.

Ltac use_answers :=
  repeat match goal with
         | H : ?x = Ok _, F : context [?x] |- _ => rewrite H in F
         end.

Lemma failed_query_empties_getBusinessContext (s : Store) (q : Query) :
  In q (queries (trace_of (getBusinessContext E tenantId userMessage s))) ->
  query_fails E q = true ->
  result_of (getBusinessContext E tenantId userMessage s) = Ok "".
Proof.
  unfold getBusinessContext, matchContact, try_catch, bind, findUnique, findMany, count,
    call, lift, ret, trace_of, result_of. simpl.
  break_match; try reflexivity.
  all: simpl; intros Hin Hfail; exfalso;
    repeat (destruct Hin as [<-|Hin];
            [unfold query_fails in Hfail; simpl in Hfail; use_answers; discriminate|]);
    exact Hin.
Qed.

(** C4. When a persistence query of the context assembly fails, whichever
    it is, the context the pipeline continues with is the empty string,
    not the placeholder ['Business context unavailable. Please try
    again.']: the failure is swallowed inside [getBusinessContext], and
    the handler's own [catch], the one that sets the placeholder, is
    never entered. The request is not aborted. *)
Theorem failed_query_gives_empty_context (s : Store) (q : Query) :
  In q (queries (trace_of (assembleContext E tenantId userMessage s))) ->
  query_fails E q = true ->
  result_of (assembleContext E tenantId userMessage s) = Ok ""
  /\ store_of (assembleContext E tenantId userMessage s) = s
  /\ "" <> context_unavailable.
Proof.
  rewrite assembleContext_is_getBusinessContext. intros Hin Hfail.
  split; [now apply failed_query_empties_getBusinessContext with (q := q)|].
  split; [apply getBusinessContext_quiet|discriminate].
Qed.

(** The context is what the rendering returned, or the empty string. *)
Lemma bind_ok_inv {A B} (m : M A) (k : A -> M B) (s : Store) (b : B) :
  result_of (bind m k s) = Ok b ->
  exists a s1, result_of (m s) = Ok a /\ result_of (k a s1) = Ok b.
Proof.
  unfold bind, result_of. destruct (m s) as [[[a|e] s1] t1]; simpl; [|discriminate].
  intros H. exists a, s1. split; [reflexivity|].
  destruct (k a s1) as [[r s2] t2]. exact H.
Qed.

Lemma context_is_rendered_or_empty (s : Store) (ctx : string) :
  result_of (assembleContext E tenantId userMessage s) = Ok ctx ->
  ctx = "" \/ exists data, renderContext E data = Ok ctx.
Proof.
  rewrite assembleContext_is_getBusinessContext.
  unfold getBusinessContext, try_catch.
  match goal with |- context [?body s] => destruct (body s) as [[[a|e] s1] t1] eqn:Hbody end;
    simpl; [|intros [= <-]; now left].
  intros [= ->]. right.
  assert (Hres : result_of
    ((tenant <- findUnique E (q_tenant tenantId) ;;
   matched <- matchContact E tenantId userMessage ;;
   products <- findMany E (q_products tenantId) ;;
   counts <- promise_all
               [ count E (q_count TContact tenantId);
                 count E (q_count TDeal tenantId);
                 count E (q_count TOrder tenantId);
                 count E (q_count TInvoice tenantId);
                 count E (q_count TTask tenantId) ] ;;
   overdueInvoices <- findMany E (q_overdueInvoices tenantId) ;;
   pendingTasks <- findMany E (q_pendingTasks tenantId) ;;
   recentDeals <- findMany E (q_recentDeals tenantId) ;;
   recentOrders <- findMany E (q_recentOrders tenantId) ;;
   pendingInvoices <- findMany E (q_pendingInvoices tenantId) ;;
   lift (renderContext E
           {| cd_tenant := tenant;
              cd_relevantContact := fst (fst matched);
              cd_relevantDeal := snd (fst matched);
              cd_interactions := snd matched;
              cd_products := products;
              cd_counts := counts;
              cd_overdueInvoices := overdueInvoices;
              cd_pendingTasks := pendingTasks;
              cd_recentDeals := recentDeals;
              cd_recentOrders := recentOrders;
              cd_pendingInvoices := pendingInvoices |}))%eff s) = Ok ctx)
    by (unfold result_of; now rewrite Hbody).
  clear Hbody.
  repeat (apply bind_ok_inv in Hres as (? & ? & _ & Hres)).
  unfold lift, result_of in Hres. simpl in Hres. eauto.
Qed.

(** C8. Every query of the context assembly is claimed to filter by
    the tenant identifier, as the comment at the head of
    [getBusinessContext] demands. When the message matches a contact,
    the query for that contact's past interactions is issued with
    [where: { contactId }] alone: no tenant filter. *)
Theorem interaction_query_lacks_tenant_filter
        (s : Store) (tenant : option Row) (contact : Row) (others deals : list Row) :
  truthy userMessage = true ->
  prisma_findUnique E (q_tenant tenantId) = Ok tenant ->
  prisma_findMany E (q_contacts tenantId (searchTerms E userMessage)) = Ok (contact :: others) ->
  prisma_findMany E (q_contact_deals tenantId (row_id contact)) = Ok deals ->
  In (q_interactions (row_id contact))
     (queries (trace_of (getBusinessContext E tenantId userMessage s)))
  /\ filters_by_tenant tenantId (q_interactions (row_id contact)) = false.
Proof.
  intros Hmsg Htenant Hcontact Hdeals. split; [|reflexivity].
  apply queries_in. unfold getBusinessContext. apply trace_try_l.
  eapply trace_bind_r; [unfold findUnique, call; now rewrite Htenant|].
  apply trace_bind_l. unfold matchContact. rewrite Hmsg.
  eapply trace_bind_r; [unfold findMany, call; now rewrite Hcontact|].
  eapply trace_bind_r; [unfold findMany, call; now rewrite Hdeals|].
  apply trace_bind_l. left. reflexivity.
Qed.

(** The contact-matching step itself is scoped: against a contact
    table, the contact it picks belongs to the requesting tenant. *)
Lemma matched_contact_of_tenant
      (lower : string -> string) (table : list Row) (s s' : Store)
      (contact : Row) (deal : option Row) (interactions : list Row) (t : list Event) :
  (forall q, q_table q = TContact -> prisma_findMany E q = memory_contacts lower table q) ->
  matchContact E tenantId userMessage s = (Ok (Some contact, deal, interactions), s', t) ->
  row_tenantId contact = tenantId /\ In contact table.
Proof.
  intros Hdb. unfold matchContact, bind, findMany, call.
  destruct (truthy userMessage); [|discriminate].
  rewrite Hdb by reflexivity. unfold memory_contacts. simpl.
  destruct (filter _ table) as [|c rows] eqn:Hf; simpl; [discriminate|].
  assert (Hc : In c (filter (contact_where lower tenantId (searchTerms E userMessage)) table))
    by (rewrite Hf; now left).
  apply filter_In in Hc as [Hin Hw]. unfold contact_where in Hw.
  apply andb_true_iff in Hw as [Ht _]. apply String.eqb_eq in Ht.
  destruct (prisma_findMany E (q_contact_deals tenantId (row_id c))); simpl; [|discriminate].
  destruct (prisma_findMany E (q_interactions (row_id c))); simpl; [|discriminate].
  intros [= <- _ _ _ _]. now split.
Qed.

(** A tenant without contacts is never shown a contact. *)
Lemma no_contacts_no_match
      (lower : string -> string) (table : list Row) (s : Store) :
  (forall q, q_table q = TContact -> prisma_findMany E q = memory_contacts lower table q) ->
  (forall r, In r table -> row_tenantId r <> tenantId) ->
  exists t, matchContact E tenantId userMessage s = (Ok (None, None, []), s, t).
Proof.
  intros Hdb Hnone. unfold matchContact, bind, findMany, call.
  destruct (truthy userMessage); [|now eexists].
  rewrite Hdb by reflexivity. unfold memory_contacts. simpl.
  destruct (filter _ table) as [|c rows] eqn:Hf; simpl; [now eexists|].
  assert (Hc : In c (filter (contact_where lower tenantId (searchTerms E userMessage)) table))
    by (rewrite Hf; now left).
  apply filter_In in Hc as [Hin Hw]. unfold contact_where in Hw.
  apply andb_true_iff in Hw as [Ht _]. apply String.eqb_eq in Ht.
  now destruct (Hnone c Hin).
Qed.

End Assembly.

Lemma failed_query_gives_empty_context_witness :
  result_of (assembleContext Examples.env_database_down Examples.tenant
                             "what needs attention" empty_store) = Ok ""
  /\ store_of (assembleContext Examples.env_database_down Examples.tenant
                               "what needs attention" empty_store) = empty_store
  /\ "" <> context_unavailable.
Proof.
  apply (failed_query_gives_empty_context Examples.env_database_down Examples.tenant
           "what needs attention" empty_store (q_tenant Examples.tenant)).
  - simpl. left. reflexivity.
  - reflexivity.
Defined.

Lemma interaction_query_lacks_tenant_filter_witness :
  In (q_interactions "contact-9")
     (queries (trace_of
        (getBusinessContext
           (Examples.chat_env Examples.signed_in (JString "Acme") true
              [Examples.other_tenant_contact; Examples.acme]
              (Examples.analysis true high) (Examples.answer "Acme is a customer."))
           Examples.tenant "Acme" empty_store)))
  /\ filters_by_tenant Examples.tenant (q_interactions "contact-9") = false.
Proof.
  apply (interaction_query_lacks_tenant_filter _ _ _ empty_store
           None Examples.acme [] []);
    reflexivity.
Defined.

End ContextFacts.

(* ===================================================================== *)
(** ** The provider cascade *)
(* ===================================================================== *)

Module CascadeFacts.

Import Chat EffFacts.


Lemma subsequence_NoDup (l chain : list Provider) :
  NoDup chain -> subsequence l chain = true -> NoDup l /\ incl l chain.
Proof.
  intros Hnd. revert l. induction Hnd as [|q chain Hq Hnd IH]; intros l H.
  - destruct l; [split; [constructor|easy]|discriminate].
  - destruct l as [|p l]; [split; [constructor|easy]|]. simpl in H.
    destruct (provider_eqb p q) eqn:Hpq.
    + assert (p = q) by (destruct p, q; (reflexivity || discriminate)). subst p.
      destruct (IH _ H) as [Hl Hincl]. split.
      * constructor; [|assumption]. intros Hin. apply Hq, Hincl, Hin.
      * intros x [<-|Hx]; [now left|right; now apply Hincl].
    + destruct (IH _ H) as [Hl Hincl]. split; [assumption|].
      intros x Hx. right. now apply Hincl.
Qed.

Lemma providers_called_app (t1 t2 : list Event) :
  providers_called (t1 ++ t2) = (providers_called t1 ++ providers_called t2)%list.
Proof.
  induction t1 as [|e t1 IH]; simpl; [reflexivity|].
  destruct e; simpl; now rewrite IH.
Qed.

Lemma providers_called_none (t : list Event) :
  existsb is_provider_call t = false -> providers_called t = [].
Proof.
  induction t as [|e t IH]; simpl; [reflexivity|].
  destruct e; simpl; auto; discriminate.
Qed.

Lemma providers_called_map (systemPrompt userMessage : string) (l : list Provider) :
  providers_called (map (fun p => EvProviderCall p systemPrompt userMessage) l) = l.
Proof. induction l as [|p l IH]; simpl; [reflexivity|now rewrite IH]. Qed.

Lemma fallback_order_NoDup : NoDup fallback_order.
Proof. unfold fallback_order. repeat constructor; simpl; intuition discriminate. Qed.

Section Cascade.

Variable lower : string -> string.
Variable E : Env.
Variables query businessContext systemPrompt userMessage : string.

Local Abbreviation run := (attempt E systemPrompt userMessage).
Local Abbreviation last := (ruleBased lower query businessContext).
Local Abbreviation cascade :=
  (getAIResponse lower E query businessContext systemPrompt userMessage).

(** An attempt calls nobody but its own provider, at most once. *)
Lemma attempt_quiet (p : Provider) : quiet is_provider_call (run p).
Proof.
  destruct p; unfold attempt, tryGroq, tryOllama, tryHuggingFace, tryOpenAI.
  all: repeat first
         [ apply quiet_ret | apply quiet_throw | apply quiet_lift
         | apply quiet_call; reflexivity
         | apply quiet_bind; [|intros ?]
         | match goal with |- quiet _ (if ?b then _ else _) => destruct b end ].
Qed.

Lemma attempt_calls (p : Provider) (s : Store) :
  providers_called (trace_of (run p s)) = [] \/
  providers_called (trace_of (run p s)) = [p].
Proof.
  destruct p; unfold attempt, tryGroq, tryOllama, tryHuggingFace, tryOpenAI,
    bind, call, throw, lift, ret, trace_of; simpl; break_match; auto.
Qed.

(** The chain, tried in order: when the head raises, the rest of the
    chain is tried from there; when it returns, it wins. *)
Lemma first_success_raise (f : Provider -> M ChatResponse) (p : Provider)
      (rest : list Provider) (l : ChatResponse) (s s1 : Store) (e : JsError) (t1 : list Event) :
  f p s = (Throw e, s1, t1) ->
  first_success f (p :: rest) l s =
    (let '(r, s2, t2) := first_success f rest l s1 in (r, s2, (t1 ++ t2)%list)).
Proof. intros H. simpl. unfold try_catch, bind. now rewrite H. Qed.

Lemma first_success_return (f : Provider -> M ChatResponse) (p : Provider)
      (rest : list Provider) (l : ChatResponse) (s s1 : Store) (r : ChatResponse)
      (t1 : list Event) :
  f p s = (Ok r, s1, t1) ->
  first_success f (p :: rest) l s = (Ok (r, service_name p), s1, (t1 ++ [])%list).
Proof. intros H. simpl. unfold try_catch, bind. now rewrite H. Qed.

Lemma first_success_winner (f : Provider -> M ChatResponse) (chain : list Provider)
      (l : ChatResponse) (s : Store) :
  (forall p, quiet is_provider_call (f p)) ->
  exists t,
    first_success f chain l s =
      (Ok (winner (map (fun p => (p, result_of (f p s))) chain) l), s, t)
    /\ forallb is_provider_call t = true.
Proof.
  intros Hq. induction chain as [|p rest IH]; simpl.
  - now exists [].
  - destruct IH as (t & IH & Ht). unfold try_catch, bind, result_of.
    destruct (Hq p s) as [Hs Hp]. unfold store_of, trace_of in *.
    destruct (f p s) as [[[r|e] s1] t1]; simpl in *; subst s1.
    + exists (t1 ++ [])%list. rewrite app_nil_r. now split.
    + rewrite IH. exists (t1 ++ t)%list. split; [reflexivity|].
      rewrite forallb_app. now rewrite Hp, Ht.
Qed.

(** The nested [try]/[catch] blocks are this chain. *)
Lemma getAIResponse_is_first_success :
  cascade = first_success run fallback_order last.
Proof. reflexivity. Qed.

Lemma getAIResponse_returns (s : Store) :
  exists t,
    cascade s =
      (Ok (winner (map (fun p => (p, result_of (run p s))) fallback_order) last), s, t)
    /\ forallb is_provider_call t = true.
Proof.
  rewrite getAIResponse_is_first_success. apply first_success_winner, attempt_quiet.
Qed.

Lemma getAIResponse_calls_in_order (s : Store) :
  subsequence (providers_called (trace_of (cascade s))) fallback_order = true.
Proof.
  unfold getAIResponse, tryGroq, tryOllama, tryHuggingFace, tryOpenAI,
    try_catch, bind, call, throw, lift, ret, trace_of; simpl.
  break_match; reflexivity.
Qed.

(** Every provider raising leaves the rule-based answer. *)
Lemma all_raise_rule_based (s : Store) :
  (forall p, exists e, result_of (run p s) = Throw e) ->
  exists t, cascade s = (Ok (last, "rule-based"), s, t)
            /\ forallb is_provider_call t = true.
Proof.
  intros Hall. destruct (getAIResponse_returns s) as (t & Heq & Ht).
  exists t. split; [|assumption]. rewrite Heq. repeat f_equal.
  unfold fallback_order. cbn [map].
  destruct (Hall Groq) as [? ->], (Hall Ollama) as [? ->],
           (Hall HuggingFace) as [? ->], (Hall OpenAI) as [? ->].
  reflexivity.
Qed.

(** The nested blocks against the cascade as the specification words
    it: the answer, and the calls made, one by one. *)
Lemma getAIResponse_asks (s : Store) :
  cascade s
  = (Ok (Observed.answered_by E systemPrompt userMessage fallback_order last), s,
     map (fun p => EvProviderCall p systemPrompt userMessage)
         (Observed.asked E systemPrompt userMessage fallback_order)).
Proof.
  unfold getAIResponse, tryGroq, tryOllama, tryHuggingFace, tryOpenAI,
    try_catch, bind, call, lift, ret, throw.
  unfold fallback_order, Observed.asked, Observed.answered_by, Observed.answer_of,
    Observed.has_credentials.
  simpl. break_match; reflexivity.
Qed.

(** The service reported is a provider's name or ['rule-based']; the
    latter comes with the rule-based message. *)
Lemma winner_service (outcomes : list (Provider * Result ChatResponse)) :
  (snd (winner outcomes last) = "rule-based" /\ fst (winner outcomes last) = last)
  \/ exists p, snd (winner outcomes last) = service_name p.
Proof.
  induction outcomes as [|[p [r|e]] rest IH]; simpl; [now left| |assumption].
  right. now exists p.
Qed.

End Cascade.

End CascadeFacts.

(* ===================================================================== *)
(** ** The chat pipeline *)
(* ===================================================================== *)

Module PipelineFacts.

Import Chat EffFacts.

Section Pipeline.

Variable lower : string -> string.
Variable E : Env.

Lemma pipeline_filtered (s : Store) (tenantId userId : string) (body : option RawBody)
      (validated : Validated) :
  requireModuleAccess E "ai-studio" = Ok (tenantId, userId) ->
  request_json E = Ok body ->
  chatSchema_parse body = Ok validated ->
  isPersonalQuery lower (v_message validated) = true ->
  pipeline lower E s = (Ok filtered_response, s, [EvAccessCheck "ai-studio"; EvReadBody]).
Proof.
  intros Hacc Hbody Hparse Hpers. unfold pipeline, bind, call, lift.
  rewrite Hacc, Hbody, Hparse. simpl. rewrite Hpers. reflexivity.
Qed.

Lemma pipeline_clarifies (s : Store) tenantId userId validated businessContext reads :
  Analysed lower E s tenantId userId validated businessContext reads ->
  asks_clarification (analysis_of E validated businessContext) = true ->
  pipeline lower E s =
    (Ok (clarification_response E (analysis_of E validated businessContext)), s,
     [EvAccessCheck "ai-studio"; EvReadBody] ++ reads
       ++ [EvAnalyzeContext (v_message validated)])%list.
Proof.
  intros [Hacc (body & Hbody & Hparse) Hpers Hctx] Hgate.
  unfold pipeline, bind, call, lift, emit.
  rewrite Hacc, Hbody, Hparse. simpl. rewrite Hpers, Hctx.
  unfold asks_clarification, analysis_of in Hgate. rewrite Hgate.
  simpl. rewrite ?app_nil_r. reflexivity.
Qed.

Lemma pipeline_answers (s : Store) tenantId userId validated businessContext reads
      (response : ChatResponse) (usedService : string) (calls : list Event) :
  Analysed lower E s tenantId userId validated businessContext reads ->
  asks_clarification (analysis_of E validated businessContext) = false ->
  getAIResponse lower E (v_message validated) businessContext
    (system_prompt tenantId validated) (user_prompt lower E validated businessContext) s
    = (Ok (response, usedService), s, calls) ->
  exists s',
    pipeline lower E s =
      (Ok (answer_response response usedService), s',
       [EvAccessCheck "ai-studio"; EvReadBody] ++ reads
         ++ [EvAnalyzeContext (v_message validated)] ++ calls
         ++ cache_events validated response usedService
         ++ [EvEnqueue (log_job tenantId userId validated response)])%list.
Proof.
  intros [Hacc (body & Hbody & Hparse) Hpers Hctx] Hgate Hai.
  unfold pipeline, bind, call, lift, emit.
  rewrite Hacc, Hbody, Hparse. simpl. rewrite Hpers, Hctx.
  unfold asks_clarification, analysis_of, system_prompt, user_prompt, analysis_of in Hgate, Hai.
  rewrite Hgate, Hai.
  unfold cache_events, cacheSet, enqueue, try_catch, bind, call, modify, ret, log_job.
  simpl.
  destruct (negb (usedService =? "rule-based") && truthy (message response));
    [destruct (semanticCache_set E _ _)|];
    destruct (mediumPriorityQueue_add E _); simpl;
    eexists; rewrite ?app_nil_r; reflexivity.
Qed.

(** The outer [catch] makes no call: the handler calls whom the
    pipeline calls, and answers what the pipeline answers when it returns. *)
Lemma POST_of_pipeline (s : Store) :
  trace_of (POST lower E s) = trace_of (pipeline lower E s)
  /\ store_of (POST lower E s) = store_of (pipeline lower E s)
  /\ (forall r, result_of (pipeline lower E s) = Ok r -> result_of (POST lower E s) = Ok r)
  /\ (forall e, result_of (pipeline lower E s) = Throw e ->
                result_of (POST lower E s) = Ok (errorResponse E e)).
Proof.
  unfold POST, try_catch, ret, trace_of, store_of, result_of.
  destruct (pipeline lower E s) as [[[r|e] s1] t1]; simpl; rewrite ?app_nil_r;
    repeat split; congruence.
Qed.

Lemma POST_returns (s : Store) (r : Response) (s' : Store) (t : list Event) :
  pipeline lower E s = (Ok r, s', t) -> POST lower E s = (Ok r, s', t).
Proof. intros H. unfold POST, try_catch. now rewrite H. Qed.

Lemma reads_are_not_provider_calls (s : Store) tenantId message ctx reads :
  assembleContext E tenantId message s = (Ok ctx, s, reads) ->
  existsb is_provider_call reads = false
  /\ existsb is_cache_write reads = false
  /\ existsb is_enqueue reads = false.
Proof.
  intros H. destruct (ContextFacts.assembleContext_returns E tenantId message s)
    as (ctx' & t' & Heq & Hall).
  rewrite H in Heq. injection Heq as _ <-.
  repeat split; apply (forallb_none is_persistence); auto; now intros [].
Qed.


(** C7, as the handler implements it. The clarifying question is returned
    when the analysis reports confidence ['low'] and also reports that the
    context is not enough (the test of line 72 is the conjunction). The
    response then has service ['context-analyzer'] and
    [needsClarification: true], and no provider client has been called. *)
Theorem low_confidence_without_context_asks
        (s : Store) (tenantId userId : string) (validated : Validated)
        (businessContext : string) (reads : list Event) :
  Analysed lower E s tenantId userId validated businessContext reads ->
  confidence (analysis_of E validated businessContext) = low ->
  hasEnoughContext (analysis_of E validated businessContext) = false ->
  POST lower E s =
    (Ok (clarification_response E (analysis_of E validated businessContext)), s,
     [EvAccessCheck "ai-studio"; EvReadBody] ++ reads
       ++ [EvAnalyzeContext (v_message validated)])%list
  /\ body_field "needsClarification"
       (clarification_response E (analysis_of E validated businessContext)) = JBool true
  /\ body_field "service"
       (clarification_response E (analysis_of E validated businessContext))
     = JString "context-analyzer"
  /\ body_field "message"
       (clarification_response E (analysis_of E validated businessContext))
     = JString (formatClarifyingQuestions E (analysis_of E validated businessContext))
  /\ existsb is_provider_call (trace_of (POST lower E s)) = false.
Proof.
  intros Han Hlow Hnot.
  assert (Hgate : asks_clarification (analysis_of E validated businessContext) = true)
    by (unfold asks_clarification; now rewrite Hlow, Hnot).
  rewrite (POST_returns s _ _ _ (pipeline_clarifies s _ _ _ _ _ Han Hgate)).
  repeat split; try reflexivity.
  destruct (reads_are_not_provider_calls s _ _ _ _ (an_context _ _ _ _ _ _ _ _ Han)) as (Hp & _ & _).
  unfold trace_of; simpl. rewrite existsb_app, Hp. reflexivity.
Qed.

(** The rule-based responder answers every query, on every context, with
    a non-empty text. *)
Lemma getHelpfulResponse_nonempty (query businessContext : string) :
  truthy (getHelpfulResponse lower query businessContext) = true.
Proof.
  unfold getHelpfulResponse. break_match; reflexivity.
Qed.

(** C2. The rule-based responder returns a non-empty string for every
    message and every context (it is a total function: it cannot raise).
    So when each of the four networked providers raises, the request
    that reached the cascade is still answered, with status 200, with the
    rule-based text, and with service ['rule-based']. *)
Theorem rule_based_answer_when_all_providers_raise
        (s : Store) (tenantId userId : string) (validated : Validated)
        (businessContext : string) (reads : list Event) :
  Analysed lower E s tenantId userId validated businessContext reads ->
  asks_clarification (analysis_of E validated businessContext) = false ->
  (forall p, exists e,
      result_of (attempt E (system_prompt tenantId validated)
                         (user_prompt lower E validated businessContext) p s) = Throw e) ->
  (forall query context, getHelpfulResponse lower query context <> "")
  /\ exists s' t,
       POST lower E s =
         (Ok (answer_response (ruleBased lower (v_message validated) businessContext)
                              "rule-based"), s', t)
       /\ status (answer_response (ruleBased lower (v_message validated) businessContext)
                                  "rule-based") = 200
       /\ body_field "service"
            (answer_response (ruleBased lower (v_message validated) businessContext)
                             "rule-based") = JString "rule-based"
       /\ body_field "message"
            (answer_response (ruleBased lower (v_message validated) businessContext)
                             "rule-based")
          = JString (getHelpfulResponse lower (v_message validated) businessContext)
       /\ existsb is_cache_write t = false.
Proof.
  intros Han Hgate Hall. split.
  - intros query context. apply StringFacts.truthy_nonempty, getHelpfulResponse_nonempty.
  - destruct (CascadeFacts.all_raise_rule_based lower E (v_message validated) businessContext
                _ _ s Hall) as (calls & Hai & Hcalls).
    destruct (pipeline_answers s _ _ _ _ _ _ _ _ Han Hgate Hai) as (s' & Hp).
    exists s'. eexists. split; [apply POST_returns, Hp|].
    repeat split.
    destruct (reads_are_not_provider_calls s _ _ _ _ (an_context _ _ _ _ _ _ _ _ Han))
      as (_ & Hr & _).
    assert (Hc : existsb is_cache_write calls = false)
      by (apply (forallb_none is_provider_call); [now intros []|assumption]).
    simpl. rewrite existsb_app, Hr. simpl. rewrite existsb_app, Hc. reflexivity.
Qed.

Lemma pipeline_outcome (s : Store) : Outcome lower E s (pipeline lower E s).
Proof.
  destruct (requireModuleAccess E "ai-studio") as [[tenantId userId]|e] eqn:Hacc.
  2:{ unfold pipeline, bind, call. rewrite Hacc. now constructor. }
  destruct (request_json E) as [body|e] eqn:Hbody.
  2:{ unfold pipeline, bind, call. rewrite Hacc, Hbody. now constructor. }
  destruct (chatSchema_parse body) as [validated|e] eqn:Hparse.
  2:{ unfold pipeline, bind, call, lift. rewrite Hacc, Hbody, Hparse. now constructor. }
  destruct (isPersonalQuery lower (v_message validated)) eqn:Hpers.
  { rewrite (pipeline_filtered s _ _ _ _ Hacc Hbody Hparse Hpers). constructor. }
  destruct (ContextFacts.assembleContext_returns E tenantId (v_message validated) s)
    as (businessContext & reads & Hctx & _).
  assert (Han : Analysed lower E s tenantId userId validated businessContext reads)
    by (constructor; eauto).
  destruct (asks_clarification (analysis_of E validated businessContext)) eqn:Hgate.
  { rewrite (pipeline_clarifies s _ _ _ _ _ Han Hgate). exact (Clarifying lower E s _ _ _ _ _ Han Hgate). }
  destruct (CascadeFacts.getAIResponse_returns lower E (v_message validated) businessContext
              (system_prompt tenantId validated)
              (user_prompt lower E validated businessContext) s) as (calls & Hai & Hcalls).
  match type of Hai with _ = (Ok ?w, _, _) => destruct w as [response usedService] eqn:Hw end.
  destruct (pipeline_answers s _ _ _ _ _ _ _ _ Han Hgate Hai) as (s' & ->).
  eapply Answered; eauto.
  match type of Hw with winner ?o ?l = _ =>
    destruct (CascadeFacts.winner_service lower (v_message validated) businessContext o)
      as [[H _]|[p H]] end;
    rewrite Hw in H; simpl in H; eauto.
Qed.

Lemma POST_provider_calls (s : Store) :
  providers_called (trace_of (POST lower E s)) = []
  \/ exists query businessContext systemPrompt userMessage,
       providers_called (trace_of (POST lower E s))
       = providers_called
           (trace_of (getAIResponse lower E query businessContext systemPrompt userMessage s)).
Proof.
  destruct (POST_of_pipeline s) as (-> & _).
  destruct (pipeline_outcome s)
    as [e t Hc Hp| |tenantId userId validated ctx reads Han Hgate
        |tenantId userId validated ctx reads response usedService calls s' Han Hgate Hai Hcalls Hsvc];
    unfold trace_of; cbn [fst snd].
  - left. now apply CascadeFacts.providers_called_none.
  - now left.
  - left. destruct (reads_are_not_provider_calls s _ _ _ _ (an_context _ _ _ _ _ _ _ _ Han))
      as (Hr & _ & _).
    simpl. rewrite CascadeFacts.providers_called_app.
    now rewrite (CascadeFacts.providers_called_none _ Hr).
  - right. exists (v_message validated), ctx, (system_prompt tenantId validated),
      (user_prompt lower E validated ctx).
    destruct (reads_are_not_provider_calls s _ _ _ _ (an_context _ _ _ _ _ _ _ _ Han))
      as (Hr & _ & _).
    rewrite Hai. simpl. rewrite CascadeFacts.providers_called_app.
    rewrite (CascadeFacts.providers_called_none _ Hr). simpl.
    rewrite !CascadeFacts.providers_called_app. simpl.
    unfold cache_events.
    destruct (negb (usedService =? "rule-based") && truthy (message response));
      simpl; now rewrite app_nil_r.
Qed.

(** C1. The chat pipeline tries Groq, then Ollama, then Hugging Face,
    then OpenAI, then the rule-based responder. Going down that order,
    the handler calls every provider that has its credentials, once,
    with the two prompts of the request, until one answers; a provider
    that raises (or, for OpenAI, answers with a response that is not
    [ok] or does not parse) hands over to the next one; the answer is
    that of the first provider that answered, under its service name, or
    the rule-based one. These are exactly the calls made: over a whole
    request that reaches the cascade the provider clients called are
    those, in that order, so none is skipped and none is called twice. *)
Theorem provider_cascade_in_fixed_order
        (query businessContext systemPrompt userMessage : string) (s : Store) :
  getAIResponse lower E query businessContext systemPrompt userMessage s
  = (Ok (Observed.answered_by E systemPrompt userMessage fallback_order
                              (ruleBased lower query businessContext)),
     s,
     map (fun p => EvProviderCall p systemPrompt userMessage)
         (Observed.asked E systemPrompt userMessage fallback_order))
  /\ (forall tenantId userId validated context reads,
        Analysed lower E s tenantId userId validated context reads ->
        asks_clarification (analysis_of E validated context) = false ->
        providers_called (trace_of (POST lower E s))
        = Observed.asked E (system_prompt tenantId validated)
                         (user_prompt lower E validated context) fallback_order)
  /\ getAIResponse lower E query businessContext systemPrompt userMessage
     = first_success (attempt E systemPrompt userMessage) fallback_order
                     (ruleBased lower query businessContext)
  /\ result_of (getAIResponse lower E query businessContext systemPrompt userMessage s)
     = Ok (winner (map (fun p => (p, result_of (attempt E systemPrompt userMessage p s)))
                       fallback_order)
                  (ruleBased lower query businessContext))
  /\ subsequence (providers_called (trace_of (POST lower E s))) fallback_order = true
  /\ NoDup (providers_called (trace_of (POST lower E s))).
Proof.
  split; [apply CascadeFacts.getAIResponse_asks|]. split.
  { intros tenantId userId validated context reads Han Hgate.
    pose proof (CascadeFacts.getAIResponse_asks lower E (v_message validated) context
                  (system_prompt tenantId validated)
                  (user_prompt lower E validated context) s) as Hai.
    destruct (Observed.answered_by E (system_prompt tenantId validated)
                (user_prompt lower E validated context) fallback_order
                (ruleBased lower (v_message validated) context))
      as [response usedService].
    destruct (pipeline_answers s _ _ _ _ _ _ _ _ Han Hgate Hai) as (s' & Hrun).
    rewrite (POST_returns s _ _ _ Hrun). unfold trace_of. cbn [snd].
    destruct (reads_are_not_provider_calls s _ _ _ _ (an_context _ _ _ _ _ _ _ _ Han))
      as (Hr & _ & _).
    simpl. rewrite CascadeFacts.providers_called_app.
    rewrite (CascadeFacts.providers_called_none _ Hr). simpl.
    rewrite !CascadeFacts.providers_called_app, CascadeFacts.providers_called_map.
    unfold cache_events.
    destruct (negb (usedService =? "rule-based") && truthy (message response));
      simpl; now rewrite app_nil_r. }
  split; [reflexivity|]. split.
  - destruct (CascadeFacts.getAIResponse_returns lower E query businessContext
                systemPrompt userMessage s) as (t & -> & _). reflexivity.
  - assert (Hsub : subsequence (providers_called (trace_of (POST lower E s)))
                               fallback_order = true).
    { destruct (POST_provider_calls s) as [->|(q & c & sys & usr & ->)];
        [reflexivity|apply CascadeFacts.getAIResponse_calls_in_order]. }
    split; [exact Hsub|].
    apply (CascadeFacts.subsequence_NoDup _ _ CascadeFacts.fallback_order_NoDup Hsub).
Qed.

Ltac oblivious_step :=
  first
    [ apply oblivious_ret | apply oblivious_throw | apply oblivious_lift
    | apply oblivious_call | apply oblivious_emit | apply oblivious_modify
    | apply oblivious_bind; [|intros ?]
    | apply oblivious_try_catch; [|intros ?]
    | apply oblivious_promise_all; repeat constructor
    | match goal with
      | |- oblivious (if ?b then _ else _) => destruct b
      | |- oblivious (match ?x with _ => _ end) => destruct x
      end ].

(** The handler never reads the cache (the lookup of lines 86-94 is
    commented out), nor the queue: what it answers and whom it calls do
    not depend on what they hold. *)
Lemma POST_oblivious : oblivious (POST lower E).
Proof.
  unfold POST, pipeline, assembleContext, getBusinessContext, matchContact,
    findUnique, findMany, count, getAIResponse, tryGroq, tryOllama, tryHuggingFace,
    tryOpenAI, cacheSet, enqueue.
  repeat (cbv zeta; oblivious_step).
Qed.

Lemma service_name_networked (p : Provider) :
  networked (JString (service_name p)) = true
  /\ String.eqb (service_name p) "rule-based" = false.
Proof. destruct p; split; reflexivity. Qed.

(** C3, as the handler implements it. A cache write happens exactly when
    the answer comes from a networked provider (service ['groq'],
    ['ollama'], ['huggingface'] or ['openai']) and its text is not empty;
    the entry is then keyed by the message as received and holds the text
    returned. The cache is only written: the handler's answer and its
    calls are the same whatever the cache holds, so a repeated message
    goes through the providers again. *)
Theorem cache_write_iff_networked_answer (s : Store) :
  (existsb is_cache_write (trace_of (pipeline lower E s)) = true <->
   exists r, result_of (pipeline lower E s) = Ok r
             /\ networked (body_field "service" r) = true
             /\ js_truthy (body_field "message" r) = true)
  /\ (forall key value,
         In (EvCacheSet key value) (trace_of (pipeline lower E s)) ->
         exists body validated r,
           request_json E = Ok body /\ chatSchema_parse body = Ok validated
           /\ key = v_message validated
           /\ result_of (pipeline lower E s) = Ok r
           /\ body_field "message" r = JString value)
  /\ (forall r, result_of (pipeline lower E s) = Ok r -> body_field "cached" r = JBool false)
  /\ trace_of (POST lower E s) = trace_of (pipeline lower E s)
  /\ (forall r, result_of (pipeline lower E s) = Ok r -> result_of (POST lower E s) = Ok r)
  /\ (forall s2, result_of (POST lower E s2) = result_of (POST lower E s)
                 /\ trace_of (POST lower E s2) = trace_of (POST lower E s)).
Proof.
  split; [|split; [|split; [|split; [apply POST_of_pipeline|split;
    [apply POST_of_pipeline|intros s2; apply POST_oblivious]]]]].
  3:{ intros r. destruct (pipeline_outcome s); unfold result_of; cbn [fst];
        intros [= <-]; reflexivity. }
  - destruct (pipeline_outcome s)
      as [e t Hc Hp| |tenantId userId validated ctx reads Han Hgate
          |tenantId userId validated ctx reads response usedService calls s' Han Hgate Hai Hcalls Hsvc];
      unfold trace_of, result_of; cbn [fst snd].
    + rewrite Hc. split; [discriminate|]. intros (r & H & _). discriminate.
    + split; [discriminate|]. intros (r & [= <-] & H & _). discriminate.
    + destruct (reads_are_not_provider_calls s _ _ _ _ (an_context _ _ _ _ _ _ _ _ Han))
        as (_ & Hr & _).
      simpl. rewrite existsb_app, Hr. simpl.
      split; [discriminate|]. intros (r & [= <-] & H & _). discriminate.
    + destruct (reads_are_not_provider_calls s _ _ _ _ (an_context _ _ _ _ _ _ _ _ Han))
        as (_ & Hr & _).
      assert (Hc : existsb is_cache_write calls = false)
        by (apply (forallb_none is_provider_call); [now intros []|assumption]).
      simpl. rewrite existsb_app, Hr. simpl. rewrite existsb_app, Hc. simpl.
      rewrite existsb_app. unfold cache_events.
      destruct Hsvc as [->|[p ->]].
      * simpl. split; [discriminate|]. intros (r & [= <-] & H & _). discriminate.
      * destruct (service_name_networked p) as [Hn Hne]. rewrite Hne. simpl.
        destruct (truthy (message response)) eqn:Hm; simpl.
        -- split; [intros _|reflexivity]. eexists. split; [reflexivity|].
           split; [exact Hn|exact Hm].
        -- split; [discriminate|]. intros (r & [= <-] & _ & H). simpl in H. congruence.
  - intros key value.
    destruct (pipeline_outcome s)
      as [e t Hc Hp| |tenantId userId validated ctx reads Han Hgate
          |tenantId userId validated ctx reads response usedService calls s' Han Hgate Hai Hcalls Hsvc];
      unfold trace_of, result_of; cbn [fst snd]; intros Hin.
    + exfalso. apply (in_split) in Hin as (l1 & l2 & ->).
      rewrite existsb_app in Hc. simpl in Hc. now rewrite orb_true_r in Hc.
    + simpl in Hin. intuition discriminate.
    + exfalso.
      destruct (reads_are_not_provider_calls s _ _ _ _ (an_context _ _ _ _ _ _ _ _ Han))
        as (_ & Hr & _).
      simpl in Hin. destruct Hin as [H|[H|Hin]]; try discriminate.
      apply in_app_or in Hin as [Hin|[H|[]]]; [|discriminate].
      apply in_split in Hin as (l1 & l2 & ->).
      rewrite existsb_app in Hr. simpl in Hr. now rewrite orb_true_r in Hr.
    + destruct (reads_are_not_provider_calls s _ _ _ _ (an_context _ _ _ _ _ _ _ _ Han))
        as (_ & Hr & _).
      assert (Hc : existsb is_cache_write calls = false)
        by (apply (forallb_none is_provider_call); [now intros []|assumption]).
      assert (Hno : forall l, existsb is_cache_write l = false -> ~ In (EvCacheSet key value) l).
      { intros l Hl Hi. apply in_split in Hi as (l1 & l2 & ->).
        rewrite existsb_app in Hl. simpl in Hl. now rewrite orb_true_r in Hl. }
      simpl in Hin. destruct Hin as [H|[H|Hin]]; try discriminate.
      apply in_app_or in Hin as [Hin|Hin]; [now apply Hno in Hin|].
      simpl in Hin. destruct Hin as [H|Hin]; [discriminate|].
      apply in_app_or in Hin as [Hin|Hin]; [now apply Hno in Hin|].
      apply in_app_or in Hin as [Hin|[H|[]]]; [|discriminate].
      unfold cache_events in Hin.
      destruct (negb (usedService =? "rule-based") && truthy (message response));
        [|destruct Hin].
      destruct Hin as [[= <- <-]|[]].
      destruct (an_body _ _ _ _ _ _ _ _ Han) as (body & Hbody & Hparse).
      exists body, validated. eexists. repeat split; eauto.
Qed.

End Pipeline.


Lemma analysed_sample (E : Env) (message_ : string) (reads : list Event) :
  requireModuleAccess E "ai-studio" = Ok (Examples.tenant, Examples.user) ->
  request_json E = Ok (Some {| raw_message := JString message_; raw_context := ContextAbsent |}) ->
  chatSchema_parse (Some {| raw_message := JString message_; raw_context := ContextAbsent |})
    = Ok {| v_message := message_; v_context := None |} ->
  isPersonalQuery ascii_toLowerCase message_ = false ->
  assembleContext E Examples.tenant message_ empty_store
    = (Ok Examples.rendered, empty_store, reads) ->
  Analysed ascii_toLowerCase E empty_store Examples.tenant Examples.user
           {| v_message := message_; v_context := None |} Examples.rendered reads.
Proof.
  intros Hacc Hbody Hparse Hpers Hctx. constructor; try assumption.
  eexists. split; [exact Hbody|exact Hparse].
Qed.

Lemma low_confidence_without_context_asks_witness :
  existsb is_provider_call (trace_of (POST ascii_toLowerCase Examples.env_vague empty_store))
  = false
  /\ result_of (POST ascii_toLowerCase Examples.env_vague empty_store)
     = Ok (clarification_response Examples.env_vague (Examples.analysis false low)).
Proof.
  pose proof (low_confidence_without_context_asks ascii_toLowerCase Examples.env_vague
                empty_store Examples.tenant Examples.user
                {| v_message := "prepare it"; v_context := None |} Examples.rendered _
                (analysed_sample Examples.env_vague "prepare it" _
                   eq_refl eq_refl eq_refl eq_refl eq_refl)
                eq_refl eq_refl) as (Heq & _ & _ & _ & Hnone).
  split; [exact Hnone|]. rewrite Heq. reflexivity.
Defined.

(** Confidence ['low'] alone does not decide: the analysis reports it together
    with [hasEnoughContext: true]; the handler then goes on to the
    providers and answers with service ['groq']. *)
Lemma low_confidence_with_context_is_answered :
  confidence (analysis_of Examples.env_low_but_enough
                {| v_message := "prepare it"; v_context := None |} Examples.rendered) = low
  /\ providers_called (trace_of (POST ascii_toLowerCase Examples.env_low_but_enough empty_store))
     = [Groq]
  /\ exists r,
       result_of (POST ascii_toLowerCase Examples.env_low_but_enough empty_store) = Ok r
       /\ body_field "service" r = JString "groq"
       /\ body_field "needsClarification" r = JUndefined.
Proof.
  split; [reflexivity|]. split; [vm_compute; reflexivity|].
  eexists. split; [vm_compute; reflexivity|]. split; reflexivity.
Qed.

Lemma provider_cascade_in_fixed_order_witness :
  providers_called (trace_of (POST ascii_toLowerCase Examples.env_offline empty_store))
  = [Groq; Ollama].
Proof.
  destruct (provider_cascade_in_fixed_order ascii_toLowerCase Examples.env_offline
              "" "" "" "" empty_store) as (_ & Hcalls & _).
  rewrite (Hcalls Examples.tenant Examples.user
             {| v_message := "Which invoices are overdue?"; v_context := None |}
             Examples.rendered _
             (analysed_sample Examples.env_offline "Which invoices are overdue?" _
                eq_refl eq_refl eq_refl eq_refl eq_refl)
             eq_refl).
  reflexivity.
Defined.

Lemma rule_based_answer_when_all_providers_raise_witness :
  exists s' t,
    POST ascii_toLowerCase Examples.env_offline empty_store
    = (Ok (answer_response
             (ruleBased ascii_toLowerCase "Which invoices are overdue?" Examples.rendered)
             "rule-based"), s', t)
    /\ existsb is_cache_write t = false.
Proof.
  destruct (rule_based_answer_when_all_providers_raise ascii_toLowerCase Examples.env_offline
              empty_store Examples.tenant Examples.user
              {| v_message := "Which invoices are overdue?"; v_context := None |}
              Examples.rendered _
              (analysed_sample Examples.env_offline "Which invoices are overdue?" _
                 eq_refl eq_refl eq_refl eq_refl eq_refl)
              eq_refl)
    as (_ & s' & t & Heq & _ & _ & _ & Hnone).
  - intros []; eexists; reflexivity.
  - exists s', t. split; assumption.
Defined.

(** The rule-based answer of that request. *)
Example rule_based_sample :
  getHelpfulResponse ascii_toLowerCase "Which invoices are overdue?" Examples.rendered
  = "Here are your overdue invoices:" ++ nl ++ nl
    ++ "1. Invoice INV-7: ₹5,000 from Acme (Due: N/A)" ++ nl ++ nl
    ++ "Please follow up with these customers to ensure timely payment.".
Proof. vm_compute. reflexivity. Qed.

(** Two facts about the cache. First, the same message sent again is not
    answered from the cache: the entry is there after the first request,
    and the second request calls Groq again and reports [cached: false].
    Second, the service field differs from ['rule-based'] without any
    cache write when the message is filtered, and when a provider returns
    an empty text. *)
Lemma repeated_message_calls_provider_again :
  cache (store_of (POST ascii_toLowerCase Examples.env_revenue empty_store))
  = [("What's my revenue?", "Your revenue for the last 30 days is ₹5,000.")]
  /\ providers_called
       (trace_of (POST ascii_toLowerCase Examples.env_revenue
                       (store_of (POST ascii_toLowerCase Examples.env_revenue empty_store))))
     = [Groq]
  /\ (exists r,
         result_of (POST ascii_toLowerCase Examples.env_revenue
                         (store_of (POST ascii_toLowerCase Examples.env_revenue empty_store)))
         = Ok r
         /\ body_field "cached" r = JBool false
         /\ body_field "service" r = JString "groq")
  /\ (exists r,
         result_of (POST ascii_toLowerCase Examples.env_personal empty_store) = Ok r
         /\ body_field "service" r = JString "filtered"
         /\ existsb is_cache_write
              (trace_of (POST ascii_toLowerCase Examples.env_personal empty_store)) = false)
  /\ (exists r,
         result_of (POST ascii_toLowerCase Examples.env_empty_answer empty_store) = Ok r
         /\ body_field "service" r = JString "groq"
         /\ existsb is_cache_write
              (trace_of (POST ascii_toLowerCase Examples.env_empty_answer empty_store)) = false).
Proof.
  split; [vm_compute; reflexivity|]. split; [vm_compute; reflexivity|].
  split; [|split]; eexists; (split; [vm_compute; reflexivity|]); split; vm_compute; reflexivity.
Qed.

(** A provider answer is cached under the message as received. *)
Example cache_write_sample :
  existsb is_cache_write (trace_of (pipeline ascii_toLowerCase Examples.env_revenue empty_store))
  = true.
Proof. vm_compute. reflexivity. Qed.

(** With the database down the chat still answers; the provider is sent
    the bare message, because the context it would be wrapped with is the
    empty string. *)
Example database_down_sample :
  exists system,
    trace_of (POST ascii_toLowerCase Examples.env_database_down empty_store)
    = [ EvAccessCheck "ai-studio"; EvReadBody; EvQuery (q_tenant Examples.tenant);
        EvAnalyzeContext "what needs attention";
        EvProviderCall Groq system "what needs attention";
        EvCacheSet "what needs attention" "You have one overdue invoice.";
        EvEnqueue {| job_userId := Examples.user; job_tenantId := Examples.tenant;
                     job_query := "what needs attention";
                     job_response := "You have one overdue invoice.";
                     job_module := "general" |} ].
Proof. eexists. vm_compute. reflexivity. Qed.

End PipelineFacts.

(* ===================================================================== *)
(** ** Access checks of the routes *)
(* ===================================================================== *)

Module RouteFacts.

Import EffFacts.

(** The telephony webhook never consults the authenticator. *)
Lemma webhook_never_checks_access (lower : string -> string) (E : Webhook.Env) (s : Store) :
  existsb is_access_check (trace_of (Webhook.POST lower E s)) = false.
Proof.
  unfold Webhook.POST, try_catch, bind, call, ret, throw, trace_of, Webhook.mapTwilioStatus_of.
  simpl. break_match; reflexivity.
Qed.

(** On the chat route the access check is the first thing done: when
    it raises, the handler has called nothing else, leaves the stores as
    they were, and answers with the error response of its [catch] block,
    which is the license-error response for an error that carries a
    [moduleId]. *)
Lemma chat_access_check_comes_first
      (lower : string -> string) (E : Chat.Env) (s : Store) (e : JsError) :
  Chat.requireModuleAccess E "ai-studio" = Throw e ->
  Chat.POST lower E s = (Ok (Chat.errorResponse E e), s, [EvAccessCheck "ai-studio"])
  /\ (err_hasModuleId e = true -> Chat.errorResponse E e = Chat.handleLicenseError E e).
Proof.
  intros Hacc. split.
  - unfold Chat.POST, Chat.pipeline, try_catch, bind, call. now rewrite Hacc.
  - intros Hm. unfold Chat.errorResponse. now rewrite Hm.
Qed.

(** C5. Every endpoint is claimed to answer a request that fails
    authentication or the license check with a 401/403-equivalent
    response. The image and usage routes never consult the
    authenticator: the name they call for the check is bound nowhere, so
    the call raises a [ReferenceError] and the [catch] block answers
    every request, with credentials or without, with status 500. The
    telephony webhook makes no access check either. *)
Theorem image_and_usage_routes_never_check_access
        (lower : string -> string) (Ei : GenerateImage.Env) (Eu : Usage.Env)
        (Ew : Webhook.Env) (s : Store) :
  existsb is_access_check (trace_of (GenerateImage.POST Ei s)) = false
  /\ (exists r, result_of (GenerateImage.POST Ei s) = Ok r
                /\ status r = 500 /\ status r <> 401 /\ status r <> 403)
  /\ existsb is_access_check (trace_of (Usage.GET Eu s)) = false
  /\ (exists r, result_of (Usage.GET Eu s) = Ok r
                /\ status r = 500 /\ status r <> 401 /\ status r <> 403)
  /\ existsb is_access_check (trace_of (Webhook.POST lower Ew s)) = false.
Proof.
  split; [reflexivity|]. split.
  { eexists. split; [reflexivity|]. repeat split; discriminate. }
  split; [reflexivity|]. split.
  { eexists. split; [reflexivity|]. repeat split; discriminate. }
  apply webhook_never_checks_access.
Qed.

(** Not every endpoint is guarded. The telephony
    webhook answers a callback that carries no credentials with status
    200, after a lookup and an insert in the database. *)
Lemma webhook_runs_without_access_check :
  existsb is_access_check
    (trace_of (Webhook.POST ascii_toLowerCase (Examples.webhook_env "ringing") empty_store))
  = false
  /\ existsb is_persistence
       (trace_of (Webhook.POST ascii_toLowerCase (Examples.webhook_env "ringing") empty_store))
     = true
  /\ Webhook.created
       (trace_of (Webhook.POST ascii_toLowerCase (Examples.webhook_env "ringing") empty_store))
     <> []
  /\ exists r,
       result_of (Webhook.POST ascii_toLowerCase (Examples.webhook_env "ringing") empty_store)
       = Ok r
       /\ status r = 200.
Proof.
  split; [reflexivity|]. split; [reflexivity|]. split; [discriminate|].
  eexists. split; reflexivity.
Qed.

End RouteFacts.

(* ===================================================================== *)
(** ** The telephony webhook: every callback *)
(* ===================================================================== *)

Module WebhookBehaviour.

Import Webhook Observed.

Section Handler.

Variable lower : string -> string.

Ltac run_webhook :=
  unfold POST, try_catch, bind, call, ret, mapTwilioStatus_of, throw; simpl.

Ltac answered :=
  do 2 eexists; (split; [reflexivity|]); simpl; repeat split; auto; discriminate.

(** X14. The webhook never rejects and never touches the cache or the
    queue: whatever the callback and whatever the ORM answers, it returns
    a response that has status 200 or is the fixed 500 body. It writes to
    the call table at most once per callback (a create or an update,
    never both), and a 200 is only given after that one write. *)
Theorem webhook_answers_200_or_500 (E : Env) (s : Store) :
  exists r t,
    POST lower E s = (Ok r, s, t)
    /\ (status r = 200 \/ r = json 500 [("error", JString "Failed to process webhook")])
    /\ length (filter is_write t) <= 1
    /\ (status r = 200 -> length (filter is_write t) = 1).
Proof.
  run_webhook.
  destruct (formData E) as [fd|e]; simpl; [|answered].
  destruct (aICall_findUnique E (CallSid fd)) as [[c|]|e]; simpl; [| |answered].
  all: destruct (CallStatus fd) as [st|]; simpl; [|answered].
  - destruct (aICall_update E _ _); simpl; split_ifs; simpl; answered.
  - destruct (aICall_create E _); simpl; split_ifs; simpl; answered.
Qed.

(** X15. A callback for a call that is on record updates that record
    and creates none. The update stores the mapped status; it stamps
    [answeredAt] with the current time exactly when the vendor status is
    ['in-progress'] (overwriting an earlier stamp) and [endedAt] exactly
    when it is ['completed']; otherwise both keep their stored values. *)
Theorem webhook_known_call_is_updated
        (E : Env) (s : Store) (fd : FormData) (existing : AICall) (callStatus : string) :
  formData E = Ok fd ->
  aICall_findUnique E (CallSid fd) = Ok (Some existing) ->
  CallStatus fd = Some callStatus ->
  trace_of (POST lower E s) =
    [ EvReadBody;
      EvQuery (find_call_query (CallSid fd));
      EvUpdateCall (call_id existing)
        {| cu_status := mapTwilioStatus lower callStatus;
           cu_answeredAt := if String.eqb callStatus "in-progress" then Some (now E)
                            else call_answeredAt existing;
           cu_endedAt := if String.eqb callStatus "completed" then Some (now E)
                         else call_endedAt existing |} ]
  /\ created (trace_of (POST lower E s)) = [].
Proof.
  intros Hform Hfind Hstatus. run_webhook. unfold trace_of.
  rewrite Hform; simpl. rewrite Hfind; simpl. rewrite Hstatus; simpl.
  destruct (aICall_update E _ _); simpl; split_ifs; split; reflexivity.
Qed.

(** X16. The status mapping lowercases the vendor status, the tests
    for the timestamps and for the voice response do not. A status that
    only lowercases to ['in-progress'] is therefore stored as
    ['ANSWERED'] without an [answeredAt] stamp, and the caller gets the
    JSON acknowledgement instead of the voice response. *)
Theorem webhook_status_tests_are_case_sensitive
        (E : Env) (s : Store) (fd : FormData) (existing : AICall) (callStatus : string) :
  formData E = Ok fd ->
  aICall_findUnique E (CallSid fd) = Ok (Some existing) ->
  CallStatus fd = Some callStatus ->
  (forall data, aICall_update E (call_id existing) data = Ok tt) ->
  lower callStatus = "in-progress" ->
  existsb (String.eqb callStatus) ["ringing"; "in-progress"; "completed"] = false ->
  POST lower E s =
    (Ok (json 200 [("success", JBool true)]), s,
     [ EvReadBody;
       EvQuery (find_call_query (CallSid fd));
       EvUpdateCall (call_id existing)
         {| cu_status := JString "ANSWERED";
            cu_answeredAt := call_answeredAt existing;
            cu_endedAt := call_endedAt existing |} ]).
Proof.
  intros Hform Hfind Hstatus Hupdate Hlower Hraw.
  simpl in Hraw. rewrite orb_false_r in Hraw.
  apply orb_false_iff in Hraw as [Hr Hraw]. apply orb_false_iff in Hraw as [Hp Hc].
  run_webhook. rewrite Hform; simpl. rewrite Hfind; simpl. rewrite Hstatus; simpl.
  rewrite Hr, Hp, Hc, Hupdate. simpl.
  unfold mapTwilioStatus. rewrite Hlower. reflexivity.
Qed.

(** X17. A callback without a [CallStatus] field is answered with
    status 500 after the lookup of the call, before any write: the
    status mapping dereferences the missing value. *)
Theorem webhook_without_status_writes_nothing
        (E : Env) (s : Store) (fd : FormData) (found : option AICall) :
  formData E = Ok fd ->
  aICall_findUnique E (CallSid fd) = Ok found ->
  CallStatus fd = None ->
  POST lower E s =
    (Ok (json 500 [("error", JString "Failed to process webhook")]), s,
     [EvReadBody; EvQuery (find_call_query (CallSid fd))]).
Proof.
  intros Hform Hfind Hstatus. run_webhook.
  rewrite Hform; simpl. rewrite Hfind; simpl. rewrite Hstatus.
  destruct found; reflexivity.
Qed.

(** X18. The voice response (TwiML) is returned exactly when the
    callback was processed (status 200) and its status is, letter for
    letter, ['ringing'] or ['in-progress']; every other processed
    callback gets the JSON acknowledgement. *)
Theorem twiml_only_for_ringing_or_in_progress
        (E : Env) (s : Store) (fd : FormData) (r : Response) :
  formData E = Ok fd ->
  result_of (POST lower E s) = Ok r ->
  body r = Xml twiml <->
  status r = 200
  /\ (CallStatus fd = Some "ringing" \/ CallStatus fd = Some "in-progress").
Proof.
  intros Hform. run_webhook. unfold result_of. rewrite Hform; simpl.
  destruct (aICall_findUnique E (CallSid fd)) as [[c|]|e]; simpl.
  3:{ intros [= <-]. simpl. split; [discriminate|intros [? _]; discriminate]. }
  all: destruct (CallStatus fd) as [st|]; simpl;
    [|intros [= <-]; simpl; split; [discriminate|intros [? _]; discriminate]].
  1: destruct (aICall_update E _ _); simpl.
  3: destruct (aICall_create E _); simpl.
  2,4: intros [= <-]; simpl; split; [discriminate|intros [? _]; discriminate].
  all: destruct (String.eqb st "ringing") eqn:Hr; simpl;
    [|destruct (String.eqb st "in-progress") eqn:Hp; simpl];
    intros [= <-]; simpl.
  all: try (apply String.eqb_eq in Hr; subst st).
  all: try (apply String.eqb_eq in Hp; subst st).
  all: try (split; [intros _; split; [reflexivity|tauto]|reflexivity]).
  all: split; [discriminate|].
  all: intros [_ [[= ->]|[= ->]]]; discriminate.
Qed.

End Handler.

(** X19. Where the status mapping is as intended: for every status whose
    lowercase form is not the name of a property inherited from
    [Object.prototype], the result is one of the six internal statuses,
    and it is ['RINGING'] when the lowercase form is not a key of the
    table. *)
Theorem mapTwilioStatus_range (lower : string -> string) (status : string) :
  field (lower status) Object_prototype = JUndefined ->
  (exists v, In v call_statuses /\ mapTwilioStatus lower status = JString v)
  /\ (own_property statusMap (lower status) = None ->
      mapTwilioStatus lower status = JString "RINGING").
Proof.
  intros Hproto. unfold mapTwilioStatus, get_property.
  destruct (own_property statusMap (lower status)) as [v|] eqn:Hown.
  - split; [|discriminate]. simpl in Hown.
    repeat match type of Hown with
           | (if ?b then _ else _) = _ => destruct b
           end; try discriminate; injection Hown as <-;
      eexists; (split; [|reflexivity]); simpl; tauto.
  - rewrite Hproto. split; [|reflexivity]. exists "RINGING". simpl. tauto.
Qed.

Lemma webhook_known_call_is_updated_witness :
  trace_of (POST ascii_toLowerCase (Scenarios.webhook_known_env (Some "completed")) empty_store)
  = [ EvReadBody;
      EvQuery (find_call_query (Some "CA123"));
      EvUpdateCall "call-7"
        {| cu_status := JString "COMPLETED";
           cu_answeredAt := Some 40;
           cu_endedAt := Some 100 |} ]
  /\ created (trace_of (POST ascii_toLowerCase
                             (Scenarios.webhook_known_env (Some "completed")) empty_store)) = [].
Proof.
  exact (webhook_known_call_is_updated ascii_toLowerCase
           (Scenarios.webhook_known_env (Some "completed")) empty_store
           _ Scenarios.known_call "completed" eq_refl eq_refl eq_refl).
Defined.

Lemma webhook_status_tests_are_case_sensitive_witness :
  POST ascii_toLowerCase (Scenarios.webhook_known_env (Some "IN-PROGRESS")) empty_store
  = (Ok (json 200 [("success", JBool true)]), empty_store,
     [ EvReadBody;
       EvQuery (find_call_query (Some "CA123"));
       EvUpdateCall "call-7"
         {| cu_status := JString "ANSWERED";
            cu_answeredAt := Some 40;
            cu_endedAt := None |} ]).
Proof.
  exact (webhook_status_tests_are_case_sensitive ascii_toLowerCase
           (Scenarios.webhook_known_env (Some "IN-PROGRESS")) empty_store
           _ Scenarios.known_call "IN-PROGRESS"
           eq_refl eq_refl eq_refl (fun _ => eq_refl) eq_refl eq_refl).
Defined.

Lemma webhook_without_status_writes_nothing_witness :
  POST ascii_toLowerCase (Scenarios.webhook_known_env None) empty_store
  = (Ok (json 500 [("error", JString "Failed to process webhook")]), empty_store,
     [EvReadBody; EvQuery (find_call_query (Some "CA123"))]).
Proof.
  exact (webhook_without_status_writes_nothing ascii_toLowerCase
           (Scenarios.webhook_known_env None) empty_store
           _ (Some Scenarios.known_call) eq_refl eq_refl eq_refl).
Defined.

Lemma twiml_only_for_ringing_or_in_progress_witness :
  result_of (POST ascii_toLowerCase (Examples.webhook_env "ringing") empty_store)
  = Ok {| status := 200; body := Xml twiml |}
  /\ (body {| status := 200; body := Xml twiml |} = Xml twiml <->
      status {| status := 200; body := Xml twiml |} = 200
      /\ (Some "ringing" = Some "ringing" \/ Some "ringing" = Some "in-progress")).
Proof.
  split; [reflexivity|].
  exact (twiml_only_for_ringing_or_in_progress ascii_toLowerCase
           (Examples.webhook_env "ringing") empty_store
           (Scenarios.callback (Some "ringing")) {| status := 200; body := Xml twiml |}
           eq_refl eq_refl).
Defined.

Lemma mapTwilioStatus_range_witness :
  (exists v, In v call_statuses /\ mapTwilioStatus ascii_toLowerCase "queued" = JString v)
  /\ (own_property statusMap "queued" = None ->
      mapTwilioStatus ascii_toLowerCase "queued" = JString "RINGING").
Proof.
  exact (mapTwilioStatus_range ascii_toLowerCase "queued" eq_refl).
Defined.

End WebhookBehaviour.

(* ===================================================================== *)
(** ** The usage and image routes: every request *)
(* ===================================================================== *)

Module UnboundAccessCheck.

(** X20. The usage report is never produced. Whatever the request and
    whatever the gateway and the database would answer, the handler
    makes no call at all (no token is handed to the gateway, no usage is
    read, no query is issued) and answers status 500 with the text of
    the [ReferenceError] as [details]. *)
Theorem usage_route_always_fails (E : Usage.Env) (s : Store) :
  Usage.GET E s =
    (Ok (json 500 [ ("error", JString "Failed to retrieve usage");
                    ("details", JString "requireAIStudioAccess is not defined") ]),
     s, [])
  /\ forall E' : Usage.Env, Usage.GET E' s = Usage.GET E s.
Proof.
  assert (Hrun : forall E0 : Usage.Env,
             Usage.GET E0 s =
               (Ok (json 500 [ ("error", JString "Failed to retrieve usage");
                               ("details", JString "requireAIStudioAccess is not defined") ]),
                s, [])).
  { intros E0. unfold Usage.GET, try_catch, bind, unbound, throw, ret. reflexivity. }
  split; [apply Hrun|]. intros E'. now rewrite !Hrun.
Qed.

(** X22. No image is ever generated. Whatever the body and whatever
    lines 26-325 would do, the handler reads no body, validates nothing
    and reaches no provider: a body that would fail the schema gets the
    same answer as a valid one, status 500 with the text of the
    [ReferenceError] as [message] and [details] and an empty [hint],
    never the 400. *)
Theorem image_route_always_fails (E : GenerateImage.Env) (s : Store) :
  GenerateImage.POST E s =
    (Ok (json 500 [ ("error", JString "Failed to generate image");
                    ("message", JString "requireAIStudioAccess is not defined");
                    ("hint", JString "");
                    ("details", JString "requireAIStudioAccess is not defined") ]),
     s, [])
  /\ forall E' : GenerateImage.Env, GenerateImage.POST E' s = GenerateImage.POST E s.
Proof.
  assert (Hrun : forall E0 : GenerateImage.Env,
             GenerateImage.POST E0 s =
               (Ok (json 500 [ ("error", JString "Failed to generate image");
                               ("message", JString "requireAIStudioAccess is not defined");
                               ("hint", JString "");
                               ("details", JString "requireAIStudioAccess is not defined") ]),
                s, [])).
  { intros E0. unfold GenerateImage.POST, try_catch, bind, unbound, throw, ret. reflexivity. }
  split; [apply Hrun|]. intros E'. now rewrite !Hrun.
Qed.

(** A request with an empty prompt and one with a valid prompt. *)
Example image_route_sample :
  GenerateImage.POST Scenarios.image_env_without_prompt empty_store
  = GenerateImage.POST Examples.image_env empty_store
  /\ GenerateImage.generateImageSchema_parse
       (Some {| GenerateImage.raw_prompt := JString "";
                GenerateImage.raw_style := JUndefined;
                GenerateImage.raw_size := JUndefined |})
     = Throw Chat.ZodError.
Proof. split; reflexivity. Qed.

End UnboundAccessCheck.

(* ===================================================================== *)
(** ** The prompts and the rule-based responder *)
(* ===================================================================== *)

Module PromptBehaviour.

Import Chat StringFacts.

Lemma append_assoc (a b c : string) : (a ++ b) ++ c = a ++ b ++ c.
Proof. induction a as [|x a IH]; simpl; [reflexivity|now rewrite IH]. Qed.

Lemma append_nil_r (a : string) : a ++ "" = a.
Proof. induction a as [|x a IH]; simpl; [reflexivity|now rewrite IH]. Qed.

Lemma includes_refl (s : string) : includes s s = true.
Proof. apply includes_spec. exists "", "". simpl. now rewrite append_nil_r. Qed.

Lemma includes_app_l (a b x : string) : includes a x = true -> includes (a ++ b) x = true.
Proof.
  rewrite !includes_spec. intros (before & after & ->).
  exists before, (after ++ b). now rewrite !append_assoc.
Qed.

Lemma includes_app_r (a b x : string) : includes b x = true -> includes (a ++ b) x = true.
Proof.
  rewrite !includes_spec. intros (before & after & ->).
  exists (a ++ before), after. now rewrite !append_assoc.
Qed.

Lemma includes_trans (s a b : string) :
  includes s a = true -> includes a b = true -> includes s b = true.
Proof.
  rewrite !includes_spec. intros (b1 & a1 & ->) (b2 & a2 & ->).
  exists (b1 ++ b2), (a2 ++ a1). now rewrite !append_assoc.
Qed.

(** [if c then instructions ++ more else instructions] keeps what
    [instructions] holds. *)
Lemma includes_grow (c : bool) (a b x : string) :
  includes a x = true -> includes (if c then a ++ b else a) x = true.
Proof. destruct c; [apply includes_app_l|]; auto. Qed.

Section Prompts.

Variable lower : string -> string.

(** X11. The request kinds overlap: a message that mentions a business
    plan also counts as a blueprint request, because ['plan'] is a
    substring of ['business plan']. With a non-empty context such a
    message gets the business-plan instructions, the blueprint
    instructions and the general content instructions, after the context
    block and the message. *)
Theorem business_plan_request_gets_blueprint_too
        (message context : string) (contextAnalysis : option ContextAnalysis) :
  truthy context = true ->
  includes (lower message) "business plan" = true ->
  includes (buildUserMessage lower message context contextAnalysis) context = true
  /\ includes (buildUserMessage lower message context contextAnalysis) message = true
  /\ includes (buildUserMessage lower message context contextAnalysis) um_plan = true
  /\ includes (buildUserMessage lower message context contextAnalysis) um_blueprint = true
  /\ includes (buildUserMessage lower message context contextAnalysis) um_general = true.
Proof.
  intros Hctx Hplan.
  assert (Hp : includes (lower message) "plan" = true)
    by (apply (includes_trans _ _ _ Hplan); reflexivity).
  unfold buildUserMessage. rewrite Hctx. cbv zeta. rewrite Hplan, Hp.
  rewrite ?orb_true_l, ?orb_true_r. cbv iota.
  repeat split.
  - apply includes_app_l. do 3 apply includes_app_l. do 3 apply includes_grow.
    apply includes_app_r, includes_app_l, includes_refl.
  - apply includes_app_l. do 3 apply includes_app_l. do 3 apply includes_grow.
    do 3 apply includes_app_r. apply includes_app_l, includes_refl.
  - do 3 apply includes_app_l. apply includes_app_r, includes_refl.
  - do 2 apply includes_app_l. apply includes_app_r, includes_refl.
  - apply includes_app_l, includes_app_r, includes_refl.
Qed.

(** X10. With an empty context the user prompt is the message itself,
    unchanged. With a non-empty context the prompt contains the context
    block and the message verbatim, and, when the analysis found the
    context insufficient, the warning that lists what is missing. *)
Theorem user_prompt_wraps_the_message
        (message context : string) (contextAnalysis : option ContextAnalysis) :
  (truthy context = false ->
   buildUserMessage lower message context contextAnalysis = message)
  /\ (truthy context = true ->
      includes (buildUserMessage lower message context contextAnalysis) context = true
      /\ includes (buildUserMessage lower message context contextAnalysis) message = true
      /\ forall a, contextAnalysis = Some a -> hasEnoughContext a = false ->
           includes (buildUserMessage lower message context contextAnalysis)
                    (um_warning_head ++ join ", " (missingContext a) ++ um_warning_tail) = true).
Proof.
  unfold buildUserMessage. split; intros ->; [reflexivity|]. cbv zeta.
  repeat split.
  - apply includes_app_l. do 6 apply includes_grow.
    apply includes_app_r, includes_app_l, includes_refl.
  - apply includes_app_l. do 6 apply includes_grow.
    do 3 apply includes_app_r. apply includes_app_l, includes_refl.
  - intros a -> Ha. rewrite Ha. cbv iota beta.
    apply includes_app_l. do 6 apply includes_grow.
    do 6 apply includes_app_r. apply includes_app_l, includes_refl.
Qed.

Lemma firstn_incl {A} (n : nat) (l : list A) (x : A) : In x (firstn n l) -> In x l.
Proof.
  revert l. induction n as [|n IH]; intros [|y l]; simpl; try tauto.
  intros [->|H]; auto.
Qed.

Lemma numbered_lines_spec (text : string) :
  length (numbered_lines text) <= 5
  /\ Forall (fun line => test_numbered (trim line) = true /\ In line (split_lines text))
            (numbered_lines text).
Proof.
  unfold numbered_lines. split; [apply firstn_le_length|].
  apply Forall_forall. intros line Hin. apply firstn_incl in Hin.
  apply filter_In in Hin as [Hin Hf]. apply andb_true_iff in Hf as [_ Hf]. auto.
Qed.

(** X12. What the rule-based responder can answer: a list of at least
    one and at most five lines of the context block, each starting with
    a number and a dot, between the fixed head and tail for deals, tasks
    or invoices; or the revenue figure matched in the context; or one of
    five fixed texts. *)
Theorem rule_based_answer_shape (query businessContext : string) :
  (exists lines,
      lines <> [] /\ length lines <= 5
      /\ Forall (fun line => test_numbered (trim line) = true) lines
      /\ In (getHelpfulResponse lower query businessContext)
            [ hr_deals_head ++ join nl lines ++ hr_deals_tail;
              hr_tasks_head ++ join nl lines ++ hr_tasks_tail;
              hr_invoices_head ++ join nl lines ++ hr_invoices_tail ])
  \/ (exists revenue,
         match_revenue businessContext = Some revenue
         /\ getHelpfulResponse lower query businessContext
            = hr_revenue_head ++ revenue ++ hr_revenue_tail)
  \/ In (getHelpfulResponse lower query businessContext)
        [hr_no_deals; hr_no_tasks; hr_no_invoices; hr_no_revenue; hr_default].
Proof.
  assert (Hlist : forall text, numbered_lines text <> [] ->
            length (numbered_lines text) <= 5
            /\ Forall (fun line => test_numbered (trim line) = true) (numbered_lines text)).
  { intros text _. destruct (numbered_lines_spec text) as [Hlen Hall].
    split; [exact Hlen|]. eapply Forall_impl; [|exact Hall]. now intros l [H _]. }
  unfold getHelpfulResponse. cbv zeta.
  repeat match goal with
         | |- context [if ?b then _ else _] =>
             lazymatch b with
             | context [if _ then _ else _] => fail
             | _ => destruct b eqn:?
             end
         end.
  all: try (right; right; simpl; tauto).
  1-3: match goal with
       | |- context [match numbered_lines ?text with _ => _ end] =>
           destruct (numbered_lines text) as [|l ls] eqn:Hl;
           [right; right; simpl; tauto|]
       end;
       left; exists (l :: ls); rewrite <- Hl; (split; [rewrite Hl; discriminate|]);
       (split; [apply Hlist; rewrite Hl; discriminate|]);
       (split; [apply Hlist; rewrite Hl; discriminate|]);
       simpl; tauto.
  destruct (match_revenue businessContext) as [r|] eqn:Hr; [|right; right; simpl; tauto].
  destruct (truthy r); [|right; right; simpl; tauto].
  right. left. exists r. split; reflexivity.
Qed.

(** Without a context block the responder has nothing to list. *)
Lemma rule_based_answer_without_context (query : string) :
  In (getHelpfulResponse lower query "")
     [hr_no_deals; hr_no_tasks; hr_no_invoices; hr_no_revenue; hr_default].
Proof.
  unfold getHelpfulResponse. cbv zeta.
  change (match_revenue "") with (@None string).
  change (group2 (match_section "ACTIVE DEALS" ["PENDING INVOICES"; "=== END"] "")) with "".
  change (group2 (match_section "PENDING TASKS"
                    ["ACTIVE DEALS"; "PENDING INVOICES"; "=== END"] "")) with "".
  change (group2 (match_section "OVERDUE INVOICES"
                    ["PENDING TASKS"; "ACTIVE DEALS"; "=== END"] "")) with "".
  change (has_items "") with false. cbv iota.
  repeat match goal with
         | |- context [if ?b then _ else _] => destruct b
         end; simpl; tauto.
Qed.

(** X13. The test for an empty section is the substring ['None']
    anywhere in it: a deals section in which that word occurs (in a deal
    or company name, say) is treated as empty, and a question about
    deals is answered that there are no active deals. *)
Theorem none_in_section_hides_the_items
        (query businessContext label deals : string) :
  includes (lower query) "deal" = true ->
  match_section "ACTIVE DEALS" ["PENDING INVOICES"; "=== END"] businessContext
  = Some (label, deals) ->
  includes deals "None" = true ->
  getHelpfulResponse lower query businessContext = hr_no_deals.
Proof.
  intros Hq Hm Hnone. unfold getHelpfulResponse. cbv zeta.
  rewrite Hq, Hm. simpl orb. cbv iota. unfold has_items, group2. rewrite Hnone.
  rewrite andb_false_r. reflexivity.
Qed.

End Prompts.

Lemma business_plan_request_gets_blueprint_too_witness :
  includes (buildUserMessage ascii_toLowerCase "Draft a Business Plan for my bakery"
                             Examples.rendered None) um_blueprint = true.
Proof.
  apply (business_plan_request_gets_blueprint_too ascii_toLowerCase
           "Draft a Business Plan for my bakery" Examples.rendered None eq_refl eq_refl).
Defined.

Lemma none_in_section_hides_the_items_witness :
  getHelpfulResponse ascii_toLowerCase "Show my top deals" Scenarios.context_with_nonesuch
  = hr_no_deals.
Proof.
  apply (none_in_section_hides_the_items ascii_toLowerCase "Show my top deals"
           Scenarios.context_with_nonesuch "1"
           (nl ++ "1. Nonesuch Traders: ₹9,000 (Stage: proposal)" ++ nl ++ nl));
    reflexivity.
Defined.

End PromptBehaviour.

(* ===================================================================== *)
(** ** The chat handler: every request *)
(* ===================================================================== *)

Module ChatBehaviour.

Import Chat EffFacts Observed.

Lemma chatSchema_parse_raises_ZodError (body : option RawBody) (e : JsError) :
  chatSchema_parse body = Throw e -> e = ZodError.
Proof.
  unfold chatSchema_parse, parse_context, parse_module, parse_optional_string.
  break_match; congruence.
Qed.

Lemma chatSchema_parse_sound (body : option RawBody) (validated : Validated) :
  chatSchema_parse body = Ok validated ->
  (exists b, body = Some b /\ raw_message b = JString (v_message validated))
  /\ truthy (v_message validated) = true
  /\ In (option_or (module_of (v_context validated)) "general") module_enum.
Proof.
  unfold chatSchema_parse.
  destruct body as [b|]; [|discriminate].
  destruct (raw_message b) as [| | | |m| | | |] eqn:Hm; try discriminate.
  destruct (1 <=? js_length m)%nat eqn:Hlen; [|discriminate].
  apply Nat.leb_le in Hlen.
  destruct (parse_context (raw_context b)) as [c|e] eqn:Hc; [|discriminate].
  intros [= <-]. simpl. split; [eauto|]. split; [now apply StringFacts.js_length_truthy|].
  unfold parse_context in Hc. destruct (raw_context b) as [|md t|]; try discriminate.
  - injection Hc as <-. simpl. tauto.
  - unfold parse_module in Hc.
    destruct md; try discriminate; destruct (parse_optional_string t); try discriminate.
    + injection Hc as <-. simpl. tauto.
    + destruct (existsb (String.eqb s) module_enum) eqn:Hin; [|discriminate].
      injection Hc as <-. simpl.
      apply existsb_exists in Hin as (x & Hx & Heq). apply String.eqb_eq in Heq. subst x.
      unfold or_else. destruct (truthy s) eqn:Ht; [exact Hx|].
      destruct s; [|discriminate]. simpl in Hx. intuition discriminate.
    + destruct (existsb (String.eqb s) module_enum); discriminate.
Qed.

Lemma filter_none (P Q : Event -> bool) (t : list Event) :
  (forall e, P e = true -> Q e = false) ->
  forallb P t = true -> filter Q t = [].
Proof.
  intros HPQ. induction t as [|e t IH]; simpl; [reflexivity|].
  intros H. apply andb_true_iff in H as [He Ht]. rewrite (HPQ _ He). auto.
Qed.

Lemma In_none (P : Event -> bool) (t : list Event) (e : Event) :
  forallb P t = true -> P e = false -> ~ In e t.
Proof.
  intros Hall He Hin. rewrite forallb_forall in Hall. rewrite (Hall _ Hin) in He. discriminate.
Qed.

Section Pipeline.

Variable lower : string -> string.
Variable E : Env.

Lemma pipeline_rejects_early (s : Store) (e : JsError) (s' : Store) (t : list Event) :
  pipeline lower E s = (Throw e, s', t) ->
  s' = s
  /\ ((requireModuleAccess E "ai-studio" = Throw e /\ t = [EvAccessCheck "ai-studio"])
      \/ (t = [EvAccessCheck "ai-studio"; EvReadBody]
          /\ exists auth, requireModuleAccess E "ai-studio" = Ok auth
             /\ (request_json E = Throw e
                 \/ exists body, request_json E = Ok body /\ chatSchema_parse body = Throw e))).
Proof.
  destruct (requireModuleAccess E "ai-studio") as [[tenantId userId]|e0] eqn:Hacc.
  2:{ unfold pipeline, bind, call. rewrite Hacc. intros [= <- <- <-]. auto. }
  destruct (request_json E) as [body|e0] eqn:Hbody.
  2:{ unfold pipeline, bind, call. rewrite Hacc, Hbody. simpl. intros [= <- <- <-].
      split; [reflexivity|]. right. split; [reflexivity|]. eauto. }
  destruct (chatSchema_parse body) as [validated|e0] eqn:Hparse.
  2:{ unfold pipeline, bind, call, lift. rewrite Hacc, Hbody, Hparse. simpl.
      intros [= <- <- <-]. split; [reflexivity|]. right. split; [reflexivity|].
      eexists. split; [reflexivity|]. right. eauto. }
  intros Hrun. exfalso.
  destruct (isPersonalQuery lower (v_message validated)) eqn:Hpers.
  { rewrite (PipelineFacts.pipeline_filtered lower E s _ _ _ _ Hacc Hbody Hparse Hpers) in Hrun.
    discriminate. }
  destruct (ContextFacts.assembleContext_returns E tenantId (v_message validated) s)
    as (businessContext & reads & Hctx & _).
  assert (Han : Analysed lower E s tenantId userId validated businessContext reads)
    by (constructor; eauto).
  destruct (asks_clarification (analysis_of E validated businessContext)) eqn:Hgate.
  { rewrite (PipelineFacts.pipeline_clarifies lower E s _ _ _ _ _ Han Hgate) in Hrun.
    discriminate. }
  destruct (CascadeFacts.getAIResponse_returns lower E (v_message validated) businessContext
              (system_prompt tenantId validated)
              (user_prompt lower E validated businessContext) s) as (calls & Hai & Hcalls).
  match type of Hai with _ = (Ok ?w, _, _) => destruct w as [response usedService] eqn:Hw end.
  destruct (PipelineFacts.pipeline_answers lower E s _ _ _ _ _ _ _ _ Han Hgate Hai) as (s2 & Heq).
  rewrite Heq in Hrun. discriminate.
Qed.

(** X1. A chat request whose body does not pass the schema (no object,
    no string message, an empty message, a module outside the six
    allowed, a tenant id that is not a string) is answered 400 after the
    access check and the body read: no query, no provider call, no cache
    write and no log job. *)
Theorem invalid_chat_body_is_rejected
        (s : Store) (auth : string * string) (body : option RawBody) (e : JsError) :
  requireModuleAccess E "ai-studio" = Ok auth ->
  request_json E = Ok body ->
  chatSchema_parse body = Throw e ->
  POST lower E s =
    (Ok (json 400 [ ("error", JString "Validation error");
                    ("details", JObject "error.errors") ]), s,
     [EvAccessCheck "ai-studio"; EvReadBody]).
Proof.
  intros Hacc Hbody Hparse.
  pose proof (chatSchema_parse_raises_ZodError _ _ Hparse) as ->.
  unfold POST, pipeline, try_catch, bind, call, lift, ret.
  rewrite Hacc, Hbody. simpl. rewrite Hparse. reflexivity.
Qed.

(** The four ways a run of the pipeline can go, with the calls made. *)
Lemma pipeline_run (s : Store) :
  (exists e t, pipeline lower E s = (Throw e, s, t)
               /\ (t = [EvAccessCheck "ai-studio"]
                   \/ t = [EvAccessCheck "ai-studio"; EvReadBody])
               /\ (requireModuleAccess E "ai-studio" = Throw e
                   \/ request_json E = Throw e
                   \/ exists body, request_json E = Ok body
                                   /\ chatSchema_parse body = Throw e))
  \/ pipeline lower E s = (Ok filtered_response, s, [EvAccessCheck "ai-studio"; EvReadBody])
  \/ (exists tenantId userId validated businessContext reads,
        Analysed lower E s tenantId userId validated businessContext reads
        /\ asks_clarification (analysis_of E validated businessContext) = true
        /\ pipeline lower E s =
             (Ok (clarification_response E (analysis_of E validated businessContext)), s,
              [EvAccessCheck "ai-studio"; EvReadBody] ++ reads
                ++ [EvAnalyzeContext (v_message validated)])%list)
  \/ (exists tenantId userId validated businessContext reads response usedService calls s',
        Analysed lower E s tenantId userId validated businessContext reads
        /\ asks_clarification (analysis_of E validated businessContext) = false
        /\ getAIResponse lower E (v_message validated) businessContext
             (system_prompt tenantId validated) (user_prompt lower E validated businessContext) s
           = (Ok (response, usedService), s, calls)
        /\ forallb is_provider_call calls = true
        /\ (usedService = "rule-based" \/ exists p, usedService = service_name p)
        /\ pipeline lower E s =
             (Ok (answer_response response usedService), s',
              [EvAccessCheck "ai-studio"; EvReadBody] ++ reads
                ++ [EvAnalyzeContext (v_message validated)] ++ calls
                ++ cache_events validated response usedService
                ++ [EvEnqueue (log_job tenantId userId validated response)])%list).
Proof.
  pose proof (PipelineFacts.pipeline_outcome lower E s) as Hout.
  destruct (pipeline lower E s) as [[r s1] t] eqn:Hrun.
  inversion Hout; subst.
  - left. destruct (pipeline_rejects_early _ _ _ _ Hrun)
      as (_ & [[Hwhy ->]|[-> (auth & _ & Hwhy)]]);
      do 2 eexists; (split; [reflexivity|]); split; auto.
  - right. left. reflexivity.
  - right. right. left. exists tenantId, userId, validated, businessContext, reads.
    split; [assumption|]. split; [assumption|reflexivity].
  - right. right. right.
    exists tenantId, userId, validated, businessContext, reads, response, usedService, calls, s1.
    repeat (split; [assumption|]). reflexivity.
Qed.

Lemma reads_only_read (s : Store) tenantId userId validated businessContext reads :
  Analysed lower E s tenantId userId validated businessContext reads ->
  forallb is_persistence reads = true.
Proof.
  intros Han.
  destruct (ContextFacts.assembleContext_returns E tenantId (v_message validated) s)
    as (ctx' & t' & Heq & Hall).
  rewrite (an_context _ _ _ _ _ _ _ _ Han) in Heq. now injection Heq as _ <-.
Qed.

Lemma cache_events_only_cache validated response usedService :
  forallb is_cache_write (cache_events validated response usedService) = true.
Proof. unfold cache_events. now destruct (_ && _). Qed.

(** X7. A chat request enqueues at most one log job, and it enqueues
    one exactly when it is answered by the provider cascade, that is,
    with the service of a networked provider or ['rule-based']. Filtered
    messages, clarifying questions and rejected requests are not
    logged. *)
Theorem log_job_iff_answered (s : Store) :
  length (filter is_enqueue (trace_of (pipeline lower E s))) <= 1
  /\ (existsb is_enqueue (trace_of (pipeline lower E s)) = true <->
      exists r, result_of (pipeline lower E s) = Ok r
                /\ (networked (body_field "service" r) = true
                    \/ body_field "service" r = JString "rule-based")).
Proof.
  destruct (pipeline_run s)
    as [(e & t & -> & Ht & Hwhy)
       |[->
        |[(tenantId & userId & validated & ctx & reads & Han & Hgate & ->)
         |(tenantId & userId & validated & ctx & reads & response & usedService & calls & s'
           & Han & Hgate & Hai & Hcalls & Hsvc & ->)]]];
    unfold trace_of, result_of; cbn [fst snd].
  - destruct Ht as [-> | ->]; simpl; (split; [lia|]);
      (split; [discriminate|intros (r & Hr & _); discriminate]).
  - simpl. split; [lia|]. split; [discriminate|].
    intros (r & [= <-] & [H|H]); discriminate.
  - pose proof (reads_only_read _ _ _ _ _ _ Han) as Hreads.
    rewrite !filter_app, !existsb_app.
    rewrite (filter_none is_persistence is_enqueue reads) by (try assumption; now intros []).
    rewrite (forallb_none is_persistence is_enqueue reads) by (try assumption; now intros []).
    simpl. split; [lia|].
    split; [discriminate|]. intros (r & [= <-] & [H|H]); discriminate.
  - pose proof (reads_only_read _ _ _ _ _ _ Han) as Hreads.
    pose proof (cache_events_only_cache validated response usedService) as Hcache.
    rewrite !filter_app, !existsb_app.
    rewrite (filter_none is_persistence is_enqueue reads) by (try assumption; now intros []).
    rewrite (filter_none is_provider_call is_enqueue calls) by (try assumption; now intros []).
    rewrite (filter_none is_cache_write is_enqueue (cache_events validated response usedService))
      by (try assumption; now intros []).
    simpl. split; [lia|]. split.
    + intros _. eexists. split; [reflexivity|]. simpl.
      destruct Hsvc as [->|[p ->]]; [now right|left].
      apply PipelineFacts.service_name_networked.
    + intros _. rewrite !orb_true_r. reflexivity.
Qed.

Lemma getAIResponse_calls (query businessContext systemPrompt userMessage : string)
      (s : Store) (e : Event) :
  In e (trace_of (getAIResponse lower E query businessContext systemPrompt userMessage s)) ->
  exists p, e = EvProviderCall p systemPrompt userMessage /\ has_credentials E p = true.
Proof.
  unfold getAIResponse, tryGroq, tryOllama, tryHuggingFace, tryOpenAI,
    try_catch, bind, call, lift, ret, throw, trace_of.
  simpl. break_match.
  all: intros H;
    repeat (destruct H as [<-|H];
            [eexists; split; [reflexivity|]; simpl; first [assumption|reflexivity]|]);
    destruct H.
Qed.

Lemma POST_trace (s : Store) : trace_of (POST lower E s) = trace_of (pipeline lower E s).
Proof. apply PipelineFacts.POST_of_pipeline. Qed.

(** X4. Every provider call of a chat request is made to a provider
    whose API key is set (Ollama needs none), and carries the two prompts
    of that request: the system prompt built for the authenticated tenant
    and the module of the body, and the user prompt built from the
    message, the assembled context and its analysis. *)
Theorem provider_is_called_only_with_credentials
        (s : Store) (p : Provider) (systemPrompt userMessage : string) :
  In (EvProviderCall p systemPrompt userMessage) (trace_of (POST lower E s)) ->
  has_credentials E p = true
  /\ exists tenantId userId body validated businessContext,
       requireModuleAccess E "ai-studio" = Ok (tenantId, userId)
       /\ request_json E = Ok body
       /\ chatSchema_parse body = Ok validated
       /\ result_of (assembleContext E tenantId (v_message validated) s) = Ok businessContext
       /\ systemPrompt = buildSystemPrompt tenantId (v_context validated)
       /\ userMessage = buildUserMessage lower (v_message validated) businessContext
                          (Some (analysis_of E validated businessContext)).
Proof.
  rewrite POST_trace.
  destruct (pipeline_run s)
    as [(e & t & -> & Ht & Hwhy)
       |[->
        |[(tenantId & userId & validated & ctx & reads & Han & Hgate & ->)
         |(tenantId & userId & validated & ctx & reads & response & usedService & calls & s'
           & Han & Hgate & Hai & Hcalls & Hsvc & ->)]]];
    unfold trace_of; cbn [fst snd]; intros Hin.
  - destruct Ht as [-> | ->]; simpl in Hin; intuition discriminate.
  - simpl in Hin; intuition discriminate.
  - exfalso. rewrite !in_app_iff in Hin. simpl in Hin.
    destruct Hin as [[H|[H|[]]]|[H|[H|[]]]]; try discriminate.
    now apply (In_none is_persistence reads _ (reads_only_read _ _ _ _ _ _ Han)) in H.
  - rewrite !in_app_iff in Hin. simpl in Hin.
    destruct Hin as [[H|[H|[]]]|[H|[[H|[]]|[H|[H|[H|[]]]]]]]; try discriminate.
    + exfalso. now apply (In_none is_persistence reads _ (reads_only_read _ _ _ _ _ _ Han)) in H.
    + assert (Hin : In (EvProviderCall p systemPrompt userMessage)
                       (trace_of (getAIResponse lower E (v_message validated) ctx
                                    (system_prompt tenantId validated)
                                    (user_prompt lower E validated ctx) s)))
        by (rewrite Hai; exact H).
      apply getAIResponse_calls in Hin as (p' & [= -> -> ->] & Hcred).
      split; [exact Hcred|].
      destruct (an_body _ _ _ _ _ _ _ _ Han) as (body & Hbody & Hparse).
      exists tenantId, userId, body, validated, ctx.
      split; [apply Han|]. split; [exact Hbody|]. split; [exact Hparse|].
      split; [now rewrite (an_context _ _ _ _ _ _ _ _ Han)|].
      split; reflexivity.
    + exfalso.
      now apply (In_none is_cache_write _ _ (cache_events_only_cache _ _ _)) in H.
Qed.

Ltac pipeline_cases s :=
  destruct (pipeline_run s)
    as [(?e & ?t & -> & Ht & Hwhy)
       |[->
        |[(tenantId' & userId' & validated' & ctx & reads & Han & Hgate & ->)
         |(tenantId' & userId' & validated' & ctx & reads & response & usedService & calls & s'
           & Han & Hgate & Hai & Hcalls & Hsvc & ->)]]];
  unfold trace_of, result_of; cbn [fst snd].

Lemma Analysed_inj (s : Store) tenantId userId body validated
      tenantId' userId' validated' ctx reads :
  requireModuleAccess E "ai-studio" = Ok (tenantId, userId) ->
  request_json E = Ok body ->
  chatSchema_parse body = Ok validated ->
  Analysed lower E s tenantId' userId' validated' ctx reads ->
  tenantId' = tenantId /\ userId' = userId /\ validated' = validated.
Proof.
  intros Hacc Hbody Hparse [Hacc' (body' & Hbody' & Hparse') _ _].
  rewrite Hacc in Hacc'. injection Hacc' as <- <-.
  rewrite Hbody in Hbody'. injection Hbody' as <-.
  rewrite Hparse in Hparse'. injection Hparse' as <-. auto.
Qed.

(** X6. Over a whole chat request, every persistence query filters by
    the tenant the access check returned, except the queries on the
    interaction table. *)
Theorem chat_queries_are_tenant_scoped
        (s : Store) (tenantId userId : string) (q : Query) :
  requireModuleAccess E "ai-studio" = Ok (tenantId, userId) ->
  In q (queries (trace_of (POST lower E s))) ->
  filters_by_tenant tenantId q = true \/ q_table q = TInteraction.
Proof.
  intros Hacc. rewrite POST_trace, ContextFacts.queries_in.
  pipeline_cases s; intros Hin.
  - destruct Ht as [-> | ->]; simpl in Hin; intuition discriminate.
  - simpl in Hin; intuition discriminate.
  - rewrite !in_app_iff in Hin. simpl in Hin.
    destruct Hin as [[H|[H|[]]]|[H|[H|[]]]]; try discriminate.
    destruct Han as [Hacc' _ _ Hctx]. rewrite Hacc in Hacc'. injection Hacc' as <- <-.
    apply (ContextFacts.tenant_scoped_queries E tenantId (v_message validated') s).
    apply ContextFacts.queries_in.
    rewrite <- ContextFacts.assembleContext_is_getBusinessContext, Hctx. exact H.
  - rewrite !in_app_iff in Hin. simpl in Hin.
    destruct Hin as [[H|[H|[]]]|[H|[[H|[]]|[H|[H|[H|[]]]]]]]; try discriminate.
    + destruct Han as [Hacc' _ _ Hctx]. rewrite Hacc in Hacc'. injection Hacc' as <- <-.
      apply (ContextFacts.tenant_scoped_queries E tenantId (v_message validated') s).
      apply ContextFacts.queries_in.
      rewrite <- ContextFacts.assembleContext_is_getBusinessContext, Hctx. exact H.
    + exfalso. now apply (In_none is_provider_call calls _ Hcalls) in H.
    + exfalso.
      now apply (In_none is_cache_write _ _ (cache_events_only_cache _ _ _)) in H.
Qed.

(** X8. A log job that is enqueued carries the tenant and the user the
    access check returned, the message of the body (which is not empty),
    the text that is returned to the caller, and a module that is one of
    the six of the schema (['general'] when the body names none). *)
Theorem log_job_is_well_formed (s : Store) (job : LogJob) :
  In (EvEnqueue job) (trace_of (POST lower E s)) ->
  requireModuleAccess E "ai-studio" = Ok (job_tenantId job, job_userId job)
  /\ In (job_module job) module_enum
  /\ (exists b, request_json E = Ok (Some b) /\ raw_message b = JString (job_query job))
  /\ truthy (job_query job) = true
  /\ exists r, result_of (POST lower E s) = Ok r
               /\ body_field "message" r = JString (job_response job).
Proof.
  rewrite POST_trace.
  pose proof (PipelineFacts.POST_of_pipeline lower E s) as (_ & _ & Hok & _).
  revert Hok. pipeline_cases s; intros Hok Hin.
  - destruct Ht as [-> | ->]; simpl in Hin; intuition discriminate.
  - simpl in Hin; intuition discriminate.
  - exfalso. rewrite !in_app_iff in Hin. simpl in Hin.
    destruct Hin as [[H|[H|[]]]|[H|[H|[]]]]; try discriminate.
    now apply (In_none is_persistence reads _ (reads_only_read _ _ _ _ _ _ Han)) in H.
  - rewrite !in_app_iff in Hin. simpl in Hin.
    destruct Hin as [[H|[H|[]]]|[H|[[H|[]]|[H|[H|[H|[]]]]]]]; try discriminate.
    + exfalso. now apply (In_none is_persistence reads _ (reads_only_read _ _ _ _ _ _ Han)) in H.
    + exfalso. now apply (In_none is_provider_call calls _ Hcalls) in H.
    + exfalso.
      now apply (In_none is_cache_write _ _ (cache_events_only_cache _ _ _)) in H.
    + injection H as <-. unfold log_job. simpl.
      destruct Han as [Hacc (body & Hbody & Hparse) _ _].
      destruct (chatSchema_parse_sound _ _ Hparse) as ((b & -> & Hmsg) & Htruthy & Hmod).
      split; [exact Hacc|]. split; [exact Hmod|]. split; [eauto|]. split; [exact Htruthy|].
      eexists. split; [apply Hok; reflexivity|reflexivity].
Qed.

(** X5. When a query of the context assembly fails, the request is
    still answered with status 200; every provider that is called
    receives the bare message as user prompt, with no business data and
    no instructions around it; and when the rule-based responder answers,
    its answer is one of the five fixed texts that list nothing. *)
Theorem failed_query_sends_bare_message
        (s : Store) (tenantId userId : string) (body : option RawBody) (validated : Validated)
        (q : Query) :
  requireModuleAccess E "ai-studio" = Ok (tenantId, userId) ->
  request_json E = Ok body ->
  chatSchema_parse body = Ok validated ->
  In q (queries (trace_of (assembleContext E tenantId (v_message validated) s))) ->
  query_fails E q = true ->
  exists r,
    result_of (POST lower E s) = Ok r /\ status r = 200
    /\ (forall p systemPrompt userMessage,
          In (EvProviderCall p systemPrompt userMessage) (trace_of (POST lower E s)) ->
          userMessage = v_message validated)
    /\ (body_field "service" r = JString "rule-based" ->
        exists text,
          body_field "message" r = JString text
          /\ In text [hr_no_deals; hr_no_tasks; hr_no_invoices; hr_no_revenue; hr_default]).
Proof.
  intros Hacc Hbody Hparse Hq Hfails.
  assert (Hempty : result_of (assembleContext E tenantId (v_message validated) s) = Ok "").
  { rewrite ContextFacts.assembleContext_is_getBusinessContext in *.
    now apply ContextFacts.failed_query_empties_getBusinessContext with (q := q). }
  assert (Hbare : forall a, buildUserMessage lower (v_message validated) "" a
                            = v_message validated) by reflexivity.
  rewrite POST_trace.
  pose proof (PipelineFacts.POST_of_pipeline lower E s) as (_ & _ & Hok & _).
  revert Hok. pipeline_cases s; intros Hok.
  - exfalso. destruct Hwhy as [H|[H|(body' & H & H')]]; congruence.
  - eexists. split; [apply Hok; reflexivity|]. split; [reflexivity|].
    split; [|discriminate].
    intros p systemPrompt userMessage Hin. simpl in Hin. intuition discriminate.
  - eexists. split; [apply Hok; reflexivity|]. split; [reflexivity|].
    split; [|discriminate].
    intros p systemPrompt userMessage Hin. exfalso.
    rewrite !in_app_iff in Hin. simpl in Hin.
    destruct Hin as [[H|[H|[]]]|[H|[H|[]]]]; try discriminate.
    now apply (In_none is_persistence reads _ (reads_only_read _ _ _ _ _ _ Han)) in H.
  - destruct (Analysed_inj s _ _ _ _ _ _ _ _ _ Hacc Hbody Hparse Han) as (-> & -> & ->).
    pose proof (an_context _ _ _ _ _ _ _ _ Han) as Hctx.
    rewrite Hctx in Hempty. injection Hempty as ->.
    eexists. split; [apply Hok; reflexivity|]. split; [reflexivity|]. split.
    + intros p systemPrompt userMessage Hin.
      rewrite !in_app_iff in Hin. simpl in Hin.
      destruct Hin as [[H|[H|[]]]|[H|[[H|[]]|[H|[H|[H|[]]]]]]]; try discriminate.
      * exfalso.
        now apply (In_none is_persistence reads _ (reads_only_read _ _ _ _ _ _ Han)) in H.
      * assert (Hin : In (EvProviderCall p systemPrompt userMessage)
                         (trace_of (getAIResponse lower E (v_message validated) ""
                                      (system_prompt tenantId validated)
                                      (user_prompt lower E validated "") s)))
          by (rewrite Hai; exact H).
        apply getAIResponse_calls in Hin as (p' & [= _ _ ->] & _).
        apply Hbare.
      * exfalso.
        now apply (In_none is_cache_write _ _ (cache_events_only_cache _ _ _)) in H.
    + simpl. intros [= ->].
      destruct (CascadeFacts.getAIResponse_returns lower E (v_message validated) ""
                  (system_prompt tenantId validated)
                  (user_prompt lower E validated "") s) as (calls' & Hai' & _).
      rewrite Hai in Hai'. injection Hai' as Hw _.
      repeat match type of Hw with
             | _ = match ?x with _ => _ end => destruct x; try discriminate
             end.
      injection Hw as ->. eexists. split; [reflexivity|].
      apply PromptBehaviour.rule_based_answer_without_context.
Qed.

(** X2. The chat handler never rejects, and an error response can only
    come from the access check, from reading the body, or from the
    validation of the body (then it is the 400). Once a request is
    validated it is answered with status 200: no failure of the
    database, of a provider, of the cache or of the queue makes the
    request fail. *)
Theorem chat_fails_only_on_access_or_body (s : Store) :
  exists r,
    result_of (POST lower E s) = Ok r
    /\ ((status r = 200 /\ result_of (pipeline lower E s) = Ok r)
        \/ exists e,
             r = errorResponse E e
             /\ (requireModuleAccess E "ai-studio" = Throw e
                 \/ request_json E = Throw e
                 \/ (e = ZodError /\ status r = 400
                     /\ exists body, request_json E = Ok body
                                     /\ chatSchema_parse body = Throw e))).
Proof.
  pose proof (PipelineFacts.POST_of_pipeline lower E s) as (_ & _ & Hok & Hthrow).
  revert Hok Hthrow. pipeline_cases s; intros Hok Hthrow.
  - exists (errorResponse E e). split; [now apply Hthrow|]. right. exists e.
    split; [reflexivity|].
    destruct Hwhy as [H|[H|(body & H & H')]]; auto.
    right. right. pose proof (chatSchema_parse_raises_ZodError _ _ H') as ->. eauto.
  - eexists. split; [apply Hok; reflexivity|]. left. split; reflexivity.
  - eexists. split; [apply Hok; reflexivity|]. left. split; reflexivity.
  - eexists. split; [apply Hok; reflexivity|]. left. split; reflexivity.
Qed.

(** X3. The 500 response of the chat handler withholds [details] and
    [stack] outside the development environment, but its [message] field
    is the raw message of the error in every environment, unless that
    message matches one of the three patterns that have a friendly
    text. *)
Theorem chat_error_message_is_exposed (error : JsError) :
  err_hasModuleId error = false ->
  err_isZodError error = false ->
  status (errorResponse E error) = 500
  /\ (option_is (NODE_ENV E) "development" = false ->
      body_field "details" (errorResponse E error) = JUndefined
      /\ body_field "stack" (errorResponse E error) = JUndefined)
  /\ (option_is (NODE_ENV E) "development" = true ->
      body_field "details" (errorResponse E error) = JString (err_message error))
  /\ (includes (err_message error) "GROQ_API_KEY not configured" = false ->
      includes (err_message error) "Ollama" && includes (err_message error) "memory" = false ->
      includes (err_message error) "ECONNREFUSED" = false ->
      includes (err_message error) "fetch failed" = false ->
      body_field "message" (errorResponse E error) = JString (err_message error)).
Proof.
  intros Hlicense Hzod. unfold errorResponse. rewrite Hlicense, Hzod.
  split; [reflexivity|]. split; [|split].
  - intros ->. split; reflexivity.
  - intros ->. reflexivity.
  - intros -> -> -> ->. reflexivity.
Qed.

(** X9. What the chat handler answers and whom it calls do not depend
    on whether the cache write and the enqueueing succeed: both failures
    are swallowed. *)
Theorem answer_does_not_depend_on_cache_or_queue
        (s : Store) (cacheSet : string -> string -> Result unit)
        (queueAdd : LogJob -> Result unit) :
  result_of (POST lower (with_stores E cacheSet queueAdd) s) = result_of (POST lower E s)
  /\ trace_of (POST lower (with_stores E cacheSet queueAdd) s) = trace_of (POST lower E s).
Proof.
  set (E' := with_stores E cacheSet queueAdd).
  assert (Hpipe : result_of (pipeline lower E' s) = result_of (pipeline lower E s)
                  /\ trace_of (pipeline lower E' s) = trace_of (pipeline lower E s)).
  { destruct (requireModuleAccess E "ai-studio") as [[tenantId userId]|e] eqn:Hacc.
    2:{ unfold pipeline, bind, call. simpl. rewrite Hacc. split; reflexivity. }
    destruct (request_json E) as [body|e] eqn:Hbody.
    2:{ unfold pipeline, bind, call. simpl. rewrite Hacc, Hbody. split; reflexivity. }
    destruct (chatSchema_parse body) as [validated|e] eqn:Hparse.
    2:{ unfold pipeline, bind, call, lift. simpl. rewrite Hacc, Hbody. simpl.
        rewrite Hparse. split; reflexivity. }
    destruct (isPersonalQuery lower (v_message validated)) eqn:Hpers.
    { rewrite (PipelineFacts.pipeline_filtered lower E s _ _ _ _ Hacc Hbody Hparse Hpers).
      rewrite (PipelineFacts.pipeline_filtered lower E' s _ _ _ _ Hacc Hbody Hparse Hpers).
      split; reflexivity. }
    destruct (ContextFacts.assembleContext_returns E tenantId (v_message validated) s)
      as (businessContext & reads & Hctx & _).
    assert (Han : Analysed lower E s tenantId userId validated businessContext reads)
      by (constructor; eauto).
    assert (Han' : Analysed lower E' s tenantId userId validated businessContext reads)
      by (constructor; eauto).
    destruct (asks_clarification (analysis_of E validated businessContext)) eqn:Hgate.
    { rewrite (PipelineFacts.pipeline_clarifies lower E s _ _ _ _ _ Han Hgate).
      rewrite (PipelineFacts.pipeline_clarifies lower E' s _ _ _ _ _ Han' Hgate).
      split; reflexivity. }
    destruct (CascadeFacts.getAIResponse_returns lower E (v_message validated) businessContext
                (system_prompt tenantId validated)
                (user_prompt lower E validated businessContext) s) as (calls & Hai & Hcalls).
    match type of Hai with _ = (Ok ?w, _, _) => destruct w as [response usedService] eqn:Hw end.
    destruct (PipelineFacts.pipeline_answers lower E s _ _ _ _ _ _ _ _ Han Hgate Hai)
      as (s1 & ->).
    destruct (PipelineFacts.pipeline_answers lower E' s _ _ _ _ _ _ _ _ Han' Hgate Hai)
      as (s2 & ->).
    split; reflexivity. }
  destruct Hpipe as [Hres Htrace].
  split; [|now rewrite (POST_trace s), <- Htrace; apply PipelineFacts.POST_of_pipeline].
  pose proof (PipelineFacts.POST_of_pipeline lower E s) as (_ & _ & Hok & Hthrow).
  pose proof (PipelineFacts.POST_of_pipeline lower E' s) as (_ & _ & Hok' & Hthrow').
  destruct (result_of (pipeline lower E s)) as [r|e] eqn:Hr.
  - rewrite (Hok r eq_refl). now apply Hok'.
  - rewrite (Hthrow e eq_refl). now apply Hthrow'.
Qed.

(** X28. The [tenantId] of the request body is ignored: two bodies that
    differ only in that field (each a string or absent) get the same
    answer, the same calls and the same stores. The tenant of the
    queries, of the system prompt and of the log job is the one the
    access check returned. *)
Theorem body_tenant_id_is_ignored
        (s : Store) (message_ module_ tenantId1 tenantId2 : JsValue)
        (t1 t2 : option string) :
  parse_optional_string tenantId1 = Ok t1 ->
  parse_optional_string tenantId2 = Ok t2 ->
  POST lower (with_body E {| raw_message := message_;
                             raw_context := ContextObject module_ tenantId1 |}) s
  = POST lower (with_body E {| raw_message := message_;
                               raw_context := ContextObject module_ tenantId2 |}) s.
Proof.
  intros H1 H2. unfold POST, pipeline, try_catch, bind, call, lift.
  cbn [requireModuleAccess request_json with_body].
  destruct (requireModuleAccess E "ai-studio") as [[tenantId userId]|e]; [|reflexivity].
  unfold chatSchema_parse, parse_context. cbn [raw_message raw_context].
  rewrite H1, H2.
  destruct message_ as [| | | |m| | | |]; try reflexivity.
  destruct (1 <=? js_length m)%nat; [|reflexivity].
  destruct (parse_module module_) as [md|e]; reflexivity.
Qed.

End Pipeline.

Lemma body_tenant_id_is_ignored_witness :
  POST ascii_toLowerCase
       (with_body Examples.env_revenue
          {| raw_message := JString "What's my revenue?";
             raw_context := ContextObject (JString "accounting") (JString "tenant-2") |})
       empty_store
  = POST ascii_toLowerCase
         (with_body Examples.env_revenue
            {| raw_message := JString "What's my revenue?";
               raw_context := ContextObject (JString "accounting") JUndefined |})
         empty_store.
Proof.
  exact (body_tenant_id_is_ignored ascii_toLowerCase Examples.env_revenue empty_store
           (JString "What's my revenue?") (JString "accounting")
           (JString "tenant-2") JUndefined (Some "tenant-2") None eq_refl eq_refl).
Defined.

Lemma invalid_chat_body_is_rejected_witness :
  POST ascii_toLowerCase Scenarios.env_empty_message empty_store =
    (Ok (json 400 [ ("error", JString "Validation error");
                    ("details", JObject "error.errors") ]), empty_store,
     [EvAccessCheck "ai-studio"; EvReadBody]).
Proof.
  exact (invalid_chat_body_is_rejected ascii_toLowerCase Scenarios.env_empty_message
           empty_store _ _ ZodError eq_refl eq_refl eq_refl).
Defined.

Lemma chat_error_message_is_exposed_witness :
  body_field "message"
    (errorResponse Examples.env_revenue (Error_ "Unexpected end of JSON input"))
  = JString "Unexpected end of JSON input"
  /\ body_field "details"
       (errorResponse Examples.env_revenue (Error_ "Unexpected end of JSON input"))
     = JUndefined.
Proof.
  destruct (chat_error_message_is_exposed Examples.env_revenue
              (Error_ "Unexpected end of JSON input") eq_refl eq_refl)
    as (_ & Hproduction & _ & Hmessage).
  split; [apply Hmessage; reflexivity|apply Hproduction; reflexivity].
Defined.

Lemma provider_is_called_only_with_credentials_witness :
  has_credentials Examples.env_revenue Groq = true.
Proof.
  apply (provider_is_called_only_with_credentials ascii_toLowerCase Examples.env_revenue
           empty_store Groq
           (buildSystemPrompt Examples.tenant None)
           (buildUserMessage ascii_toLowerCase "What's my revenue?" Examples.rendered
                             (Some (Examples.analysis true high)))).
  vm_compute. repeat (first [left; reflexivity|right]).
Defined.

Lemma failed_query_sends_bare_message_witness :
  exists r,
    result_of (POST ascii_toLowerCase Examples.env_database_down empty_store) = Ok r
    /\ status r = 200.
Proof.
  destruct (failed_query_sends_bare_message ascii_toLowerCase Examples.env_database_down
              empty_store Examples.tenant Examples.user _
              {| v_message := "what needs attention"; v_context := None |}
              (q_tenant Examples.tenant) eq_refl eq_refl eq_refl)
    as (r & Hr & Hs & _).
  - simpl. left. reflexivity.
  - reflexivity.
  - exists r. split; assumption.
Defined.

Lemma chat_queries_are_tenant_scoped_witness :
  filters_by_tenant Examples.tenant (q_products Examples.tenant) = true
  \/ q_table (q_products Examples.tenant) = TInteraction.
Proof.
  apply (chat_queries_are_tenant_scoped ascii_toLowerCase Examples.env_revenue empty_store
           Examples.tenant Examples.user (q_products Examples.tenant) eq_refl).
  vm_compute. repeat (first [left; reflexivity|right]).
Defined.

Lemma log_job_is_well_formed_witness :
  In "general" module_enum
  /\ exists r,
       result_of (POST ascii_toLowerCase Examples.env_revenue empty_store) = Ok r
       /\ body_field "message" r = JString "Your revenue for the last 30 days is ₹5,000.".
Proof.
  destruct (log_job_is_well_formed ascii_toLowerCase Examples.env_revenue empty_store
              {| job_userId := Examples.user;
                 job_tenantId := Examples.tenant;
                 job_query := "What's my revenue?";
                 job_response := "Your revenue for the last 30 days is ₹5,000.";
                 job_module := "general" |})
    as (_ & Hmodule & _ & _ & Hanswer).
  - vm_compute. repeat (first [left; reflexivity|right]).
  - split; assumption.
Defined.

End ChatBehaviour.

